(** * s3-video-upload: the JUnit import tool and the S3 upload tool

    A shallow embedding of [tools/test_script.py] (JUnit parsing, result
    aggregation, comment construction, mapping cache, command-line entry
    point) and of [main.py] with [storage/bucket.py] (bucket versioning and
    lifecycle set-up), together with the properties of the specification
    that concern them.

    Conventions.  A Python [str] is a [string]; each character of the model
    stands for one code point below 256.  A Python [int] is a [Z], a Python
    [float] is a binary64 [float].  A [dict] that is only looked up is a
    [gmap], a [set] is a [gset], a [dict] whose insertion order is observed
    is an association list.  A function that can raise returns a [result]. *)

From Stdlib Require Import ZArith String Ascii List Permutation Lia.
From Stdlib Require Import DecimalString Strings.Byte.
From Stdlib Require DecimalNat.
From Stdlib Require Import Floats.PrimFloat.
From Stdlib Require Sorting.Sorted.
From stdpp Require Import base option gmap strings list.

Local Open Scope string_scope.
Local Open Scope Z_scope.
Local Open Scope list_scope.

(** ** Python strings *)

Module PyStr.

(** [s[:n]] for a bound [n >= 0] *)
Fixpoint slice_to (n : N) (s : string) : string :=
  match s with
  | EmptyString => ""
  | String c s' =>
      if N.eqb n 0 then "" else String c (slice_to (N.pred n) s')
  end.

(** the line feed, written [\n] in the source *)
Definition nl : string := String (ascii_of_nat 10) "".

(** [s.startswith(p)] *)
Fixpoint startswith (p s : string) : bool :=
  match p, s with
  | EmptyString, _ => true
  | String _ _, EmptyString => false
  | String a p', String b s' => Ascii.eqb a b && startswith p' s'
  end.

(** [sub in s] *)
Fixpoint contains (sub s : string) : bool :=
  startswith sub s ||
  match s with
  | EmptyString => false
  | String _ s' => contains sub s'
  end.

(** [c.lower()] on one code point below 256: the letters A-Z and the
    capital letters of Latin-1 (192-222 without the multiplication sign
    215) move up by 32. *)
Definition lower_char (c : ascii) : ascii :=
  let n := nat_of_ascii c in
  if ((65 <=? n) && (n <=? 90))%nat then ascii_of_nat (n + 32)
  else if ((192 <=? n) && (n <=? 222) && negb (n =? 215))%nat
       then ascii_of_nat (n + 32)
  else c.

(** [s.lower()] *)
Fixpoint lower (s : string) : string :=
  match s with
  | EmptyString => ""
  | String c s' => String (lower_char c) (lower s')
  end.

(** [s.split(sep)] for a separator of one character: the list of the
    pieces between the separators, never empty. *)
Fixpoint split (sep : ascii) (s : string) : list string :=
  match s with
  | EmptyString => [""]
  | String c s' =>
      if Ascii.eqb c sep then "" :: split sep s'
      else match split sep s' with
           | [] => [String c ""]
           | piece :: rest => String c piece :: rest
           end
  end.

(** [sep.join(lines)] *)
Fixpoint join (sep : string) (lines : list string) : string :=
  match lines with
  | [] => ""
  | [x] => x
  | x :: rest => x +:+ sep +:+ join sep rest
  end.

(** [str(n)] for a non-negative count. *)
Definition of_nat (n : nat) : string :=
  NilEmpty.string_of_uint (Nat.to_uint n).

(** [s * n] *)
Fixpoint repeat (s : string) (n : nat) : string :=
  match n with
  | O => ""
  | S n' => s +:+ repeat s n'
  end.

(** truthiness of a string: [bool(s)] *)
Definition truthy (s : string) : bool :=
  match s with EmptyString => false | _ => true end.

End PyStr.

(** ** The runtime's float primitives

    [float(s)] (which raises [ValueError] on a string that is no number)
    and the format [f"{d:.2f}"] belong to the Python runtime, not to the
    repository: the embedding takes them as an interface. *)

Class PyFloat := {
  float_of_str : string -> option float;
  format_2f : float -> string
}.

(** ** Exceptions and results *)

Inductive exn :=
| Exception
| OSError
| FileNotFoundError
| PermissionError
| ValueError
| UnicodeError
| UnicodeDecodeError
| JSONDecodeError
| ParseError
| LookupError
| IndexError
| NameError
| UnboundLocalError
| AssertionError
| ClientError (code : string).

#[export] Instance exn_eq_dec : EqDecision exn.
Proof. solve_decision. Defined.

(** The classes an exception is an instance of (its own and its bases),
    as in the Python library: [IOError] is [OSError];
    [json.JSONDecodeError] and [UnicodeDecodeError] are both [ValueError]s
    and neither is a subclass of the other; [xml.etree]'s [ParseError] is
    a [SyntaxError], here directly under [Exception]. *)
Definition mro (e : exn) : list exn :=
  match e with
  | Exception => [Exception]
  | OSError => [OSError; Exception]
  | FileNotFoundError => [FileNotFoundError; OSError; Exception]
  | PermissionError => [PermissionError; OSError; Exception]
  | ValueError => [ValueError; Exception]
  | UnicodeError => [UnicodeError; ValueError; Exception]
  | UnicodeDecodeError =>
      [UnicodeDecodeError; UnicodeError; ValueError; Exception]
  | JSONDecodeError => [JSONDecodeError; ValueError; Exception]
  | ParseError => [ParseError; Exception]
  | LookupError => [LookupError; Exception]
  | IndexError => [IndexError; LookupError; Exception]
  | NameError => [NameError; Exception]
  | UnboundLocalError => [UnboundLocalError; NameError; Exception]
  | AssertionError => [AssertionError; Exception]
  | ClientError c => [ClientError c; Exception]
  end.

Definition IOError : exn := OSError.

(** [isinstance(e, cls)] *)
Definition isinstance (e cls : exn) : bool := bool_decide (cls ∈ mro e).

Inductive result (A : Type) :=
| Ok (a : A)
| Raise (e : exn).
Arguments Ok {A} a.
Arguments Raise {A} e.

(** Sequencing: the first exception raised ends the computation.  With
    these instances [x ← m; k] is stdpp's notation for it. *)
#[export] Instance result_ret : MRet result := fun A a => Ok a.
#[export] Instance result_bind : MBind result := fun A B k m =>
  match m with Ok a => k a | Raise e => Raise e end.

(** [try: body  except classes: return handler] *)
Definition try_except {A} (body : result A) (classes : list exn) (handler : A)
  : result A :=
  match body with
  | Ok a => Ok a
  | Raise e =>
      if existsb (isinstance e) classes then Ok handler else Raise e
  end.

(** ** Status constants (class [Status]) *)

Module Status.
Definition PASS := "PASS".
Definition FAIL := "FAIL".
Definition TODO := "TODO".
Definition CONDITIONALPASS := "CONDITIONALPASS".

Definition all : list string := [PASS; FAIL; TODO; CONDITIONALPASS].
End Status.

(** ** Data classes *)

Module TestResult.
Record t := mk {
  name : string;
  full_name : string;
  status : string;
  comment : string;
  duration : float
}.
End TestResult.

(** The dict that [AggregatedResult.to_dict] returns; its four keys are
    the fields. *)
Module ResultDict.
Record t := mk {
  test_key : string;
  status : string;
  comment : string;
  duration : float
}.
End ResultDict.

Module AggregatedResult.

Record t := mk {
  test_key : string;
  status : string;
  variations : list TestResult.t;
  total_duration : float
}.

(** [AggregatedResult(test_key=k)]: the dataclass defaults. *)
Definition new (k : string) : t :=
  {| test_key := k; status := Status.PASS; variations := [];
     total_duration := 0%float |}.

(** The three-way [if]/[elif] of [add_variation] on the status. *)
Definition next_status (cur new_ : string) : string :=
  if String.eqb new_ Status.FAIL then Status.FAIL
  else if String.eqb new_ Status.TODO && negb (String.eqb cur Status.FAIL)
       then Status.TODO
  else if String.eqb new_ Status.CONDITIONALPASS && String.eqb cur Status.PASS
       then Status.CONDITIONALPASS
  else cur.

Definition add_variation (self : t) (r : TestResult.t) : t :=
  {| test_key := test_key self;
     status := next_status (status self) (TestResult.status r);
     variations := variations self ++ [r];
     total_duration := (total_duration self + TestResult.duration r)%float |}.

(** Folding [add_variation] over the variations of one group. *)
Definition add_all (self : t) (rs : list TestResult.t) : t :=
  fold_left add_variation rs self.

(** [status_icons], the dict literal of [build_comment] *)
Definition status_icons : gmap string string :=
  list_to_map [ (Status.PASS, "[PASS]"); (Status.FAIL, "[FAIL]");
                (Status.TODO, "[SKIP]"); (Status.CONDITIONALPASS, "[XFAIL]") ].

(** [f"{icon} {var.full_name} - {var.status} ({var.duration:.2f}s)"] *)
Definition variation_line `{PyFloat} (var : TestResult.t) : string :=
  default "?" (status_icons !! TestResult.status var)
  +:+ " " +:+ TestResult.full_name var
  +:+ " - " +:+ TestResult.status var
  +:+ " (" +:+ format_2f (TestResult.duration var) +:+ "s)".

(** [if len(self.variations) > 1: lines.append(...)] *)
Definition header_step (self : t) (lines : list string) : list string :=
  if (1 <? length (variations self))%nat
  then lines ++ [ "Parametrized test with "
                  +:+ PyStr.of_nat (length (variations self))
                  +:+ " variations:" +:+ PyStr.nl ]
  else lines.

(** [for var in self.variations: lines.append(...)] *)
Definition listing_step `{PyFloat} (self : t) (lines : list string)
  : list string :=
  fold_left (fun ls var => ls ++ [variation_line var]) (variations self) lines.

(** [[v for v in self.variations if v.status == Status.FAIL and v.comment]] *)
Definition failed_variations (self : t) : list TestResult.t :=
  List.filter
    (fun v => String.eqb (TestResult.status v) Status.FAIL
              && PyStr.truthy (TestResult.comment v))
    (variations self).

(** [if failed: ...  for var in failed[:5]: ...] *)
Definition details_step (self : t) (lines : list string) : list string :=
  let failed := failed_variations self in
  match failed with
  | [] => lines
  | _ :: _ =>
      fold_left
        (fun ls var =>
           (ls ++ [PyStr.nl +:+ TestResult.full_name var +:+ ":"])
           ++ [PyStr.slice_to 1000 (TestResult.comment var)])
        (take 5 failed)
        (lines ++ [PyStr.nl +:+ "--- Failure Details ---"])
  end.

Definition comment_lines `{PyFloat} (self : t) : list string :=
  details_step self (listing_step self (header_step self [])).

Definition build_comment `{PyFloat} (self : t) : string :=
  PyStr.join PyStr.nl (comment_lines self).

Definition to_dict `{PyFloat} (self : t) : ResultDict.t :=
  {| ResultDict.test_key := test_key self;
     ResultDict.status := status self;
     ResultDict.comment := build_comment self;
     ResultDict.duration := total_duration self |}.

End AggregatedResult.

Module ParsedResults.
Record t := mk {
  total : Z;
  passed : Z;
  failed : Z;
  skipped : Z;
  tests : list TestResult.t
}.

(** [ParsedResults()]: the dataclass defaults. *)
Definition new : t :=
  {| total := 0; passed := 0; failed := 0; skipped := 0; tests := [] |}.
End ParsedResults.

(** ** ElementTree elements

    [text] is the text before the first child ([None] when there is none);
    [find] looks at the direct children; the path [.//tag] of [findall]
    selects the elements with that tag on all levels beneath the element,
    in document order, and not the element itself. *)

Module ET.

#[warnings="-register-all"]
Inductive Element := Elem {
  tag : string;
  attrib : gmap string string;
  text : option string;
  children : list Element
}.

(** [element.get(key, default)] *)
Definition get (e : Element) (key default_ : string) : string :=
  default default_ (attrib e !! key).

(** [element.find(tag)]: the first direct child with that tag. *)
Definition find (e : Element) (t : string) : option Element :=
  List.find (fun c => String.eqb (tag c) t) (children e).

(** [element.iter(tag)]: the element and its descendants, in document
    order, that have the tag. *)
Fixpoint iter (t : string) (e : Element) : list Element :=
  (if String.eqb (tag e) t then [e] else [])
  ++ flat_map (iter t) (children e).

(** [element.findall(".//" + tag)] *)
Definition findall_descendants (e : Element) (t : string) : list Element :=
  flat_map (iter t) (children e).

End ET.

(** ** JUnit parser *)

(** What [os.path.exists] and [ET.parse] find at a path: no file; a
    file that is not well-formed; a path on which [ET.parse] raises
    another exception (a directory, a file that may not be read, a
    declared encoding that is unknown or does not fit the bytes); or a
    document. *)
Inductive junit_file :=
| NoSuchFile
| NotWellFormed
| Unreadable (e : exn)
| Document (root : ET.Element).

Module JUnitParser.

(** [float(s)] *)
Definition py_float `{PyFloat} (s : string) : result float :=
  match float_of_str s with
  | Some d => Ok d
  | None => Raise ValueError
  end.

(** [l[0]] *)
Definition item0 (l : list string) : result string :=
  match l with
  | x :: _ => Ok x
  | [] => Raise IndexError
  end.

(** [full_name.split(" ")[0].split("[")[0]] *)
Definition clean_name_of (full_name : string) : result string :=
  first_ ← item0 (PyStr.split " " full_name);
  item0 (PyStr.split "[" first_).

Definition _extract_message (element : ET.Element) : string :=
  let msg := ET.get element "message" "" in
  match ET.text element with
  | Some body =>
      if PyStr.truthy body
      then msg +:+ (PyStr.nl +:+ PyStr.nl +:+ PyStr.slice_to 2000 body)
      else msg
  | None => msg
  end.

Definition _parse_testcase `{PyFloat} (testcase : ET.Element)
  : result TestResult.t :=
  let full_name := ET.get testcase "name" "" in
  duration ← py_float (ET.get testcase "time" "0");
  clean_name ← clean_name_of full_name;
  let failure := ET.find testcase "failure" in
  let error := ET.find testcase "error" in
  let skipped := ET.find testcase "skipped" in
  match failure, error, skipped with
  | Some failure, _, _ =>
      Ok (TestResult.mk clean_name full_name Status.FAIL
            (_extract_message failure) duration)
  | None, Some error, _ =>
      Ok (TestResult.mk clean_name full_name Status.FAIL
            (_extract_message error) duration)
  | None, None, Some skipped =>
      let skip_type := PyStr.lower (ET.get skipped "type" "") in
      let skip_msg := ET.get skipped "message" "" in
      if PyStr.contains "xfail" skip_type
         && negb (PyStr.contains "skip" skip_type)
      then Ok (TestResult.mk clean_name full_name Status.CONDITIONALPASS
                 ("XFAIL: " +:+ skip_msg) duration)
      else Ok (TestResult.mk clean_name full_name Status.TODO
                 (if PyStr.truthy skip_msg then skip_msg else "Skipped")
                 duration)
  | None, None, None =>
      Ok (TestResult.mk clean_name full_name Status.PASS "" duration)
  end.

(** The counter update of the loop body of [parse]. *)
Definition count (results : ParsedResults.t) (r : TestResult.t)
  : ParsedResults.t :=
  let st := TestResult.status r in
  let tests := ParsedResults.tests results ++ [r] in
  let total := ParsedResults.total results + 1 in
  if String.eqb st Status.PASS || String.eqb st Status.CONDITIONALPASS
  then {| ParsedResults.total := total;
          ParsedResults.passed := ParsedResults.passed results + 1;
          ParsedResults.failed := ParsedResults.failed results;
          ParsedResults.skipped := ParsedResults.skipped results;
          ParsedResults.tests := tests |}
  else if String.eqb st Status.FAIL
  then {| ParsedResults.total := total;
          ParsedResults.passed := ParsedResults.passed results;
          ParsedResults.failed := ParsedResults.failed results + 1;
          ParsedResults.skipped := ParsedResults.skipped results;
          ParsedResults.tests := tests |}
  else {| ParsedResults.total := total;
          ParsedResults.passed := ParsedResults.passed results;
          ParsedResults.failed := ParsedResults.failed results;
          ParsedResults.skipped := ParsedResults.skipped results + 1;
          ParsedResults.tests := tests |}.

(** [for testcase in ...: ...]: an exception of [_parse_testcase] ends
    the loop and [parse]. *)
Fixpoint parse_loop `{PyFloat} (testcases : list ET.Element)
  (results : ParsedResults.t) : result ParsedResults.t :=
  match testcases with
  | [] => Ok results
  | testcase :: rest =>
      r ← _parse_testcase testcase;
      parse_loop rest (count results r)
  end.

Definition parse `{PyFloat} (fs : string -> junit_file) (junit_file : string)
  : result ParsedResults.t :=
  match fs junit_file with
  | NoSuchFile => Raise FileNotFoundError
  | NotWellFormed => Raise ParseError
  | Unreadable e => Raise e
  | Document root =>
      parse_loop (ET.findall_descendants root "testcase") ParsedResults.new
  end.

End JUnitParser.

(** ** Result aggregator *)

(** A [dict] with string keys whose insertion order is observed: the
    keys of the list are pairwise different. *)
Module PyDict.

Definition contains {V} (k : string) (d : list (string * V)) : bool :=
  existsb (fun kv => String.eqb (fst kv) k) d.

(** [d[k] = v] for a key that is not in [d] *)
Definition add {V} (k : string) (v : V) (d : list (string * V))
  : list (string * V) :=
  d ++ [(k, v)].

(** [d[k].method(...)]: the object stored at [k] is changed in place. *)
Fixpoint alter {V} (f : V -> V) (k : string) (d : list (string * V))
  : list (string * V) :=
  match d with
  | [] => []
  | (k', v) :: d' =>
      if String.eqb k' k then (k', f v) :: d' else (k', v) :: alter f k d'
  end.

Definition keys {V} (d : list (string * V)) : list string := map fst d.
Definition values {V} (d : list (string * V)) : list V := map snd d.

End PyDict.

Module ResultAggregator.

(** The two accumulators of [aggregate]. *)
Record state := mk {
  aggregates : list (string * AggregatedResult.t);
  unmatched : gset string
}.

Definition init : state := {| aggregates := []; unmatched := ∅ |}.

(** The body of the loop of [aggregate]. *)
Definition step (mapping : gmap string string) (st : state)
  (test : TestResult.t) : state :=
  let name := TestResult.name test in
  match mapping !! name with
  | None =>
      {| aggregates := aggregates st; unmatched := unmatched st ∪ {[name]} |}
  | Some key =>
      let aggregates1 :=
        if PyDict.contains name (aggregates st) then aggregates st
        else PyDict.add name (AggregatedResult.new key) (aggregates st) in
      {| aggregates :=
           PyDict.alter (fun agg => AggregatedResult.add_variation agg test)
             name aggregates1;
         unmatched := unmatched st |}
  end.

Definition run (mapping : gmap string string) (results : ParsedResults.t)
  : state :=
  fold_left (step mapping) (ParsedResults.tests results) init.

(** [aggregate]: the list of the unmatched names is [list(unmatched)],
    in the order the set gives. *)
Definition aggregate `{PyFloat} (mapping : gmap string string)
  (results : ParsedResults.t) : list ResultDict.t * list string :=
  let st := run mapping results in
  (map AggregatedResult.to_dict (PyDict.values (aggregates st)),
   elements (unmatched st)).

End ResultAggregator.

(** ** Effects: what a run prints, reads, writes and sends *)

Module S3.
Record LifecycleRule := mk {
  ID : string;
  Prefix : string;
  Status : string;
  Expiration_Days : Z;
  NoncurrentVersionExpiration_NoncurrentDays : option Z
}.

Inductive call :=
| create_bucket (Bucket : string)
| put_bucket_versioning (Bucket : string) (Status : string)
| put_bucket_lifecycle_configuration (Bucket : string) (Rules : list LifecycleRule)
| upload_file (Filename Bucket Key : string)
| close.
End S3.

Module Xray.
(** One entry of the [tests] array of the import request. *)
Record ImportedTest := mk {
  testKey : string;
  status : string;
  comment : string
}.
End Xray.

Inductive event :=
| Print (line : string)
| ReadFile (path : string)
| WriteFile (path : string)
| HttpGet (endpoint : string)
| HttpPostImport (endpoint execution_key : string) (tests : list Xray.ImportedTest)
| HttpPost (endpoint : string)
| S3Call (c : S3.call).

Record prog (A : Type) := Prog {
  trace : list event;
  outcome : result A
}.
Arguments Prog {A} trace outcome.
Arguments trace {A} p.
Arguments outcome {A} p.

#[export] Instance prog_ret : MRet prog := fun A a => Prog [] (Ok a).
(** Sequencing: the trace of [m], then, when [m] raised nothing, the
    trace and the outcome of what follows. *)
#[export] Instance prog_bind : MBind prog := fun A B k m =>
  Prog (trace m ++ match outcome m with
                   | Ok a => trace (k a)
                   | Raise _ => []
                   end)
       (match outcome m with
        | Ok a => outcome (k a)
        | Raise e => Raise e
        end).

Definition emit (e : event) : prog unit := Prog [e] (Ok tt).
Definition raise {A} (e : exn) : prog A := Prog [] (Raise e).
Definition print (line : string) : prog unit := emit (Print line).

(** [for x in xs: body(x)] *)
Fixpoint for_each {A} (xs : list A) (body : A -> prog unit) : prog unit :=
  match xs with
  | [] => mret tt
  | x :: rest => body x;; for_each rest body
  end.

(** ** Xray client: the import request *)

Module XrayClient.

(** The list comprehension of [import_execution_results]. *)
Definition import_tests (results : list ResultDict.t) : list Xray.ImportedTest :=
  map (fun r =>
         {| Xray.testKey := ResultDict.test_key r;
            Xray.status := ResultDict.status r;
            Xray.comment := PyStr.slice_to 32000 (ResultDict.comment r) |})
      results.

Definition import_execution_results (execution_key : string)
  (results : list ResultDict.t) : prog unit :=
  emit (HttpPostImport "/rest/raven/1.0/import/execution" execution_key
          (import_tests results)).

End XrayClient.

(** ** Mapping cache *)

(** The cache file: absent, present but not openable, or its bytes. *)
Inductive cache_file :=
| CacheMissing
| CacheUnreadable
| CacheBytes (content : list byte).

#[warnings="-register-all"]
Inductive json :=
| JNull
| JBool (b : bool)
| JNumber (repr : string)
| JString (s : list N)
| JArray (items : list json)
| JObject (members : list (list N * json)).

(** [json.loads] on decoded text (a list of code points) is the
    library's: [None] stands for [json.JSONDecodeError].  Text on which
    the library fails in another way (its recursion limit on deeply
    nested text) is not in the domain of this interface. *)
Class PyJson := {
  json_loads : list N -> option json
}.

Module Utf8.

Definition in_range (lo hi : N) (b : byte) : bool :=
  let n := Byte.to_N b in ((lo <=? n) && (n <=? hi))%N.

(** the six payload bits of a continuation byte *)
Definition low6 (b : byte) : N := (Byte.to_N b - 128)%N.

(** Strict UTF-8 decoding, as the text layer of [open(..., encoding=
    "utf-8")] does it: [None] stands for [UnicodeDecodeError] (a byte
    that starts no sequence, a missing or wrong continuation byte, an
    overlong form, a surrogate, a code point above U+10FFFF). *)
Fixpoint decode (bs : list byte) : option (list N) :=
  match bs with
  | [] => Some []
  | b0 :: rest =>
      let n0 := Byte.to_N b0 in
      if (n0 <? 128)%N then cons n0 <$> decode rest
      else if ((194 <=? n0) && (n0 <=? 223))%N then
        match rest with
        | b1 :: rest1 =>
            if in_range 128 191 b1
            then cons ((n0 - 192) * 64 + low6 b1)%N <$> decode rest1
            else None
        | _ => None
        end
      else if ((224 <=? n0) && (n0 <=? 239))%N then
        match rest with
        | b1 :: b2 :: rest2 =>
            let lo := if (n0 =? 224)%N then 160%N else 128%N in
            let hi := if (n0 =? 237)%N then 159%N else 191%N in
            if in_range lo hi b1 && in_range 128 191 b2
            then cons (((n0 - 224) * 64 + low6 b1) * 64 + low6 b2)%N
                   <$> decode rest2
            else None
        | _ => None
        end
      else if ((240 <=? n0) && (n0 <=? 244))%N then
        match rest with
        | b1 :: b2 :: b3 :: rest3 =>
            let lo := if (n0 =? 240)%N then 144%N else 128%N in
            let hi := if (n0 =? 244)%N then 143%N else 191%N in
            if in_range lo hi b1 && in_range 128 191 b2 && in_range 128 191 b3
            then cons ((((n0 - 240) * 64 + low6 b1) * 64 + low6 b2) * 64
                       + low6 b3)%N
                   <$> decode rest3
            else None
        | _ => None
        end
      else None
  end.

End Utf8.

Module MappingCache.

(** [self.cache_file.exists()] *)
Definition exists_ (f : cache_file) : bool :=
  match f with CacheMissing => false | _ => true end.

(** [self.cache_file.open("r", encoding="utf-8")] *)
Definition open_ (f : cache_file) : result (list byte) :=
  match f with
  | CacheMissing => Raise FileNotFoundError
  | CacheUnreadable => Raise PermissionError
  | CacheBytes content => Ok content
  end.

(** [json.load(f)]: read and decode the whole file, then parse it. *)
Definition json_load `{PyJson} (content : list byte) : result json :=
  match Utf8.decode content with
  | None => Raise UnicodeDecodeError
  | Some text =>
      match json_loads text with
      | Some v => Ok v
      | None => Raise JSONDecodeError
      end
  end.

Definition load `{PyJson} (f : cache_file) : result json :=
  if negb (exists_ f) then Ok (JObject [])
  else
    try_except (content ← open_ f; json_load content)
      [JSONDecodeError; IOError] (JObject []).

End MappingCache.

(** truthiness of an optional string: [None] and [""] are false *)
Definition truthy_opt (o : option string) : bool :=
  match o with
  | Some s => PyStr.truthy s
  | None => false
  end.

(** ** Report generator *)

Module ReportGenerator.

(** [create_summary]; [now] is [datetime.now()] in the format of the
    source. *)
Definition create_summary (now : string) (env version custom : option string)
  : string :=
  if truthy_opt custom then default "" custom
  else
    let parts := ["Automated Test Run"] in
    let parts := if truthy_opt env then parts ++ [default "" env] else parts in
    let parts :=
      if truthy_opt version then parts ++ [default "" version] else parts in
    let parts := parts ++ [now] in
    PyStr.join " - " parts.

(** The fields of [info] that the caller reads. *)
Record info := mk_info {
  execution_key : string;
  execution_url : string
}.

Definition save_execution_info (execution_key jira_url : string)
  (env version : option string) (results : ParsedResults.t)
  (matched unmatched : Z) : prog info :=
  emit (WriteFile "xray_execution_info.json");;
  mret {| execution_key := execution_key;
          execution_url := jira_url +:+ "/browse/" +:+ execution_key |}.

End ReportGenerator.

(** ** The import tool's command line ([tools/test_script.py]) *)

Module ImportTool.

Record Args := mk_args {
  junit_xml : string;
  project_key : string;
  test_set : string;
  test_environment : option string;
  version : option string;
  execution_summary : option string;
  execution_key : option string;
  refresh_mapping : bool;
  dry_run : bool
}.

Definition print_header (text : string) : prog unit :=
  print (PyStr.nl +:+ PyStr.repeat "=" 60);;
  print text;;
  print (PyStr.repeat "=" 60).

(** [main]: the statements of the source that are not commented out.
    [environ] is [os.environ], [now] the clock.  The local
    [execution_key] is bound only under [if args.execution_key:]. *)
Definition main (args : Args) (environ : gmap string string) (now : string)
  : prog Z :=
  let jira_url := environ !! "JIRA_URL" in
  let jira_token := environ !! "JIRA_TOKEN" in
  if negb (truthy_opt jira_url) || negb (truthy_opt jira_token) then
    print "[ERROR] Set JIRA_URL and JIRA_TOKEN environment variables";;
    mret 1
  else
    print_header "STEP 1: Load test mapping";;
    print_header "STEP 2: Parse test results";;
    print ("Parsing: " +:+ junit_xml args);;
    print (PyStr.nl +:+ "   Total: 1| Passed: 1 | Failed: 1 | Skipped: 1");;
    print_header "STEP 3: Match results to Xray tests";;
    print "   Matched: 1 | Unmatched: 1";;
    if dry_run args then
      print_header "DRY RUN - No execution created";;
      mret 0
    else
      print_header "STEP 4: Create Test Execution";;
      let summary :=
        ReportGenerator.create_summary now (test_environment args)
          (version args) (execution_summary args) in
      execution_key ←
        (if truthy_opt (execution_key args) then
           let execution_key := default "" (execution_key args) in
           print ("   Using existing: " +:+ execution_key);;
           mret execution_key
         else
           print ("   Creating: " +:+ summary);;
           raise UnboundLocalError);
      print_header "STEP 5: Import results";;
      print "   Adding 5 tests...";;
      print "   Importing results...";;
      print "   [OK] Done";;
      let results :=
        {| ParsedResults.total := 5; ParsedResults.passed := 3;
           ParsedResults.failed := 1; ParsedResults.skipped := 1;
           ParsedResults.tests := [] |} in
      info ← ReportGenerator.save_execution_info execution_key
               (default "" jira_url) (test_environment args) (version args)
               results 5 0;
      print_header "SUCCESS";;
      print ("   Execution: " +:+ execution_key);;
      print ("   URL: " +:+ ReportGenerator.execution_url info);;
      print "   Tests: 5 imported";;
      mret 0.

End ImportTool.

(** ** The upload tool ([main.py], [storage/bucket.py]) *)

Module UploadTool.

Record Args := mk_args {
  dir_path : string;
  file_type : string;
  bucket_name : string;
  prefix : string;
  versioning : bool;
  lifecycle : option Z
}.

(** What [parse_args] lets through: [--file-type] is declared with
    [choices=["movie", "stream"]], and [argparse] ends the program on
    any other value, so that [main] does not go on. *)
Definition parsed (args : Args) : Prop :=
  file_type args = "movie" \/ file_type args = "stream".

(** [Movie] and [Stream]: the same two fields. *)
Record File := mk_file {
  name : string;
  path : string
}.

(** What the run meets outside the program: whether the directory
    exists, what [get_all_files_from_dir] gives for it (the files, in the
    order in which the set is traversed, or an exception), whether the
    client can be created, and for each request to the storage service
    the error code it answers with ([None]: success). *)
Record World := mk_world {
  dir_exists : bool;
  listing : result (list File);
  connect_error : option exn;
  s3_error : S3.call -> option string
}.

Definition lift {A} (r : result A) : prog A := Prog [] r.

(** One request to the storage service. *)
Definition request (w : World) (c : S3.call) : prog unit :=
  Prog [S3Call c]
    (match s3_error w c with
     | None => Ok tt
     | Some code => Raise (ClientError code)
     end).

(** truthiness of an optional integer: [None] and [0] are false *)
Definition truthy_int (o : option Z) : bool :=
  match o with
  | Some d => negb (d =? 0)
  | None => false
  end.

Module Bucket.

(** [create]: returns [_existed]. *)
Definition create (w : World) (name : string) : prog bool :=
  let attempt := request w (S3.create_bucket name) in
  match outcome attempt with
  | Ok _ => Prog (trace attempt) (Ok false)
  | Raise (ClientError code) =>
      if String.eqb code "BucketAlreadyOwnedByYou"
      then Prog (trace attempt
                 ++ [Print "Bucket already exists and is owned by you"])
             (Ok true)
      else Prog (trace attempt) (Raise (ClientError code))
  | Raise e => Prog (trace attempt) (Raise e)
  end.

Definition set_lifecycle (w : World) (name policy_name : string)
  (expiration_days : Z) (noncurrent_expiration_days : option Z) : prog unit :=
  let rule :=
    {| S3.ID := policy_name; S3.Prefix := ""; S3.Status := "Enabled";
       S3.Expiration_Days := expiration_days;
       S3.NoncurrentVersionExpiration_NoncurrentDays := None |} in
  let rule :=
    if truthy_int noncurrent_expiration_days
    then {| S3.ID := S3.ID rule; S3.Prefix := S3.Prefix rule;
            S3.Status := S3.Status rule;
            S3.Expiration_Days := S3.Expiration_Days rule;
            S3.NoncurrentVersionExpiration_NoncurrentDays :=
              noncurrent_expiration_days |}
    else rule in
  request w (S3.put_bucket_lifecycle_configuration name [rule]).

Definition set_versioning (w : World) (name status : string) : prog unit :=
  if String.eqb status "Enabled" || String.eqb status "Suspended"
  then request w (S3.put_bucket_versioning name status)
  else raise AssertionError.

End Bucket.

(** The two JSON sidecars of a stream data set; their content (built by
    [build_metadata] and [build_index]) is not part of the model. *)
Definition create_and_upload_json_data_file (w : World)
  (name bucket_name prefix : string) : prog unit :=
  let file_name := name +:+ ".json" in
  emit (WriteFile file_name);;
  request w (S3.upload_file file_name bucket_name (prefix +:+ "_" +:+ file_name)).

Definition main (args : Args) (w : World) : prog unit :=
  if negb (dir_exists w) then raise FileNotFoundError
  else
  let kind := PyStr.lower (file_type args) in
  if negb (String.eqb kind "movie" || String.eqb kind "stream")
  then raise ValueError
  else if (String.length (bucket_name args) <? 3)%nat then raise ValueError
  else if match lifecycle args with Some d => d <=? 0 | None => false end
  then raise ValueError
  else
    let lifecycle_ := lifecycle args in
    vf ← (if String.eqb kind "movie" then
            files ← lift (listing w); mret (true, files)
          else if String.eqb kind "stream" then
            files ← lift (listing w); mret (false, files)
          else mret (versioning args, []));
    let versioning := fst vf in
    let files := snd vf in
    print "S3 client connection";;
    match connect_error w with Some e => raise e | None => mret tt end;;
    print "Bucket creation";;
    Bucket.create w (bucket_name args);;
    (if versioning then Bucket.set_versioning w (bucket_name args) "Enabled"
     else mret tt);;
    (if truthy_int lifecycle_ && negb versioning then
       Bucket.set_lifecycle w (bucket_name args) "ScriptLifecycle"
         (default 0 lifecycle_) None
     else if truthy_int lifecycle_ && versioning then
       Bucket.set_lifecycle w (bucket_name args) "ScriptLifecycle"
         (default 0 lifecycle_) lifecycle_
     else mret tt);;
    print "Uploading files:";;
    for_each files (fun file =>
      print (name file);;
      request w (S3.upload_file (path file) (bucket_name args)
                   (prefix args +:+ name file)));;
    (if String.eqb kind "stream" then
       create_and_upload_json_data_file w "meta" (bucket_name args) (prefix args);;
       create_and_upload_json_data_file w "index" (bucket_name args) (prefix args)
     else mret tt);;
    emit (S3Call S3.close).

End UploadTool.

(** ** Xray client: the searches

    The methods of [XrayClient] that read from Jira, and
    [MappingCache.fetch_from_xray], which uses them.  A search is a GET
    of [/rest/api/2/search]; the server is what answers it: the
    exception that [raise_for_status] raises, or the [issues] entry of
    the JSON body ([None] when the body has none).  An issue is taken
    with its two entries [key] and [fields.summary]. *)

Module Jira.

Record issue := mk_issue {
  key : string;
  summary : string
}.

(** The parameters of a search. *)
Record search := mk_search {
  jql : string;
  maxResults : Z;
  fields : option string;
  timeout : Z
}.

Definition server := search -> result (option (list issue)).

End Jira.

Inductive xevent :=
| Get (q : Jira.search)
| Say (line : string).

Record session (A : Type) := Session {
  log : list xevent;
  answer : result A
}.
Arguments Session {A} log answer.
Arguments log {A} s.
Arguments answer {A} s.

#[export] Instance session_ret : MRet session := fun A a => Session [] (Ok a).
#[export] Instance session_bind : MBind session := fun A B k m =>
  Session (log m ++ match answer m with
                    | Ok a => log (k a)
                    | Raise _ => []
                    end)
          (match answer m with
           | Ok a => answer (k a)
           | Raise e => Raise e
           end).

Module XrayQueries.

(** the double quote *)
Definition dq : string := String (ascii_of_nat 34) "".

Definition say (line : string) : session unit := Session [Say line] (Ok tt).

(** [self._get("/rest/api/2/search", params, timeout)] followed by
    [.get("issues", [])] *)
Definition _get (server : Jira.server) (q : Jira.search)
  : session (list Jira.issue) :=
  Session [Get q]
    (match server q with
     | Ok data => Ok (default [] data)
     | Raise e => Raise e
     end).

(** The search of [find_test_set_by_name]. *)
Definition test_set_search (project_key name : string) : Jira.search :=
  {| Jira.jql := "project = " +:+ project_key +:+ " AND issuetype = " +:+ dq
                 +:+ "Test Set" +:+ dq +:+ " AND summary ~ " +:+ dq +:+ name
                 +:+ dq;
     Jira.maxResults := 10;
     Jira.fields := None;
     Jira.timeout := 30 |}.

Definition find_test_set_by_name (server : Jira.server)
  (project_key name : string) : session (option Jira.issue) :=
  issues ← _get server (test_set_search project_key name);
  mret (List.find (fun issue => String.eqb (Jira.summary issue) name) issues).

(** The search of [get_tests_from_test_set]. *)
Definition tests_search (test_set_key : string) : Jira.search :=
  {| Jira.jql := "issue in testSetTests(" +:+ dq +:+ test_set_key +:+ dq
                 +:+ ")";
     Jira.maxResults := 1000;
     Jira.fields := Some "key";
     Jira.timeout := 60 |}.

Definition get_tests_from_test_set (server : Jira.server)
  (test_set_key : string) : session (list string) :=
  issues ← _get server (tests_search test_set_key);
  mret (map Jira.key issues).

(** [range(0, stop, step)]: [ValueError] for a step of 0, nothing for a
    negative step. *)
Definition range0 (stop : nat) (step : Z) : result (list nat) :=
  if step =? 0 then Raise ValueError
  else if step <? 0 then Ok []
  else
    let s := Z.to_nat step in
    Ok (map (fun k => (k * s)%nat) (seq 0 ((stop + s - 1) / s))).

(** [l[i : i + n]] for [n >= 0] *)
Definition slice {A} (l : list A) (i n : nat) : list A :=
  firstn n (skipn i l).

(** The search of [get_issues_bulk] for one batch. *)
Definition bulk_search (batch : list string) (batch_size : Z) : Jira.search :=
  {| Jira.jql := "key in (" +:+ PyStr.join ", " batch +:+ ")";
     Jira.maxResults := batch_size;
     Jira.fields := Some "summary";
     Jira.timeout := 60 |}.

(** The loop of [get_issues_bulk] over the starts of the batches. *)
Fixpoint bulk_loop (server : Jira.server) (issue_keys : list string)
  (batch_size : Z) (starts : list nat) (all_issues : list Jira.issue)
  : session (list Jira.issue) :=
  match starts with
  | [] => mret all_issues
  | i :: rest =>
      let batch := slice issue_keys i (Z.to_nat batch_size) in
      issues ← _get server (bulk_search batch batch_size);
      bulk_loop server issue_keys batch_size rest (all_issues ++ issues)
  end.

Definition get_issues_bulk (server : Jira.server) (issue_keys : list string)
  (batch_size : Z) : session (list Jira.issue) :=
  match issue_keys with
  | [] => mret []
  | _ :: _ =>
      match range0 (length issue_keys) batch_size with
      | Raise e => Session [] (Raise e)
      | Ok starts => bulk_loop server issue_keys batch_size starts []
      end
  end.

(** [{issue["fields"]["summary"]: issue["key"] for issue in issues}] *)
Definition summary_to_key (issues : list Jira.issue) : gmap string string :=
  fold_left (fun m issue => <[Jira.summary issue := Jira.key issue]> m)
    issues ∅.

(** [MappingCache.fetch_from_xray] *)
Definition fetch_from_xray (server : Jira.server)
  (project_key test_set_name : string) : session (gmap string string) :=
  say (PyStr.nl +:+ "[INFO] Fetching tests from Test Set '" +:+ test_set_name
       +:+ "'...");;
  test_set ← find_test_set_by_name server project_key test_set_name;
  match test_set with
  | None =>
      say ("[ERROR] Test Set '" +:+ test_set_name
           +:+ "' not found in project " +:+ project_key);;
      mret ∅
  | Some test_set =>
      let test_set_key := Jira.key test_set in
      say ("   Found Test Set: " +:+ test_set_key);;
      test_keys ← get_tests_from_test_set server test_set_key;
      say ("   Found " +:+ PyStr.of_nat (length test_keys) +:+ " tests");;
      match test_keys with
      | [] => mret ∅
      | _ :: _ =>
          say "   Fetching test details...";;
          issues ← get_issues_bulk server test_keys 100;
          let mapping := summary_to_key issues in
          say ("   [OK] Built mapping for " +:+ PyStr.of_nat (size mapping)
               +:+ " tests");;
          mret mapping
      end
  end.

End XrayQueries.

(** ** The storage client wrapper ([storage/s3_client.py])

    A client object of [boto3] is named by the number of clients that
    were created before it; creating one is taken to succeed. *)

Module S3Client.

Inductive sevent :=
| Created (handle : nat)
| Closed (handle : nat).

(** [self.client], and what has happened to the clients so far. *)
Record t := mk {
  client : option nat;
  history : list sevent
}.

(** [S3Client.__init__]: no client yet. *)
Definition new : t := {| client := None; history := [] |}.

(** the number of clients created so far *)
Definition created (events : list sevent) : nat :=
  length (List.filter (fun e => match e with Created _ => true | _ => false end)
            events).

(** [connect]: returns the client. *)
Definition connect (self : t) : t * nat :=
  match client self with
  | Some handle => (self, handle)
  | None =>
      let handle := created (history self) in
      ({| client := Some handle;
          history := history self ++ [Created handle] |}, handle)
  end.

Definition close (self : t) : t :=
  match client self with
  | Some handle =>
      {| client := None; history := history self ++ [Closed handle] |}
  | None => self
  end.

(** A caller's use of the wrapper: a sequence of the two methods. *)
Inductive method := Connect | Close.

Definition call (self : t) (m : method) : t :=
  match m with
  | Connect => fst (connect self)
  | Close => close self
  end.

End S3Client.

(** ** The index of a stream data set ([utils.py])

    [stat] is what [Path.stat] gives for a path: the size and the
    modification time, already in ISO format.  [list.sort] is stable and
    ascending on the keys; the embedding sorts by insertion, which gives
    the same list. *)

Module Utils.

Record stat_result := mk_stat {
  st_size : Z;
  st_mtime_iso : string
}.

Record index_entry := mk_entry {
  name : string;
  size : Z;
  last_modified : string
}.

Record index := mk_index {
  dataset : string;
  files : list index_entry
}.

(** One step of the sort: [f] goes before the first file whose name is
    not smaller. *)
Fixpoint insert_by_name (f : UploadTool.File) (l : list UploadTool.File)
  : list UploadTool.File :=
  match l with
  | [] => [f]
  | g :: rest =>
      if String.leb (UploadTool.name f) (UploadTool.name g)
      then f :: g :: rest
      else g :: insert_by_name f rest
  end.

(** [files.sort(key=lambda x: x.name)] *)
Definition sort_by_name (files : list UploadTool.File)
  : list UploadTool.File :=
  fold_right insert_by_name [] files.

(** [build_index]: the sorted list that [files] is afterwards, and the
    index. *)
Definition build_index (stat : string -> stat_result) (prefix : string)
  (files : list UploadTool.File) : list UploadTool.File * index :=
  let files := sort_by_name files in
  (files,
   {| dataset := prefix;
      files :=
        map (fun f =>
               {| name := UploadTool.name f;
                  size := st_size (stat (UploadTool.path f));
                  last_modified :=
                    st_mtime_iso (stat (UploadTool.path f)) +:+ "Z" |})
            files |}).

End Utils.

(** * The specification's side

    Definitions that follow the words of the specification, to be
    compared with the code above, and the measures the statements use. *)

Module Spec.

(** The priority rule of the aggregator, as the specification writes it. *)
Definition priority_rule (cur new_ : string) : string :=
  if String.eqb cur Status.FAIL || String.eqb new_ Status.FAIL
  then Status.FAIL
  else if String.eqb cur Status.TODO || String.eqb new_ Status.TODO
  then Status.TODO
  else if String.eqb cur Status.CONDITIONALPASS
          || String.eqb new_ Status.CONDITIONALPASS
  then Status.CONDITIONALPASS
  else Status.PASS.

(** [s] truncated at the first [c]: what comes before it, or all of [s]
    when [c] does not occur. *)
Fixpoint truncate_at (c : ascii) (s : string) : string :=
  match s with
  | EmptyString => ""
  | String a s' => if Ascii.eqb a c then "" else String a (truncate_at c s')
  end.

(** The clean name of the specification. *)
Definition clean_name (full_name : string) : string :=
  truncate_at "[" (truncate_at " " full_name).

(** [c] occurs in [s] *)
Fixpoint occurs (c : ascii) (s : string) : bool :=
  match s with
  | EmptyString => false
  | String a s' => Ascii.eqb a c || occurs c s'
  end.

(** The number of elements with tag [t] in the tree of [e], [e] included. *)
Fixpoint count_tag (t : string) (e : ET.Element) : nat :=
  (if String.eqb (ET.tag e) t then 1 else 0)
  + list_sum (map (count_tag t) (ET.children e)).

(** The number of [<testcase>] elements of a document, at any depth. *)
Definition testcases_in_document (root : ET.Element) : nat :=
  count_tag "testcase" root.

(** The records of a group: those with a given clean name. *)
Definition named (n : string) (tests : list TestResult.t)
  : list TestResult.t :=
  List.filter (fun t => String.eqb (TestResult.name t) n) tests.

(** The records whose clean name has no key in the mapping. *)
Definition unmapped (mapping : gmap string string)
  (tests : list TestResult.t) : list TestResult.t :=
  List.filter (fun t => bool_decide (mapping !! TestResult.name t = None)) tests.

(** The sum of the variation counts over the groups. *)
Definition variation_count (aggregates : list (string * AggregatedResult.t))
  : nat :=
  list_sum (map (fun kv => length (AggregatedResult.variations (snd kv)))
              aggregates).

(** The sum of the lengths of some lines. *)
Definition total_length (lines : list string) : nat :=
  list_sum (map String.length lines).

(** The records whose clean name is in the unmatched set. *)
Definition unmatched_records (unmatched : gset string)
  (tests : list TestResult.t) : list TestResult.t :=
  List.filter (fun t => bool_decide (TestResult.name t ∈ unmatched)) tests.

(** The arguments of the upload tool with the flag [--versioning] set
    to [b]. *)
Definition with_versioning (b : bool) (args : UploadTool.Args)
  : UploadTool.Args :=
  {| UploadTool.dir_path := UploadTool.dir_path args;
     UploadTool.file_type := UploadTool.file_type args;
     UploadTool.bucket_name := UploadTool.bucket_name args;
     UploadTool.prefix := UploadTool.prefix args;
     UploadTool.versioning := b;
     UploadTool.lifecycle := UploadTool.lifecycle args |}.

(** The lifecycle rule of the upload tool for [days] days. *)
Definition script_rule (days : Z) (noncurrent : option Z) : S3.LifecycleRule :=
  {| S3.ID := "ScriptLifecycle"; S3.Prefix := ""; S3.Status := "Enabled";
     S3.Expiration_Days := days;
     S3.NoncurrentVersionExpiration_NoncurrentDays := noncurrent |}.

(** The run gets as far as the bucket: the arguments pass the checks of
    [main], the directory can be listed, the client connects, and the
    bucket is created or is already owned. *)
Definition reaches_bucket (args : UploadTool.Args) (w : UploadTool.World)
  : Prop :=
  UploadTool.dir_exists w = true
  /\ (3 <= String.length (UploadTool.bucket_name args))%nat
  /\ (forall d, UploadTool.lifecycle args = Some d -> 0 < d)
  /\ (exists files, UploadTool.listing w = Ok files)
  /\ UploadTool.connect_error w = None
  /\ (UploadTool.s3_error w (S3.create_bucket (UploadTool.bucket_name args))
       = None
       \/ UploadTool.s3_error w (S3.create_bucket (UploadTool.bucket_name args))
          = Some "BucketAlreadyOwnedByYou").

(** A request that sets the versioning of a bucket. *)
Definition sets_versioning (e : event) : bool :=
  match e with
  | S3Call (S3.put_bucket_versioning _ _) => true
  | _ => false
  end.

(** An event that is no lifecycle request, or one with the given rules. *)
Definition lifecycle_is (rules : list S3.LifecycleRule) (e : event) : Prop :=
  match e with
  | S3Call (S3.put_bucket_lifecycle_configuration _ rules') => rules' = rules
  | _ => True
  end.

(** An event that reaches a remote system. *)
Definition remote (e : event) : bool :=
  match e with
  | HttpGet _ | HttpPostImport _ _ _ | HttpPost _ | S3Call _ => true
  | _ => false
  end.

(** An event that only prints. *)
Definition prints (e : event) : bool :=
  match e with Print _ => true | _ => false end.

(** The line feed. *)
Definition line_feed : string := String "010" "".

(** The icon of a status in a line of the comment. *)
Definition icon (status : string) : string :=
  if String.eqb status "PASS" then "[PASS]"
  else if String.eqb status "FAIL" then "[FAIL]"
  else if String.eqb status "TODO" then "[SKIP]"
  else if String.eqb status "CONDITIONALPASS" then "[XFAIL]"
  else "?".

(** The digit [d] as a character, for [d] below 10. *)
Definition digit (d : nat) : ascii := ascii_of_nat (48 + d).

(** The decimal numeral of [n] written before [rest]: its last digit is
    [n mod 10], and the digits before it are those of [n / 10] when [n]
    is 10 or more. *)
Fixpoint decimal_before (fuel n : nat) (rest : string) : string :=
  match fuel with
  | O => rest
  | S fuel' =>
      let rest' := String (digit (n mod 10)) rest in
      if (n <? 10)%nat then rest' else decimal_before fuel' (n / 10) rest'
  end.

Definition decimal (n : nat) : string := decimal_before (S n) n "".

(** What a request that configures the bucket is in a run with the
    arguments [args]: a versioning request belongs to a movie run and
    asks for [Enabled]; a lifecycle request carries the one rule of the
    given days, with a noncurrent-version expiration for movies only. *)
Definition configures (args : UploadTool.Args) (e : event) : Prop :=
  match e with
  | S3Call (S3.put_bucket_versioning name status) =>
      PyStr.lower (UploadTool.file_type args) = "movie"
      /\ name = UploadTool.bucket_name args
      /\ status = "Enabled"
  | S3Call (S3.put_bucket_lifecycle_configuration name rules) =>
      name = UploadTool.bucket_name args
      /\ exists d,
           UploadTool.lifecycle args = Some d
           /\ 0 < d
           /\ rules
              = [script_rule d
                   (if String.eqb (PyStr.lower (UploadTool.file_type args))
                         "movie"
                    then Some d else None)]
  | _ => True
  end.

End Spec.

(** Ranks of the four statuses, for the proofs about the priority. *)
Definition rank (s : string) : nat :=
  if String.eqb s Status.FAIL then 3
  else if String.eqb s Status.TODO then 2
  else if String.eqb s Status.CONDITIONALPASS then 1
  else 0.

Definition of_rank (n : nat) : string :=
  match n with
  | 0%nat => Status.PASS
  | 1%nat => Status.CONDITIONALPASS
  | 2%nat => Status.TODO
  | _ => Status.FAIL
  end.

Definition known (s : string) : Prop := In s Status.all.

(** What holds of the two accumulators of [aggregate] once the records
    [seen] have gone through the loop. *)
Definition aggregation_invariant (mapping : gmap string string)
  (seen : list TestResult.t) (st : ResultAggregator.state) : Prop :=
  List.NoDup (PyDict.keys (ResultAggregator.aggregates st))
  /\ (forall n agg,
         In (n, agg) (ResultAggregator.aggregates st) ->
         mapping !! n = Some (AggregatedResult.test_key agg)
         /\ AggregatedResult.variations agg = Spec.named n seen)
  /\ (forall t,
         In t seen -> mapping !! TestResult.name t <> None ->
         In (TestResult.name t) (PyDict.keys (ResultAggregator.aggregates st)))
  /\ (forall n,
         n ∈ ResultAggregator.unmatched st
         <-> mapping !! n = None
             /\ exists t, In t seen /\ TestResult.name t = n)
  /\ (Spec.variation_count (ResultAggregator.aggregates st)
       + length (Spec.unmapped mapping seen) = length seen)%nat.

(** ** Sample data for the examples *)

Module Sample.

(** A small table for the two float primitives: the numerals the
    examples use. *)
Definition floats : PyFloat :=
  {| float_of_str s :=
       if String.eqb s "0" then Some 0%float
       else if String.eqb s "1.5" then Some 1.5%float
       else if String.eqb s "0.25" then Some 0.25%float
       else None;
     format_2f d :=
       if PrimFloat.eqb d 0%float then "0.00"
       else if PrimFloat.eqb d 1.5%float then "1.50"
       else if PrimFloat.eqb d 0.25%float then "0.25"
       else "?" |}.

(** A JSON reader that accepts nothing but the text [{}]. *)
Definition jsons : PyJson :=
  {| json_loads text :=
       match text with
       | [123%N; 125%N] => Some (JObject [])
       | _ => None
       end |}.

Definition record (name full_name status comment : string) : TestResult.t :=
  TestResult.mk name full_name status comment 0%float.

Definition leaf (tag : string) (attrs : list (string * string))
  (text : option string) : ET.Element :=
  ET.Elem tag (list_to_map attrs) text [].

Definition testcase (attrs : list (string * string))
  (children : list ET.Element) : ET.Element :=
  ET.Elem "testcase" (list_to_map attrs) None children.

(** A file system with one report, at [report.xml]. *)
Definition one_report (root : ET.Element) (path : string) : junit_file :=
  if String.eqb path "report.xml" then Document root else NoSuchFile.

(** A report whose root element is a test case. *)
Definition root_testcase : ET.Element := testcase [("name", "test_a")] [].

(** A suite with a passing and a failing test case. *)
Definition suite : ET.Element :=
  ET.Elem "testsuite" ∅ None
    [ testcase [("name", "test_a")] [];
      testcase [("name", "test_b[1]"); ("time", "1.5")]
        [leaf "failure" [("message", "boom")] None] ].

(** Scenario 2 of the specification. *)
Definition failing : ET.Element :=
  testcase [("name", "test_login[chrome]")]
    [leaf "failure" [("message", "timeout")] (Some "stack")].

(** Scenario 5 of the specification, and the same with the type in
    capitals. *)
Definition xfailed : ET.Element :=
  testcase [("name", "test_known")]
    [leaf "skipped" [("type", "xfail"); ("message", "known bug")] None].

Definition xfailed_capitals : ET.Element :=
  testcase [("name", "test_known")]
    [leaf "skipped" [("type", "XFAIL"); ("message", "known bug")] None].

(** The same test cases with a [time] that is no number. *)
Definition xfailed_without_time : ET.Element :=
  testcase [("name", "test_known"); ("time", "soon")]
    [leaf "skipped" [("type", "xfail"); ("message", "known bug")] None].

Definition failing_without_time : ET.Element :=
  testcase [("name", "test_login[chrome]"); ("time", "soon")]
    [leaf "failure" [("message", "timeout")] (Some "stack")].

Definition plainly_skipped : ET.Element :=
  testcase [("name", "test_later")]
    [leaf "skipped" [("type", "pytest.skip")] None].

(** The record that [main] of the import tool builds by hand:
    [ParsedResults(total=5, passed=3, failed=1, skipped=1)]. *)
Definition five_without_tests : ParsedResults.t :=
  {| ParsedResults.total := 5; ParsedResults.passed := 3;
     ParsedResults.failed := 1; ParsedResults.skipped := 1;
     ParsedResults.tests := [] |}.

(** Scenario 3 of the specification, with one more test that has no
    key. *)
Definition three_tests : ParsedResults.t :=
  {| ParsedResults.total := 3; ParsedResults.passed := 2;
     ParsedResults.failed := 1; ParsedResults.skipped := 0;
     ParsedResults.tests :=
       [ record "test_x" "test_x[1]" Status.PASS "";
         record "test_y" "test_y" Status.PASS "";
         record "test_x" "test_x[2]" Status.FAIL "boom" ] |}.

Definition one_key : gmap string string := {[ "test_x" := "KEY-1" ]}.

(** The group of [test_x] after its two variations. *)
Definition group : AggregatedResult.t :=
  AggregatedResult.add_all (AggregatedResult.new "KEY-1")
    [ record "test_x" "test_x[1]" Status.PASS "";
      record "test_x" "test_x[2]" Status.FAIL "boom" ].

(** A dry run on a report that does not exist, with credentials. *)
Definition dry_run_args : ImportTool.Args :=
  {| ImportTool.junit_xml := "missing.xml";
     ImportTool.project_key := "LCTEST";
     ImportTool.test_set := "rs-automation";
     ImportTool.test_environment := None;
     ImportTool.version := None;
     ImportTool.execution_summary := None;
     ImportTool.execution_key := None;
     ImportTool.refresh_mapping := false;
     ImportTool.dry_run := true |}.

Definition credentials : gmap string string :=
  {[ "JIRA_URL" := "https://jira.example"; "JIRA_TOKEN" := "secret" ]}.

Definition nothing_there (path : string) : junit_file := NoSuchFile.

(** An upload of movies with a lifecycle of 30 days and no
    [--versioning], into a service that accepts every request. *)
Definition movie_args : UploadTool.Args :=
  {| UploadTool.dir_path := "videos";
     UploadTool.file_type := "movie";
     UploadTool.bucket_name := "qa-videos";
     UploadTool.prefix := "m/";
     UploadTool.versioning := false;
     UploadTool.lifecycle := Some 30 |}.

Definition stream_args : UploadTool.Args :=
  {| UploadTool.dir_path := "videos";
     UploadTool.file_type := "stream";
     UploadTool.bucket_name := "qa-videos";
     UploadTool.prefix := "s/";
     UploadTool.versioning := true;
     UploadTool.lifecycle := Some 30 |}.

Definition world : UploadTool.World :=
  {| UploadTool.dir_exists := true;
     UploadTool.listing :=
       Ok [ {| UploadTool.name := "a.mp4"; UploadTool.path := "videos/a.mp4" |} ];
     UploadTool.connect_error := None;
     UploadTool.s3_error := fun _ => None |}.

End Sample.

(** ** Further measures *)

Module Measure.

(** The arguments pass the checks at the head of [main] of the upload
    tool. *)
Definition valid_arguments (args : UploadTool.Args) (w : UploadTool.World)
  : bool :=
  UploadTool.dir_exists w
  && (String.eqb (PyStr.lower (UploadTool.file_type args)) "movie"
      || String.eqb (PyStr.lower (UploadTool.file_type args)) "stream")
  && (3 <=? String.length (UploadTool.bucket_name args))%nat
  && match UploadTool.lifecycle args with
     | Some d => 0 <? d
     | None => true
     end.

(** The storage service accepts every request. *)
Definition accepts_all (w : UploadTool.World) : Prop :=
  forall c, UploadTool.s3_error w c = None.

(** The number of records with one of the given statuses. *)
Definition count_status (statuses : list string) (tests : list TestResult.t)
  : Z :=
  Z.of_nat
    (length
       (List.filter
          (fun t => existsb (String.eqb (TestResult.status t)) statuses)
          tests)).

(** The names of a list in the order of their first occurrence. *)
Definition first_seen (names : list string) : list string :=
  fold_left
    (fun acc n => if existsb (String.eqb n) acc then acc else acc ++ [n])
    names [].

(** The clean names, in encounter order, of the records that have a key. *)
Definition mapped_names (mapping : gmap string string)
  (tests : list TestResult.t) : list string :=
  map TestResult.name
    (List.filter
       (fun t => negb (bool_decide (mapping !! TestResult.name t = None)))
       tests).

(** The group of the clean name [n]: a fresh group for its key, to which
    the records of that name were added in encounter order. *)
Definition group_of (mapping : gmap string string)
  (tests : list TestResult.t) (n : string) : AggregatedResult.t :=
  AggregatedResult.add_all
    (AggregatedResult.new (default "" (mapping !! n)))
    (Spec.named n tests).

(** The issues that the server returns for a search, none when it
    answers with an error. *)
Definition served (server : Jira.server) (q : Jira.search)
  : list Jira.issue :=
  match server q with
  | Ok data => default [] data
  | Raise _ => []
  end.

(** The server answers the search without an error. *)
Definition answers (server : Jira.server) (q : Jira.search) : Prop :=
  exists data, server q = Ok data.

(** The searches among the events of a session. *)
Definition searches (events : list xevent) : list Jira.search :=
  flat_map (fun e => match e with Get q => [q] | Say _ => [] end) events.

(** The clients that are open after some events: those created and
    not closed since. *)
Definition open_clients (events : list S3Client.sevent) : list nat :=
  fold_left
    (fun opened e =>
       match e with
       | S3Client.Created h => opened ++ [h]
       | S3Client.Closed h => List.filter (fun h' => negb (Nat.eqb h' h)) opened
       end)
    events [].

(** The name of [f] is at most the name of [g], character by
    character. *)
Definition name_le (f g : UploadTool.File) : Prop :=
  String.leb (UploadTool.name f) (UploadTool.name g) = true.

(** The [time] of a test case is no number for [float]. *)
Definition bad_time `{PyFloat} (testcase : ET.Element) : Prop :=
  float_of_str (ET.get testcase "time" "0") = None.

(** A string that counts as absent: [None] or the empty string. *)
Definition absent (o : option string) : Prop := o = None \/ o = Some "".

End Measure.

(** More sample data. *)
Module Example.

(** An upload into a bucket whose name is too short. *)
Definition short_bucket_args : UploadTool.Args :=
  {| UploadTool.dir_path := "videos";
     UploadTool.file_type := "movie";
     UploadTool.bucket_name := "qa";
     UploadTool.prefix := "";
     UploadTool.versioning := false;
     UploadTool.lifecycle := None |}.


(** A report with a test case whose [time] is no number. *)
Definition suite_with_bad_time : ET.Element :=
  ET.Elem "testsuite" ∅ None
    [ Sample.testcase [("name", "test_a")] [];
      Sample.testcase [("name", "test_b"); ("time", "soon")] [] ].

(** A server that knows the test set [rs-automation] with three tests,
    two of which have the same summary. *)
Definition jira (q : Jira.search) : result (option (list Jira.issue)) :=
  match Jira.fields q with
  | None => Ok (Some [ Jira.mk_issue "LCTEST-1" "rs-automation-old";
                       Jira.mk_issue "LCTEST-2" "rs-automation" ])
  | Some f =>
      if String.eqb f "key"
      then Ok (Some [ Jira.mk_issue "LCTEST-10" "";
                      Jira.mk_issue "LCTEST-11" "";
                      Jira.mk_issue "LCTEST-12" "" ])
      else Ok (Some [ Jira.mk_issue "LCTEST-10" "test_x";
                      Jira.mk_issue "LCTEST-11" "test_y";
                      Jira.mk_issue "LCTEST-12" "test_x" ])
  end.

Definition five_keys : list string := ["K-1"; "K-2"; "K-3"; "K-4"; "K-5"].

End Example.

(** * Properties *)

(** ** Status priority *)

Section StatusPriority.
Import AggregatedResult.
Import Spec.

Ltac split_status H :=
  unfold known, Status.all in H; simpl in H;
  destruct H as [H | [H | [H | [H | []]]]]; subst.

Ltac case_new n :=
  destruct (String.eqb_spec n Status.FAIL) as [-> | ?];
  [ | destruct (String.eqb_spec n Status.TODO) as [-> | ?];
      [ | destruct (String.eqb_spec n Status.CONDITIONALPASS) as [-> | ?] ] ].

Lemma next_status_rank cur n :
  known cur -> next_status cur n = of_rank (Nat.max (rank cur) (rank n)).
Proof.
  intros H. split_status H; unfold next_status, rank; case_new n;
    try reflexivity;
    repeat match goal with
           | H : ?a <> ?b |- context [String.eqb ?a ?b] =>
               rewrite (proj2 (String.eqb_neq a b) H)
           end; reflexivity.
Qed.

Lemma priority_rule_rank cur n :
  known cur -> priority_rule cur n = of_rank (Nat.max (rank cur) (rank n)).
Proof.
  intros H. split_status H; unfold priority_rule, rank; case_new n;
    try reflexivity;
    repeat match goal with
           | H : ?a <> ?b |- context [String.eqb ?a ?b] =>
               rewrite (proj2 (String.eqb_neq a b) H)
           end; reflexivity.
Qed.

Lemma known_of_rank n : known (of_rank n).
Proof.
  unfold known, Status.all.
  destruct n as [ | [ | [ | n]]]; simpl; auto.
Qed.

Lemma rank_of_rank n : rank (of_rank n) = Nat.min n 3.
Proof. destruct n as [ | [ | [ | n]]]; cbn; lia. Qed.

Lemma rank_le_3 s : (rank s <= 3)%nat.
Proof.
  unfold rank.
  repeat match goal with |- context [String.eqb ?a ?b] =>
           destruct (String.eqb a b) end; lia.
Qed.

Lemma next_status_known cur n : known cur -> known (next_status cur n).
Proof. intros H. rewrite next_status_rank by exact H. apply known_of_rank. Qed.

Lemma status_add_all rs self :
  status (add_all self rs)
  = fold_left next_status (map TestResult.status rs) (status self).
Proof.
  unfold add_all. revert self.
  induction rs as [ | r rs IH]; intros self; simpl; [reflexivity | ].
  rewrite IH. reflexivity.
Qed.

Lemma known_add_all rs self : known (status self) -> known (status (add_all self rs)).
Proof.
  unfold add_all. revert self.
  induction rs as [ | r rs IH]; intros self H; simpl; [exact H | ].
  apply IH. simpl. apply next_status_known, H.
Qed.

Lemma next_status_swap cur a b :
  known cur ->
  next_status (next_status cur a) b = next_status (next_status cur b) a.
Proof.
  intros H.
  rewrite (next_status_rank (next_status cur a)) by (apply next_status_known, H).
  rewrite (next_status_rank (next_status cur b)) by (apply next_status_known, H).
  rewrite !(next_status_rank cur) by exact H.
  rewrite !rank_of_rank. f_equal.
  pose proof (rank_le_3 cur). pose proof (rank_le_3 a). pose proof (rank_le_3 b).
  lia.
Qed.

Lemma fold_next_status_perm l l' :
  Permutation l l' ->
  forall cur, known cur ->
    fold_left next_status l cur = fold_left next_status l' cur.
Proof.
  induction 1 as [ | x l l' _ IH | x y l | l l' l'' _ IH1 _ IH2];
    intros cur Hc; simpl.
  - reflexivity.
  - apply IH, next_status_known, Hc.
  - rewrite next_status_swap by exact Hc. reflexivity.
  - rewrite IH1 by exact Hc. apply IH2, Hc.
Qed.

(** C1. On every state that [add_variation] can reach from a fresh group,
    the status after one more variation is the one the priority rule
    gives; and the final status of a group does not depend on the order
    of its variations: folding [add_variation] over any permutation of a
    list of records, from a fresh group for any key, ends in the same
    status. *)
Theorem add_variation_priority_order_independent :
  (forall (key : string) (seen : list TestResult.t) (r : TestResult.t),
      status (add_variation (add_all (new key) seen) r)
      = priority_rule (status (add_all (new key) seen)) (TestResult.status r))
  /\
  (forall (key : string) (rs rs' : list TestResult.t),
      Permutation rs rs' ->
      status (add_all (new key) rs) = status (add_all (new key) rs')).
Proof.
  assert (K : forall key, known (status (new key))).
  { intros key. unfold known, Status.all. simpl. auto. }
  split.
  - intros key seen r. simpl.
    pose proof (known_add_all seen (new key) (K key)) as Hk.
    rewrite next_status_rank, priority_rule_rank by exact Hk. reflexivity.
  - intros key rs rs' HP. rewrite !status_add_all.
    apply fold_next_status_perm; [ | apply K].
    apply Permutation_map, HP.
Qed.

End StatusPriority.

Lemma add_variation_priority_order_independent_witness :
  AggregatedResult.status
    (AggregatedResult.add_all (AggregatedResult.new "KEY-1")
       [ Sample.record "test_x" "test_x[1]" Status.FAIL "boom";
         Sample.record "test_x" "test_x[2]" Status.PASS "" ])
  = AggregatedResult.status
      (AggregatedResult.add_all (AggregatedResult.new "KEY-1")
         [ Sample.record "test_x" "test_x[2]" Status.PASS "";
           Sample.record "test_x" "test_x[1]" Status.FAIL "boom" ]).
Proof.
  apply (proj2 add_variation_priority_order_independent "KEY-1").
  apply perm_swap.
Defined.

(** ** Clean names *)

Section CleanName.
Import Spec.

Lemma split_head sep s :
  exists rest, PyStr.split sep s = truncate_at sep s :: rest.
Proof.
  induction s as [ | c s [rest IH]]; simpl.
  - exists []. reflexivity.
  - destruct (Ascii.eqb c sep).
    + eexists. reflexivity.
    + rewrite IH. eexists. reflexivity.
Qed.

Lemma clean_name_of_spec full_name :
  JUnitParser.clean_name_of full_name = Ok (clean_name full_name).
Proof.
  unfold JUnitParser.clean_name_of, clean_name.
  destruct (split_head " " full_name) as [r1 ->]. simpl.
  destruct (split_head "[" (truncate_at " " full_name)) as [r2 ->].
  reflexivity.
Qed.

Lemma truncate_at_absent c s : occurs c s = false -> truncate_at c s = s.
Proof.
  induction s as [ | a s IH]; simpl; [reflexivity | ].
  destruct (Ascii.eqb a c); simpl; [discriminate | ].
  intros H. rewrite IH by exact H. reflexivity.
Qed.

Lemma occurs_truncate_at_same c s : occurs c (truncate_at c s) = false.
Proof.
  induction s as [ | a s IH]; simpl; [reflexivity | ].
  destruct (Ascii.eqb a c) eqn:E; simpl; [reflexivity | ].
  rewrite E. exact IH.
Qed.

Lemma occurs_truncate_at_other c d s :
  occurs c s = false -> occurs c (truncate_at d s) = false.
Proof.
  induction s as [ | a s IH]; simpl; [reflexivity | ].
  destruct (Ascii.eqb a c) eqn:E; simpl; [discriminate | ].
  intros H. destruct (Ascii.eqb a d); simpl; [reflexivity | ].
  rewrite E. apply IH, H.
Qed.

Lemma clean_name_clean full_name :
  clean_name (clean_name full_name) = clean_name full_name.
Proof.
  unfold clean_name.
  rewrite (truncate_at_absent " ").
  - apply truncate_at_absent, occurs_truncate_at_same.
  - apply occurs_truncate_at_other, occurs_truncate_at_same.
Qed.

Lemma parse_testcase_names `{PyFloat} testcase r :
  JUnitParser._parse_testcase testcase = Ok r ->
  TestResult.full_name r = ET.get testcase "name" ""
  /\ TestResult.name r = clean_name (ET.get testcase "name" "").
Proof.
  unfold JUnitParser._parse_testcase.
  destruct (JUnitParser.py_float _) as [d | e]; simpl; [ | discriminate].
  rewrite clean_name_of_spec. simpl.
  repeat match goal with
         | |- context [match ?x with _ => _ end] => destruct x
         end;
    intros [= <-]; split; reflexivity.
Qed.

(** C5. The clean name that the parser derives is the full name
    truncated at the first space and then at the first opening bracket
    (the indexing [[0]] never fails); every record the parser returns
    carries that name; deriving again from a clean name gives it back;
    and a name with neither a space nor a bracket is returned as it is. *)
Theorem clean_name_truncated_idempotent :
  (forall full_name,
      JUnitParser.clean_name_of full_name
      = Ok (truncate_at "[" (truncate_at " " full_name)))
  /\ (forall (F : PyFloat) testcase r,
         JUnitParser._parse_testcase testcase = Ok r ->
         TestResult.name r
         = truncate_at "[" (truncate_at " " (TestResult.full_name r)))
  /\ (forall full_name clean,
         JUnitParser.clean_name_of full_name = Ok clean ->
         JUnitParser.clean_name_of clean = Ok clean)
  /\ (forall full_name,
         occurs " " full_name = false ->
         occurs "[" full_name = false ->
         JUnitParser.clean_name_of full_name = Ok full_name).
Proof.
  split; [ | split; [ | split]].
  - apply clean_name_of_spec.
  - intros F testcase r Hr.
    destruct (parse_testcase_names testcase r Hr) as [-> ->]. reflexivity.
  - intros full_name clean. rewrite clean_name_of_spec. intros [= <-].
    rewrite clean_name_of_spec, clean_name_clean. reflexivity.
  - intros full_name Hs Hb. rewrite clean_name_of_spec. unfold clean_name.
    rewrite (truncate_at_absent " ") by exact Hs.
    rewrite truncate_at_absent by exact Hb. reflexivity.
Qed.

End CleanName.

Lemma clean_name_truncated_idempotent_witness :
  JUnitParser.clean_name_of "test_login" = Ok "test_login"
  /\ JUnitParser.clean_name_of "test_login" = Ok "test_login"
  /\ TestResult.name
       (TestResult.mk "test_login" "test_login[chrome] (call)" Status.PASS ""
          0%float)
     = Spec.truncate_at "["
         (Spec.truncate_at " " "test_login[chrome] (call)").
Proof.
  destruct clean_name_truncated_idempotent as (_ & Hparse & Hidem & Hclean).
  split; [ | split].
  - apply (Hclean "test_login"); reflexivity.
  - apply (Hidem "test_login[chrome] (call)"). reflexivity.
  - apply (Hparse Sample.floats
             (Sample.testcase [("name", "test_login[chrome] (call)")] [])).
    vm_compute. reflexivity.
Defined.

(** ** Counters of the parser *)

Section Counters.
Import Spec.
Context `{F : PyFloat}.

Lemma iter_length t : forall e, length (ET.iter t e) = count_tag t e.
Proof.
  fix IH 1. intros [tg a tx ch]. simpl.
  rewrite length_app. f_equal.
  - destruct (String.eqb tg t); reflexivity.
  - induction ch as [ | c ch IHch]; simpl; [reflexivity | ].
    rewrite length_app, IH, IHch. reflexivity.
Qed.

Lemma findall_descendants_length root t :
  length (ET.findall_descendants root t)
  = (count_tag t root - (if String.eqb (ET.tag root) t then 1 else 0))%nat.
Proof.
  destruct root as [tg a tx ch]. unfold ET.findall_descendants. simpl.
  assert (E : length (flat_map (ET.iter t) ch)
              = list_sum (map (count_tag t) ch)).
  { induction ch as [ | c ch IH]; simpl; [reflexivity | ].
    rewrite length_app, iter_length, IH. reflexivity. }
  rewrite E. destruct (String.eqb tg t); lia.
Qed.

Lemma count_one results r :
  let results' := JUnitParser.count results r in
  ParsedResults.total results' = ParsedResults.total results + 1
  /\ ParsedResults.tests results' = ParsedResults.tests results ++ [r]
  /\ ( (ParsedResults.passed results' = ParsedResults.passed results + 1
        /\ ParsedResults.failed results' = ParsedResults.failed results
        /\ ParsedResults.skipped results' = ParsedResults.skipped results)
       \/ (ParsedResults.passed results' = ParsedResults.passed results
           /\ ParsedResults.failed results' = ParsedResults.failed results + 1
           /\ ParsedResults.skipped results' = ParsedResults.skipped results)
       \/ (ParsedResults.passed results' = ParsedResults.passed results
           /\ ParsedResults.failed results' = ParsedResults.failed results
           /\ ParsedResults.skipped results'
              = ParsedResults.skipped results + 1) ).
Proof.
  unfold JUnitParser.count.
  destruct (String.eqb _ Status.PASS || String.eqb _ Status.CONDITIONALPASS);
    [ | destruct (String.eqb _ Status.FAIL)]; simpl; tauto.
Qed.

Lemma parse_loop_counts testcases : forall results r,
  JUnitParser.parse_loop testcases results = Ok r ->
  ParsedResults.total r
  = ParsedResults.total results + Z.of_nat (length testcases)
  /\ ParsedResults.passed r + ParsedResults.failed r + ParsedResults.skipped r
     = ParsedResults.passed results + ParsedResults.failed results
       + ParsedResults.skipped results + Z.of_nat (length testcases)
  /\ length (ParsedResults.tests r)
     = (length (ParsedResults.tests results) + length testcases)%nat.
Proof.
  induction testcases as [ | tc rest IH]; intros results r; simpl.
  - intros [= <-]. repeat split; lia.
  - destruct (JUnitParser._parse_testcase tc) as [x | e]; simpl;
      [ | discriminate].
    intros Hr. destruct (IH _ _ Hr) as (Ht & Hs & Hl).
    destruct (count_one results x) as (Ct & Cl & Cc).
    rewrite Ht, Hs, Hl, Ct, Cl, length_app. simpl.
    repeat split; lia.
Qed.

Lemma parse_loop_returns testcases : forall results,
  Forall (fun tc => float_of_str (ET.get tc "time" "0") <> None) testcases ->
  exists r, JUnitParser.parse_loop testcases results = Ok r.
Proof.
  induction testcases as [ | tc rest IH]; intros results Hall; simpl.
  - eexists. reflexivity.
  - inversion Hall as [ | ? ? Htc Hrest]; subst.
    assert (E : exists x, JUnitParser._parse_testcase tc = Ok x).
    { unfold JUnitParser._parse_testcase, JUnitParser.py_float.
      destruct (float_of_str _) as [d | ]; [ | congruence]. simpl.
      rewrite clean_name_of_spec. simpl.
      repeat match goal with
             | |- context [match ?x with _ => _ end] => destruct x
             end; eexists; reflexivity. }
    destruct E as [x ->]. simpl. apply IH, Hrest.
Qed.

Lemma parse_total_tests fs path r :
  JUnitParser.parse fs path = Ok r ->
  ParsedResults.total r = Z.of_nat (length (ParsedResults.tests r)).
Proof.
  unfold JUnitParser.parse. destruct (fs path) as [ | | e | root]; try discriminate.
  intros Hr. destruct (parse_loop_counts _ _ _ Hr) as (Ht & _ & Hl).
  rewrite Ht, Hl. simpl. lia.
Qed.

(** C2 (amended). Whenever [parse] returns, the three category counters
    add up to [total]: each record adds one to [total] and one to exactly
    one of [passed], [failed], [skipped].  [total] is the number of
    [<testcase>] elements beneath the root element, at any depth: the
    number of such elements in the document, less one when the root
    itself is a [<testcase>].  And [parse] does return on a document
    whose testcases all carry a [time] that [float] accepts. *)
Theorem parse_counters_consistent :
  (forall fs path r,
      JUnitParser.parse fs path = Ok r ->
      ParsedResults.passed r + ParsedResults.failed r + ParsedResults.skipped r
      = ParsedResults.total r
      /\ exists root,
           fs path = Document root
           /\ ParsedResults.total r
              = Z.of_nat (testcases_in_document root)
                - (if String.eqb (ET.tag root) "testcase" then 1 else 0)
           /\ ParsedResults.total r
              = Z.of_nat (length (ET.findall_descendants root "testcase")))
  /\ (forall results r,
         ParsedResults.total (JUnitParser.count results r)
         = ParsedResults.total results + 1
         /\ ParsedResults.passed (JUnitParser.count results r)
            + ParsedResults.failed (JUnitParser.count results r)
            + ParsedResults.skipped (JUnitParser.count results r)
            = ParsedResults.passed results + ParsedResults.failed results
              + ParsedResults.skipped results + 1
         /\ ParsedResults.passed results
            <= ParsedResults.passed (JUnitParser.count results r)
         /\ ParsedResults.failed results
            <= ParsedResults.failed (JUnitParser.count results r)
         /\ ParsedResults.skipped results
            <= ParsedResults.skipped (JUnitParser.count results r))
  /\ (forall fs path root,
         fs path = Document root ->
         Forall (fun tc => float_of_str (ET.get tc "time" "0") <> None)
           (ET.findall_descendants root "testcase") ->
         exists r, JUnitParser.parse fs path = Ok r).
Proof.
  split; [ | split].
  - intros fs path r Hr. pose proof Hr as Hp. unfold JUnitParser.parse in Hp.
    destruct (fs path) as [ | | e | root]; try discriminate.
    destruct (parse_loop_counts _ _ _ Hp) as (Ht & Hs & _). simpl in Ht, Hs.
    split; [lia | ]. exists root. split; [reflexivity | ].
    split; [ | lia].
    rewrite Ht, findall_descendants_length. unfold testcases_in_document.
    destruct root as [tg a tx ch]. simpl.
    destruct (String.eqb tg "testcase"); lia.
  - intros results r. destruct (count_one results r) as (Ct & _ & Cc).
    rewrite Ct. split; [reflexivity | ].
    destruct Cc as [(-> & -> & ->) | [(-> & -> & ->) | (-> & -> & ->)]]; lia.
  - intros fs path root Hfs Hall. unfold JUnitParser.parse. rewrite Hfs.
    apply parse_loop_returns, Hall.
Qed.

End Counters.

Lemma parse_counters_consistent_witness :
  exists r,
    @JUnitParser.parse Sample.floats (Sample.one_report Sample.suite)
      "report.xml" = Ok r
    /\ ParsedResults.passed r + ParsedResults.failed r
       + ParsedResults.skipped r = ParsedResults.total r.
Proof.
  destruct (proj2 (proj2 (@parse_counters_consistent Sample.floats))
              (Sample.one_report Sample.suite) "report.xml" Sample.suite
              eq_refl) as [r Hr].
  { vm_compute. repeat (constructor; [discriminate | ]). constructor. }
  exists r. split; [exact Hr | ].
  apply (proj1 (@parse_counters_consistent Sample.floats) _ _ _ Hr).
Defined.

(** C2, as stated, fails on a document whose root element is itself a
    [<testcase>]: the document has one such element and [total] is 0. *)
Lemma root_testcase_not_counted :
  @JUnitParser.parse Sample.floats (Sample.one_report Sample.root_testcase)
    "report.xml" = Ok ParsedResults.new
  /\ ParsedResults.total ParsedResults.new
     <> Z.of_nat (Spec.testcases_in_document Sample.root_testcase).
Proof. split; [vm_compute; reflexivity | vm_compute; discriminate]. Qed.

(** ** Slices *)

Section Slices.

Lemma slice_to_substring s : forall n,
  PyStr.slice_to n s = substring 0 (N.to_nat n) s.
Proof.
  induction s as [ | c s IH]; intros n; simpl.
  - destruct (N.to_nat n); reflexivity.
  - destruct (N.eqb_spec n 0) as [-> | Hn]; [reflexivity | ].
    replace (N.to_nat n) with (S (N.to_nat (N.pred n))) by lia.
    simpl. rewrite IH. reflexivity.
Qed.

Lemma slice_to_length s : forall n,
  String.length (PyStr.slice_to n s) = Nat.min (N.to_nat n) (String.length s).
Proof.
  induction s as [ | c s IH]; intros n; simpl.
  - lia.
  - destruct (N.eqb_spec n 0) as [-> | Hn]; simpl; [reflexivity | ].
    rewrite IH. lia.
Qed.

Lemma slice_to_prefix s : forall n, String.prefix (PyStr.slice_to n s) s = true.
Proof.
  induction s as [ | c s IH]; intros n; simpl; [reflexivity | ].
  destruct (N.eqb n 0); simpl; [reflexivity | ].
  destruct (ascii_dec c c) as [_ | Hc]; [apply IH | congruence].
Qed.

Lemma slice_to_all s : forall n,
  (String.length s <= N.to_nat n)%nat -> PyStr.slice_to n s = s.
Proof.
  induction s as [ | c s IH]; intros n; simpl; [reflexivity | ].
  intros Hn. destruct (N.eqb_spec n 0) as [-> | Hn0]; [simpl in Hn; lia | ].
  rewrite IH by lia. reflexivity.
Qed.

End Slices.

(** ** Derivation of status and detail *)

Section Derivation.
Import Spec.
Context `{F : PyFloat}.

Lemma parse_testcase_unfold testcase d :
  float_of_str (ET.get testcase "time" "0") = Some d ->
  JUnitParser._parse_testcase testcase
  = let full_name := ET.get testcase "name" "" in
    let clean := clean_name full_name in
    match ET.find testcase "failure", ET.find testcase "error",
          ET.find testcase "skipped" with
    | Some failure, _, _ =>
        Ok (TestResult.mk clean full_name Status.FAIL
              (JUnitParser._extract_message failure) d)
    | None, Some error, _ =>
        Ok (TestResult.mk clean full_name Status.FAIL
              (JUnitParser._extract_message error) d)
    | None, None, Some skipped =>
        let skip_type := PyStr.lower (ET.get skipped "type" "") in
        let skip_msg := ET.get skipped "message" "" in
        if PyStr.contains "xfail" skip_type
           && negb (PyStr.contains "skip" skip_type)
        then Ok (TestResult.mk clean full_name Status.CONDITIONALPASS
                   ("XFAIL: " +:+ skip_msg) d)
        else Ok (TestResult.mk clean full_name Status.TODO
                   (if PyStr.truthy skip_msg then skip_msg else "Skipped") d)
    | None, None, None =>
        Ok (TestResult.mk clean full_name Status.PASS "" d)
    end.
Proof.
  intros Hd. unfold JUnitParser._parse_testcase, JUnitParser.py_float.
  rewrite Hd. simpl. rewrite clean_name_of_spec. reflexivity.
Qed.

(** C4 (amended). For a test case with no failure and no error child,
    whose first skipped child has a type that, in lower case, contains
    [xfail] and not [skip], and whose [time] is accepted by [float], the
    parser returns a record with status CONDITIONALPASS and detail
    [XFAIL: ] followed by the skip message, and the record adds one to
    [passed] and nothing to [skipped]; for any other skipped child it
    returns status TODO with the skip message as detail, or [Skipped]
    when the message is empty, and the record adds one to [skipped]. *)
Theorem skipped_child_derivation :
  forall testcase skipped d,
    ET.find testcase "failure" = None ->
    ET.find testcase "error" = None ->
    ET.find testcase "skipped" = Some skipped ->
    float_of_str (ET.get testcase "time" "0") = Some d ->
    let skip_type := PyStr.lower (ET.get skipped "type" "") in
    let skip_msg := ET.get skipped "message" "" in
    let full_name := ET.get testcase "name" "" in
    (PyStr.contains "xfail" skip_type = true
     /\ PyStr.contains "skip" skip_type = false ->
     exists r,
       JUnitParser._parse_testcase testcase = Ok r
       /\ r = TestResult.mk (clean_name full_name) full_name
                Status.CONDITIONALPASS ("XFAIL: " +:+ skip_msg) d
       /\ forall results,
            ParsedResults.passed (JUnitParser.count results r)
            = ParsedResults.passed results + 1
            /\ ParsedResults.skipped (JUnitParser.count results r)
               = ParsedResults.skipped results)
    /\
    (~ (PyStr.contains "xfail" skip_type = true
        /\ PyStr.contains "skip" skip_type = false) ->
     exists r,
       JUnitParser._parse_testcase testcase = Ok r
       /\ r = TestResult.mk (clean_name full_name) full_name Status.TODO
                (if String.eqb skip_msg "" then "Skipped" else skip_msg) d
       /\ forall results,
            ParsedResults.skipped (JUnitParser.count results r)
            = ParsedResults.skipped results + 1
            /\ ParsedResults.passed (JUnitParser.count results r)
               = ParsedResults.passed results).
Proof.
  intros testcase skipped d Hf He Hs Hd skip_type skip_msg full_name.
  rewrite (parse_testcase_unfold _ _ Hd), Hf, He, Hs. cbv zeta.
  fold skip_type skip_msg full_name.
  split.
  - intros [-> ->]. simpl. eexists. split; [reflexivity | ].
    split; [reflexivity | ]. intros results. split; reflexivity.
  - intros Hn.
    assert (E : PyStr.contains "xfail" skip_type
                && negb (PyStr.contains "skip" skip_type) = false).
    { destruct (PyStr.contains "xfail" skip_type),
               (PyStr.contains "skip" skip_type); try reflexivity.
      exfalso. apply Hn. split; reflexivity. }
    rewrite E. eexists. split; [reflexivity | ].
    split; [ | intros results; split; reflexivity].
    destruct skip_msg; reflexivity.
Qed.

(** C6 (amended). For a test case with a failure child, or with no
    failure child and an error child, whose [time] is accepted by
    [float], the parser returns a record with status FAIL whose detail is
    the child's message attribute, followed, when the child has text, by
    two line feeds and the first 2000 characters of that text; the
    failure child goes before the error child. *)
Theorem failure_child_derivation :
  forall testcase child d,
    float_of_str (ET.get testcase "time" "0") = Some d ->
    ET.find testcase "failure" = Some child
    \/ (ET.find testcase "failure" = None
        /\ ET.find testcase "error" = Some child) ->
    let full_name := ET.get testcase "name" "" in
    let message := ET.get child "message" "" in
    let detail :=
      match ET.text child with
      | None | Some "" => message
      | Some body =>
          message +:+ PyStr.nl +:+ PyStr.nl
          +:+ substring 0 2000 body
      end in
    JUnitParser._parse_testcase testcase
    = Ok (TestResult.mk (clean_name full_name) full_name Status.FAIL detail d).
Proof.
  intros testcase child d Hd Hc full_name message detail.
  rewrite (parse_testcase_unfold _ _ Hd). cbv zeta.
  assert (E : JUnitParser._extract_message child = detail).
  { unfold JUnitParser._extract_message, detail, message.
    destruct (ET.text child) as [[ | c body] | ]; try reflexivity.
    cbn [PyStr.truthy]. rewrite slice_to_substring. reflexivity. }
  destruct Hc as [-> | [-> ->]]; rewrite E; reflexivity.
Qed.

End Derivation.

Lemma skipped_child_derivation_witness :
  (exists r,
      @JUnitParser._parse_testcase Sample.floats Sample.xfailed = Ok r
      /\ TestResult.status r = Status.CONDITIONALPASS
      /\ TestResult.comment r = "XFAIL: known bug")
  /\ (exists r,
         @JUnitParser._parse_testcase Sample.floats Sample.plainly_skipped
         = Ok r
         /\ TestResult.status r = Status.TODO
         /\ TestResult.comment r = "Skipped").
Proof.
  split.
  - destruct (@skipped_child_derivation Sample.floats Sample.xfailed
                (Sample.leaf "skipped"
                   [("type", "xfail"); ("message", "known bug")] None)
                0%float)
      as [Hx _]; try (vm_compute; reflexivity).
    destruct Hx as (r & Hr & -> & _); [vm_compute; split; reflexivity | ].
    eexists. split; [exact Hr | ]. vm_compute. split; reflexivity.
  - destruct (@skipped_child_derivation Sample.floats Sample.plainly_skipped
                (Sample.leaf "skipped" [("type", "pytest.skip")] None)
                0%float)
      as [_ Hs]; try (vm_compute; reflexivity).
    destruct Hs as (r & Hr & -> & _).
    { vm_compute. intros [H _]. discriminate H. }
    eexists. split; [exact Hr | ]. vm_compute. split; reflexivity.
Defined.

(** C4, as stated, fails on a skipped child of type [XFAIL]: the type
    does not contain [xfail], so it is one of the other skipped
    children, and yet the record is a CONDITIONALPASS, not a TODO.  It
    also fails on a test case whose [time] is no number: no record is
    produced, [float] raises [ValueError]. *)
Lemma capital_xfail_is_conditional_pass :
  PyStr.contains "xfail" "XFAIL" = false
  /\ @JUnitParser._parse_testcase Sample.floats Sample.xfailed_capitals
     = Ok (TestResult.mk "test_known" "test_known" Status.CONDITIONALPASS
             "XFAIL: known bug" 0%float)
  /\ Status.CONDITIONALPASS <> Status.TODO
  /\ @JUnitParser._parse_testcase Sample.floats Sample.xfailed_without_time
     = Raise ValueError.
Proof.
  split; [reflexivity | ]. split; [vm_compute; reflexivity | ].
  split; [discriminate | vm_compute; reflexivity].
Qed.

Lemma failure_child_derivation_witness :
  @JUnitParser._parse_testcase Sample.floats Sample.failing
  = Ok (TestResult.mk "test_login" "test_login[chrome]" Status.FAIL
          ("timeout" +:+ PyStr.nl +:+ PyStr.nl +:+ "stack") 0%float).
Proof.
  rewrite (@failure_child_derivation Sample.floats Sample.failing
             (Sample.leaf "failure" [("message", "timeout")] (Some "stack"))
             0%float).
  - vm_compute. reflexivity.
  - vm_compute. reflexivity.
  - left. vm_compute. reflexivity.
Defined.

(** C6, as stated, fails on scenario 2 of the specification: the detail
    is not the message followed by the body text, two line feeds stand
    between them.  It also fails on a test case whose [time] is no
    number: no record is produced, [float] raises [ValueError]. *)
Lemma failure_detail_has_separator :
  (exists r,
      @JUnitParser._parse_testcase Sample.floats Sample.failing = Ok r
      /\ TestResult.status r = Status.FAIL
      /\ TestResult.comment r = "timeout" +:+ PyStr.nl +:+ PyStr.nl +:+ "stack"
      /\ TestResult.comment r <> "timeout" +:+ substring 0 2000 "stack")
  /\ @JUnitParser._parse_testcase Sample.floats Sample.failing_without_time
     = Raise ValueError.
Proof.
  split; [ | vm_compute; reflexivity].
  eexists. split; [vm_compute; reflexivity | ].
  split; [reflexivity | split; [reflexivity | ]].
  vm_compute. discriminate.
Qed.

(** ** Aggregation *)

Section Aggregation.
Import Spec.

Lemma contains_In {V} k (d : list (string * V)) :
  PyDict.contains k d = true <-> In k (PyDict.keys d).
Proof.
  unfold PyDict.contains, PyDict.keys. rewrite existsb_exists, in_map_iff.
  split; intros [[k' v] [H1 H2]]; exists (k', v); simpl in *.
  - apply String.eqb_eq in H2. auto.
  - subst. split; [exact H2 | apply String.eqb_refl].
Qed.

Lemma alter_keys {V} (f : V -> V) k d :
  PyDict.keys (PyDict.alter f k d) = PyDict.keys d.
Proof.
  induction d as [ | [k' v] d IH]; simpl; [reflexivity | ].
  destruct (String.eqb k' k); simpl; [reflexivity | ].
  f_equal. exact IH.
Qed.

Lemma alter_fresh {V} (f : V -> V) k v d :
  ~ In k (PyDict.keys d) ->
  PyDict.alter f k (PyDict.add k v d) = d ++ [(k, f v)].
Proof.
  unfold PyDict.add.
  induction d as [ | [k' v'] d IH]; simpl; intros Hk.
  - rewrite String.eqb_refl. reflexivity.
  - destruct (String.eqb_spec k' k) as [-> | Hne]; [tauto | ].
    rewrite IH by tauto. reflexivity.
Qed.

Lemma In_alter {V} (f : V -> V) k d n a' :
  List.NoDup (PyDict.keys d) ->
  In (n, a') (PyDict.alter f k d) ->
  (n <> k /\ In (n, a') d) \/ (n = k /\ exists a, In (k, a) d /\ a' = f a).
Proof.
  induction d as [ | [k' v] d IH]; simpl; [tauto | ].
  intros Hnd. inversion Hnd as [ | ? ? Hk' Hd]; subst.
  destruct (String.eqb_spec k' k) as [-> | Hne]; simpl.
  - intros [E | Hin].
    + inversion E; subst. right. split; [reflexivity | ]. eauto.
    + left. split; [ | right; exact Hin].
      intros ->. apply Hk'. unfold PyDict.keys.
      apply in_map_iff. exists (k, a'). auto.
  - intros [E | Hin].
    + inversion E; subst. left. auto.
    + destruct (IH Hd Hin) as [[H1 H2] | [H1 (a & H2 & H3)]]; [left | right]; eauto.
Qed.

Lemma variation_count_app d1 d2 :
  variation_count (d1 ++ d2) = (variation_count d1 + variation_count d2)%nat.
Proof.
  unfold variation_count. rewrite map_app, list_sum_app. reflexivity.
Qed.

Lemma variation_count_alter t k d :
  In k (PyDict.keys d) ->
  variation_count
    (PyDict.alter (fun agg => AggregatedResult.add_variation agg t) k d)
  = S (variation_count d).
Proof.
  induction d as [ | [k' v] d IH]; simpl; [tauto | ].
  destruct (String.eqb_spec k' k) as [-> | Hne]; simpl.
  - intros _. unfold variation_count. simpl. rewrite length_app. simpl. lia.
  - intros [E | Hin]; [congruence | ].
    unfold variation_count in *. simpl. rewrite (IH Hin). lia.
Qed.

Lemma named_snoc n seen t :
  named n (seen ++ [t])
  = named n seen ++ (if String.eqb (TestResult.name t) n then [t] else []).
Proof. unfold named. rewrite List.filter_app. reflexivity. Qed.

Lemma unmapped_snoc mapping seen t :
  unmapped mapping (seen ++ [t])
  = unmapped mapping seen
    ++ (if bool_decide (mapping !! TestResult.name t = None) then [t] else []).
Proof. unfold unmapped. rewrite List.filter_app. reflexivity. Qed.

Lemma named_none n seen :
  (forall t, In t seen -> TestResult.name t <> n) -> named n seen = [].
Proof.
  intros H. unfold named. induction seen as [ | x seen IH]; simpl; [reflexivity | ].
  destruct (String.eqb_spec (TestResult.name x) n) as [E | _].
  - exfalso. apply (H x); [left; reflexivity | exact E].
  - apply IH. intros t Ht. apply H. right. exact Ht.
Qed.

Lemma step_invariant mapping seen st t :
  aggregation_invariant mapping seen st ->
  aggregation_invariant mapping (seen ++ [t]) (ResultAggregator.step mapping st t).
Proof.
  intros (Hnd & Hgrp & Hcov & Hun & Hsum).
  unfold ResultAggregator.step.
  destruct (mapping !! TestResult.name t) as [key | ] eqn:Hm.
  - (* the name has a key *)
    assert (Hu : unmapped mapping (seen ++ [t]) = unmapped mapping seen).
    { rewrite unmapped_snoc, Hm.
      rewrite bool_decide_eq_false_2 by discriminate. rewrite app_nil_r; reflexivity. }
    destruct (PyDict.contains (TestResult.name t) (ResultAggregator.aggregates st))
      eqn:Hc.
    + apply contains_In in Hc.
      split; [ | split; [ | split; [ | split]]]; simpl.
      * rewrite alter_keys. exact Hnd.
      * intros n agg Hin.
        destruct (In_alter _ _ _ _ _ Hnd Hin) as [[Hne Hin'] | [-> (a & Hin' & ->)]].
        -- destruct (Hgrp _ _ Hin') as [H1 H2]. split; [exact H1 | ].
           rewrite named_snoc, H2.
           destruct (String.eqb_spec (TestResult.name t) n); [congruence | ].
           rewrite app_nil_r; reflexivity.
        -- destruct (Hgrp _ _ Hin') as [H1 H2]. simpl. split; [exact H1 | ].
           rewrite named_snoc, H2, String.eqb_refl. reflexivity.
      * intros x Hx Hmx. rewrite alter_keys.
        apply in_app_or in Hx. destruct Hx as [Hx | [<- | []]];
          [apply Hcov; assumption | exact Hc].
      * intros n. rewrite Hun. split; intros [H1 (x & Hx & Hn)]; split; try exact H1.
        -- exists x. split; [apply in_or_app; left; exact Hx | exact Hn].
        -- apply in_app_or in Hx. destruct Hx as [Hx | [<- | []]].
           ++ exists x. auto.
           ++ congruence.
      * rewrite Hu, variation_count_alter by exact Hc.
        rewrite length_app. simpl. lia.
    + assert (Hfresh : ~ In (TestResult.name t)
                         (PyDict.keys (ResultAggregator.aggregates st))).
      { intros H. apply contains_In in H. congruence. }
      rewrite alter_fresh by exact Hfresh.
      split; [ | split; [ | split; [ | split]]]; simpl.
      * unfold PyDict.keys. rewrite map_app. simpl.
        apply NoDup_ListNoDup, NoDup_app. split; [apply NoDup_ListNoDup, Hnd | ].
        split; [ | apply NoDup_singleton].
        intros x Hx Hx'. apply list_elem_of_singleton in Hx'. subst.
        apply Hfresh. apply list_elem_of_In. exact Hx.
      * intros n agg Hin. apply in_app_or in Hin.
        destruct Hin as [Hin | [E | []]].
        -- destruct (Hgrp _ _ Hin) as [H1 H2]. split; [exact H1 | ].
           rewrite named_snoc, H2.
           destruct (String.eqb_spec (TestResult.name t) n) as [E | _];
             [ | rewrite app_nil_r; reflexivity].
           exfalso. apply Hfresh. rewrite E. unfold PyDict.keys.
           apply in_map_iff. exists (n, agg). auto.
        -- inversion E; subst. simpl. split; [exact Hm | ].
           rewrite named_snoc, String.eqb_refl, named_none; [reflexivity | ].
           intros x Hx Hn. apply Hfresh. rewrite <- Hn. apply Hcov; [exact Hx | ].
           rewrite Hn, Hm. discriminate.
      * intros x Hx Hmx. unfold PyDict.keys. rewrite map_app. apply in_or_app.
        apply in_app_or in Hx. destruct Hx as [Hx | [<- | []]].
        -- left. apply Hcov; assumption.
        -- right. left. reflexivity.
      * intros n. rewrite Hun. split; intros [H1 (x & Hx & Hn)]; split; try exact H1.
        -- exists x. split; [apply in_or_app; left; exact Hx | exact Hn].
        -- apply in_app_or in Hx. destruct Hx as [Hx | [<- | []]].
           ++ exists x. auto.
           ++ congruence.
      * rewrite Hu, variation_count_app. unfold variation_count at 2. simpl.
        rewrite length_app. simpl. lia.
  - (* the name has no key *)
    split; [ | split; [ | split; [ | split]]]; simpl.
    + exact Hnd.
    + intros n agg Hin. destruct (Hgrp _ _ Hin) as [H1 H2]. split; [exact H1 | ].
      rewrite named_snoc, H2.
      destruct (String.eqb_spec (TestResult.name t) n); [congruence | ].
      rewrite app_nil_r; reflexivity.
    + intros x Hx Hmx. apply in_app_or in Hx.
      destruct Hx as [Hx | [<- | []]]; [apply Hcov; assumption | congruence].
    + intros n. rewrite elem_of_union, elem_of_singleton, Hun. split.
      * intros [[H1 (x & Hx & Hn)] | ->].
        -- split; [exact H1 | ]. exists x.
           split; [apply in_or_app; left; exact Hx | exact Hn].
        -- split; [exact Hm | ]. exists t.
           split; [apply in_or_app; right; left; reflexivity | reflexivity].
      * intros [H1 (x & Hx & Hn)]. apply in_app_or in Hx.
        destruct Hx as [Hx | [<- | []]]; [left | right; congruence].
        split; [exact H1 | ]. exists x. auto.
    + rewrite unmapped_snoc, Hm, bool_decide_eq_true_2 by reflexivity.
      rewrite !length_app. simpl. lia.
Qed.

Lemma run_invariant mapping results :
  aggregation_invariant mapping (ParsedResults.tests results)
    (ResultAggregator.run mapping results).
Proof.
  unfold ResultAggregator.run.
  induction (ParsedResults.tests results) as [ | t seen IH] using rev_ind.
  - split; [constructor | ]. split; [intros n agg [] | ].
    split; [intros t [] | ]. split; [ | reflexivity].
    intros n. simpl. split.
    + intros Hn. apply not_elem_of_empty in Hn. contradiction.
    + intros [_ (t & [] & _)].
  - rewrite fold_left_app. simpl. apply step_invariant, IH.
Qed.

Lemma unmatched_records_unmapped mapping results :
  unmatched_records
    (ResultAggregator.unmatched (ResultAggregator.run mapping results))
    (ParsedResults.tests results)
  = unmapped mapping (ParsedResults.tests results).
Proof.
  destruct (run_invariant mapping results) as (_ & _ & _ & Hun & _).
  unfold unmatched_records, unmapped. apply List.filter_ext_in.
  intros t Ht. apply bool_decide_ext. rewrite Hun. split.
  - intros [H _]. exact H.
  - intros H. split; [exact H | ]. exists t. auto.
Qed.

(** C3 (amended). [aggregate] partitions the records of any
    [ParsedResults]: a record whose clean name has a key is a variation
    of the group of that name and of no other group, and its name is not
    in the unmatched set; a record whose clean name has no key is in no
    group, and its name is in the unmatched set.  The keys of the groups
    are pairwise different and none of them is in the unmatched set.  The
    variation counts of the groups and the number of records with an
    unmatched name add up to the number of records, which is [total] for
    every [ParsedResults] that [parse] returns.  With an empty mapping
    there is no group, the matched list is empty, and the unmatched names
    are the names of all records. *)
Theorem aggregate_partitions_records :
  forall (F : PyFloat) (mapping : gmap string string)
         (results : ParsedResults.t),
    let st := ResultAggregator.run mapping results in
    let tests := ParsedResults.tests results in
    (forall t, In t tests ->
       (exists key agg,
           mapping !! TestResult.name t = Some key
           /\ In (TestResult.name t, agg) (ResultAggregator.aggregates st)
           /\ AggregatedResult.test_key agg = key
           /\ In t (AggregatedResult.variations agg)
           /\ (forall n' agg',
                  In (n', agg') (ResultAggregator.aggregates st) ->
                  In t (AggregatedResult.variations agg') ->
                  n' = TestResult.name t)
           /\ TestResult.name t ∉ ResultAggregator.unmatched st)
       \/ (mapping !! TestResult.name t = None
           /\ TestResult.name t ∈ ResultAggregator.unmatched st
           /\ forall n agg,
                In (n, agg) (ResultAggregator.aggregates st) ->
                ~ In t (AggregatedResult.variations agg)))
    /\ List.NoDup (PyDict.keys (ResultAggregator.aggregates st))
    /\ (forall n,
           In n (PyDict.keys (ResultAggregator.aggregates st)) ->
           n ∉ ResultAggregator.unmatched st)
    /\ (variation_count (ResultAggregator.aggregates st)
         + length (unmatched_records (ResultAggregator.unmatched st) tests)
         = length tests)%nat
    /\ (forall fs path,
           JUnitParser.parse fs path = Ok results ->
           Z.of_nat
             (variation_count (ResultAggregator.aggregates st)
              + length (unmatched_records (ResultAggregator.unmatched st) tests))
           = ParsedResults.total results)
    /\ (mapping = ∅ ->
         ResultAggregator.aggregates st = []
         /\ fst (ResultAggregator.aggregate mapping results) = []
         /\ forall n,
              In n (snd (ResultAggregator.aggregate mapping results))
              <-> exists t, In t tests /\ TestResult.name t = n).
Proof.
  intros F mapping results st tests.
  destruct (run_invariant mapping results) as (Hnd & Hgrp & Hcov & Hun & Hsum).
  fold st tests in Hnd, Hgrp, Hcov, Hun, Hsum.
  assert (Hmem : forall t n agg,
             In (n, agg) (ResultAggregator.aggregates st) ->
             In t (AggregatedResult.variations agg) ->
             n = TestResult.name t).
  { intros t n agg Hin Ht. destruct (Hgrp _ _ Hin) as [_ Hv].
    rewrite Hv in Ht. apply filter_In in Ht. destruct Ht as [_ Ht].
    apply String.eqb_eq in Ht. congruence. }
  assert (Hkeys : forall n,
             In n (PyDict.keys (ResultAggregator.aggregates st)) ->
             n ∉ ResultAggregator.unmatched st).
  { intros n Hn Hu. apply Hun in Hu. destruct Hu as [Hu _].
    apply in_map_iff in Hn. destruct Hn as ([n' agg] & <- & Hin).
    destruct (Hgrp _ _ Hin) as [Hm _]. simpl in Hu. congruence. }
  assert (Hlen : (variation_count (ResultAggregator.aggregates st)
                  + length (unmatched_records (ResultAggregator.unmatched st) tests)
                  = length tests)%nat).
  { unfold st, tests. rewrite unmatched_records_unmapped. exact Hsum. }
  split; [ | split; [exact Hnd | split; [exact Hkeys | split; [exact Hlen | split]]]].
  - intros t Ht. destruct (mapping !! TestResult.name t) as [key | ] eqn:Hm.
    + left. assert (Hk : In (TestResult.name t)
                           (PyDict.keys (ResultAggregator.aggregates st))).
      { apply Hcov; [exact Ht | congruence]. }
      pose proof (Hkeys _ Hk) as Hnot.
      apply in_map_iff in Hk. destruct Hk as ([n agg] & Hn & Hin).
      simpl in Hn. subst n. destruct (Hgrp _ _ Hin) as [Hkey Hv].
      exists key, agg. split; [reflexivity | ]. split; [exact Hin | ].
      split; [congruence | ]. split; [ | split; [ | exact Hnot]].
      * rewrite Hv. apply filter_In. split; [exact Ht | apply String.eqb_refl].
      * intros n' agg' Hin' Ht'. apply (Hmem t n' agg' Hin' Ht').
    + right. split; [reflexivity | ]. split.
      * apply Hun. split; [exact Hm | ]. exists t. auto.
      * intros n agg Hin Hv. pose proof (Hmem _ _ _ Hin Hv) as ->.
        destruct (Hgrp _ _ Hin) as [Hk _]. congruence.
  - intros fs path Hp. rewrite Hlen.
    symmetry. apply (parse_total_tests fs path results Hp).
  - intros ->.
    assert (He : ResultAggregator.aggregates st = []).
    { destruct (ResultAggregator.aggregates st) as [ | [n agg] d]; [reflexivity | ].
      destruct (Hgrp n agg) as [Hm _]; [left; reflexivity | ].
      rewrite lookup_empty in Hm. discriminate. }
    split; [exact He | ]. unfold ResultAggregator.aggregate. fold st. simpl.
    split; [rewrite He; reflexivity | ].
    intros n. rewrite <- list_elem_of_In, elem_of_elements, Hun.
    rewrite lookup_empty. tauto.
Qed.

End Aggregation.

Lemma aggregate_partitions_records_witness :
  (Spec.variation_count
     (ResultAggregator.aggregates
        (ResultAggregator.run Sample.one_key Sample.three_tests))
   + length
       (Spec.unmatched_records
          (ResultAggregator.unmatched
             (ResultAggregator.run Sample.one_key Sample.three_tests))
          (ParsedResults.tests Sample.three_tests)) = 3)%nat
  /\ "test_y" ∈ ResultAggregator.unmatched
                  (ResultAggregator.run Sample.one_key Sample.three_tests)
  /\ ResultAggregator.aggregates
       (ResultAggregator.run ∅ Sample.three_tests) = [].
Proof.
  destruct (aggregate_partitions_records Sample.floats Sample.one_key
              Sample.three_tests) as (Hrec & _ & _ & Hsum & _ & _).
  destruct (aggregate_partitions_records Sample.floats ∅ Sample.three_tests)
    as (_ & _ & _ & _ & _ & Hempty).
  split; [exact Hsum | split].
  - destruct (Hrec (Sample.record "test_y" "test_y" Status.PASS ""))
      as [(key & agg & Hm & _) | (_ & Hu & _)].
    + simpl. right. left. reflexivity.
    + vm_compute in Hm. discriminate Hm.
    + exact Hu.
  - destruct (Hempty eq_refl) as (He & _). exact He.
Defined.

(** C3, as stated, fails on the [ParsedResults] that [main] builds by
    hand, [total=5] with no records: nothing is matched, nothing is
    unmatched, and [total] is 5. *)
Lemma total_is_not_the_number_of_records :
  Z.of_nat
    (Spec.variation_count
       (ResultAggregator.aggregates
          (ResultAggregator.run ∅ Sample.five_without_tests))
     + length
         (Spec.unmatched_records
            (ResultAggregator.unmatched
               (ResultAggregator.run ∅ Sample.five_without_tests))
            (ParsedResults.tests Sample.five_without_tests)))
  <> ParsedResults.total Sample.five_without_tests.
Proof. vm_compute. discriminate. Qed.

(** ** Comments *)

Section Comments.
Import Spec.
Context `{F : PyFloat}.

Lemma fold_append_one {A} (f : A -> string) vs : forall acc,
  fold_left (fun ls v => ls ++ [f v]) vs acc = acc ++ map f vs.
Proof.
  induction vs as [ | v vs IH]; intros acc; simpl.
  - rewrite app_nil_r. reflexivity.
  - rewrite IH, <- app_assoc. reflexivity.
Qed.

Lemma fold_append_two {A} (f g : A -> string) vs : forall acc,
  fold_left (fun ls v => (ls ++ [f v]) ++ [g v]) vs acc
  = acc ++ flat_map (fun v => [f v; g v]) vs.
Proof.
  induction vs as [ | v vs IH]; intros acc; simpl.
  - rewrite app_nil_r. reflexivity.
  - rewrite IH, <- !app_assoc. reflexivity.
Qed.

Lemma append_length a b :
  String.length (a +:+ b) = (String.length a + String.length b)%nat.
Proof. induction a as [ | c a IH]; simpl; [reflexivity | rewrite IH; reflexivity]. Qed.

Lemma join_length sep lines :
  String.length (PyStr.join sep lines)
  = (total_length lines + (length lines - 1) * String.length sep)%nat.
Proof.
  unfold total_length.
  induction lines as [ | x [ | y rest] IH]; simpl in *; try lia.
  rewrite !append_length, IH. lia.
Qed.

Lemma failed_variations_spec self v :
  In v (AggregatedResult.failed_variations self)
  <-> In v (AggregatedResult.variations self)
      /\ TestResult.status v = Status.FAIL /\ TestResult.comment v <> "".
Proof.
  unfold AggregatedResult.failed_variations. rewrite filter_In, andb_true_iff.
  rewrite String.eqb_eq.
  destruct (TestResult.comment v); simpl; intuition congruence.
Qed.

Lemma string_append_assoc (a b c : string) :
  (a +:+ b) +:+ c = a +:+ (b +:+ c).
Proof.
  induction a as [ | x a IH]; [reflexivity | ].
  change (String x ((a +:+ b) +:+ c) = String x (a +:+ (b +:+ c))).
  f_equal. exact IH.
Qed.

Lemma string_append_nil (a : string) : a +:+ "" = a.
Proof.
  induction a as [ | x a IH]; [reflexivity | ].
  change (String x (a +:+ "") = String x a). f_equal. exact IH.
Qed.

Lemma string_of_revapp d : forall acc,
  NilEmpty.string_of_uint (Decimal.revapp d acc)
  = NilEmpty.string_of_uint (Decimal.revapp d Decimal.Nil)
    +:+ NilEmpty.string_of_uint acc.
Proof.
  induction d as [ | d IH | d IH | d IH | d IH | d IH | d IH | d IH | d IH
                   | d IH | d IH ]; intros acc; cbn [Decimal.revapp];
    [reflexivity | .. ];
    rewrite IH; symmetry; rewrite IH; rewrite string_append_assoc;
    reflexivity.
Qed.

(** The numeral of [10 * q + r] is the numeral of [q], when [q] is not
    0, followed by the digit [r]. *)
Lemma to_lu_digit q r :
  (r < 10)%nat -> (q <> 0 \/ r <> 0)%nat ->
  NilEmpty.string_of_uint
    (Decimal.rev (DecimalNat.Unsigned.to_lu (10 * q + r)))
  = (if (q =? 0)%nat then ""
     else NilEmpty.string_of_uint
            (Decimal.rev (DecimalNat.Unsigned.to_lu q)))
    +:+ String (digit r) "".
Proof.
  intros Hr Hnz.
  assert (E : DecimalNat.Unsigned.to_lu (10 * q + r)
              = Nat.iter r Decimal.Little.succ
                  (if (q =? 0)%nat then Decimal.zero
                   else Decimal.D0 (DecimalNat.Unsigned.to_lu q))).
  { replace (10 * q + r)%nat with (r + 10 * q)%nat by lia.
    clear Hr Hnz. induction r as [ | r IH].
    - cbn [Nat.iter plus]. destruct (Nat.eqb_spec q 0) as [-> | Hq].
      + reflexivity.
      + apply DecimalNat.Unsigned.to_lu_tenfold, Hq.
    - cbn [plus Nat.iter]. rewrite DecimalNat.Unsigned.to_lu_succ, IH.
      reflexivity. }
  rewrite E. unfold Decimal.rev.
  destruct (Nat.eqb_spec q 0) as [-> | Hq].
  - do 10 (destruct r as [ | r];
           [try (destruct Hnz; congruence); reflexivity | ]).
    lia.
  - do 10 (destruct r as [ | r];
           [cbn [Nat.iter nat_rect Decimal.Little.succ Decimal.revapp];
            rewrite (string_of_revapp (DecimalNat.Unsigned.to_lu q));
            reflexivity | ]).
    lia.
Qed.

Lemma decimal_before_spec fuel : forall n rest,
  (n < fuel)%nat ->
  decimal_before fuel n rest = PyStr.of_nat n +:+ rest.
Proof.
  induction fuel as [ | fuel IH]; intros n rest Hn; [lia | ].
  cbn [decimal_before].
  pose proof (Nat.div_mod_eq n 10) as Hdm.
  pose proof (Nat.mod_upper_bound n 10 ltac:(lia)) as Hm.
  unfold PyStr.of_nat. rewrite DecimalNat.Unsigned.to_uint_alt.
  destruct (Nat.ltb_spec n 10) as [Hlt | Hge].
  - rewrite (Nat.mod_small n 10 Hlt).
    do 10 (destruct n as [ | n]; [reflexivity | ]). lia.
  - rewrite IH by (apply Nat.Div0.div_lt_upper_bound; lia).
    unfold PyStr.of_nat. rewrite DecimalNat.Unsigned.to_uint_alt.
    replace (DecimalNat.Unsigned.to_lu n)
      with (DecimalNat.Unsigned.to_lu (10 * (n / 10) + n mod 10))
      by (f_equal; lia).
    rewrite to_lu_digit by lia.
    destruct (Nat.eqb_spec (n / 10) 0) as [Hz | Hnz].
    + apply Nat.div_small_iff in Hz; lia.
    + rewrite string_append_assoc. reflexivity.
Qed.

(** [str(n)] is the decimal numeral of [n]. *)
Lemma of_nat_decimal n : PyStr.of_nat n = decimal n.
Proof.
  unfold decimal. rewrite decimal_before_spec by lia.
  symmetry. apply string_append_nil.
Qed.

(** The dict of icons, with [?] as the default, is the table of the
    four icons. *)
Lemma status_icons_icon status :
  default "?" (AggregatedResult.status_icons !! status) = icon status.
Proof.
  unfold icon, AggregatedResult.status_icons.
  destruct (String.eqb_spec status "PASS") as [-> | H1]; [reflexivity | ].
  destruct (String.eqb_spec status "FAIL") as [-> | H2]; [reflexivity | ].
  destruct (String.eqb_spec status "TODO") as [-> | H3]; [reflexivity | ].
  destruct (String.eqb_spec status "CONDITIONALPASS") as [-> | H4];
    [reflexivity | ].
  cbn [list_to_map foldr fst snd uncurry].
  unfold Status.PASS, Status.FAIL, Status.TODO, Status.CONDITIONALPASS.
  rewrite !lookup_insert_ne by congruence. rewrite lookup_empty. reflexivity.
Qed.

(** [sep.join(lines)] is the library's [String.concat]. *)
Lemma join_concat sep lines : PyStr.join sep lines = String.concat sep lines.
Proof.
  induction lines as [ | x [ | y rest] IH]; [reflexivity | reflexivity | ].
  change (x +:+ sep +:+ PyStr.join sep (y :: rest)
          = x +:+ sep +:+ String.concat sep (y :: rest)).
  rewrite IH. reflexivity.
Qed.

Lemma failed_variations_filter self :
  AggregatedResult.failed_variations self
  = List.filter
      (fun v => String.eqb (TestResult.status v) "FAIL"
                && negb (String.eqb (TestResult.comment v) ""))
      (AggregatedResult.variations self).
Proof.
  unfold AggregatedResult.failed_variations.
  apply List.filter_ext. intros v. f_equal.
  destruct (TestResult.comment v); reflexivity.
Qed.

(** C7. The comment is the lines of three blocks joined by line feeds:
    a header, which is the one line [Parametrized test with n
    variations:] ending in a line feed, with [n] the number of
    variations in decimal, when there is more than one variation and
    nothing otherwise; one line for each variation, in order, made of
    the icon of its status ([PASS], [FAIL], [SKIP] for TODO and [XFAIL]
    for CONDITIONALPASS in square brackets, a question mark for any
    other status), the full name, the status and the duration in the
    two-decimal format; and the failure details, which are there exactly
    when some variation has status FAIL and a non-empty detail, and
    which list, after the title, the full name and the first 1000
    characters of the detail of the first five such variations, in the
    order of the variations.  Nothing is cut from the comment when it is
    built: the dict of [to_dict] carries all of it, and it is at least as
    long as its lines together.  The request that imports the results
    sends the first 32000 characters of it. *)
Theorem build_comment_structure :
  forall self : AggregatedResult.t,
    let variations := AggregatedResult.variations self in
    let n := length variations in
    let failed :=
      List.filter
        (fun v => String.eqb (TestResult.status v) "FAIL"
                  && negb (String.eqb (TestResult.comment v) ""))
        variations in
    let header :=
      if (1 <? n)%nat
      then [ "Parametrized test with " +:+ decimal n
             +:+ " variations:" +:+ line_feed ]
      else [] in
    let listing :=
      map (fun var =>
             icon (TestResult.status var)
             +:+ " " +:+ TestResult.full_name var
             +:+ " - " +:+ TestResult.status var
             +:+ " (" +:+ format_2f (TestResult.duration var) +:+ "s)")
          variations in
    let details :=
      match failed with
      | [] => []
      | _ :: _ =>
          (line_feed +:+ "--- Failure Details ---")
          :: flat_map
               (fun var =>
                  [ line_feed +:+ TestResult.full_name var +:+ ":";
                    substring 0 1000 (TestResult.comment var) ])
               (firstn 5 failed)
      end in
    AggregatedResult.build_comment self
    = String.concat line_feed (header ++ listing ++ details)
    /\ (header <> [] <-> (1 < n)%nat)
    /\ length listing = n
    /\ (details <> []
        <-> exists v, In v variations
                      /\ TestResult.status v = Status.FAIL
                      /\ TestResult.comment v <> "")
    /\ (length (firstn 5 failed) <= 5)%nat
    /\ (forall v, In v failed
                  <-> In v variations
                      /\ TestResult.status v = Status.FAIL
                      /\ TestResult.comment v <> "")
    /\ ResultDict.comment (AggregatedResult.to_dict self)
       = AggregatedResult.build_comment self
    /\ (total_length (header ++ listing ++ details)
        <= String.length (AggregatedResult.build_comment self))%nat
    /\ (exists sent,
          (forall execution_key,
              XrayClient.import_execution_results execution_key
                [AggregatedResult.to_dict self]
              = emit (HttpPostImport "/rest/raven/1.0/import/execution"
                        execution_key
                        [ {| Xray.testKey := AggregatedResult.test_key self;
                             Xray.status := AggregatedResult.status self;
                             Xray.comment := sent |} ]))
          /\ sent = substring 0 (N.to_nat 32000)
                      (AggregatedResult.build_comment self)
          /\ (N.of_nat (String.length sent) <= 32000)%N
          /\ ((N.of_nat (String.length (AggregatedResult.build_comment self))
               <= 32000)%N ->
              sent = AggregatedResult.build_comment self)).
Proof.
  intros self variations n failed header listing details.
  assert (Ef : AggregatedResult.failed_variations self = failed).
  { apply failed_variations_filter. }
  assert (E : AggregatedResult.comment_lines self = header ++ listing ++ details).
  { unfold AggregatedResult.comment_lines, AggregatedResult.details_step,
      AggregatedResult.listing_step, AggregatedResult.header_step.
    rewrite Ef. fold variations n. rewrite fold_append_one.
    assert (Eh : (if (1 <? n)%nat
                  then [] ++ [ "Parametrized test with " +:+ PyStr.of_nat n
                               +:+ " variations:" +:+ PyStr.nl ]
                  else []) = header).
    { unfold header. rewrite of_nat_decimal.
      destruct (1 <? n)%nat; reflexivity. }
    rewrite Eh.
    assert (El : map AggregatedResult.variation_line variations = listing).
    { unfold listing. apply map_ext. intros var.
      unfold AggregatedResult.variation_line.
      rewrite status_icons_icon. reflexivity. }
    rewrite El. unfold details. destruct failed as [ | v0 failed'].
    - rewrite app_nil_r. reflexivity.
    - generalize (firstn 5 (v0 :: failed')). intros firsts.
      rewrite fold_append_two, <- !app_assoc. simpl.
      do 3 f_equal. apply flat_map_ext. intros v.
      rewrite slice_to_substring. reflexivity. }
  assert (B : AggregatedResult.build_comment self
              = String.concat line_feed (header ++ listing ++ details)).
  { unfold AggregatedResult.build_comment. rewrite E. apply join_concat. }
  assert (M : forall v, In v failed
                        <-> In v variations
                            /\ TestResult.status v = Status.FAIL
                            /\ TestResult.comment v <> "").
  { intros v. rewrite <- Ef. apply failed_variations_spec. }
  split; [exact B | ].
  split.
  { unfold header. destruct (Nat.ltb_spec 1 n); split; intros H0;
      try lia; try congruence. }
  split; [unfold listing; apply length_map | ].
  split.
  { unfold details. split.
    - intros Hd. destruct failed as [ | v failed'] eqn:Efl; [congruence | ].
      exists v. apply M. left. reflexivity.
    - intros (v & Hv). apply M in Hv.
      destruct failed; [destruct Hv | discriminate]. }
  split; [apply firstn_le_length | ].
  split; [exact M | ].
  split; [reflexivity | ].
  split.
  { rewrite B, <- join_concat, join_length. apply Nat.le_add_r. }
  exists (PyStr.slice_to 32000 (AggregatedResult.build_comment self)).
  split; [reflexivity | ]. split; [apply slice_to_substring | ].
  split.
  - rewrite slice_to_length. lia.
  - intros Hshort. apply slice_to_all. lia.
Qed.

End Comments.

(** Scenario 3 of the specification: two variations, one of them
    failed.  The comment has nine lines. *)
Lemma build_comment_structure_witness :
  @AggregatedResult.build_comment Sample.floats Sample.group
  = String.concat Spec.line_feed
      [ "Parametrized test with 2 variations:"; "";
        "[PASS] test_x[1] - PASS (0.00s)";
        "[FAIL] test_x[2] - FAIL (0.00s)"; "";
        "--- Failure Details ---"; "";
        "test_x[2]:";
        "boom" ]
  /\ exists sent,
       XrayClient.import_execution_results "EXEC-1"
         [@AggregatedResult.to_dict Sample.floats Sample.group]
       = emit (HttpPostImport "/rest/raven/1.0/import/execution" "EXEC-1"
                 [ {| Xray.testKey := "KEY-1"; Xray.status := Status.FAIL;
                      Xray.comment := sent |} ])
       /\ sent = @AggregatedResult.build_comment Sample.floats Sample.group.
Proof.
  destruct (@build_comment_structure Sample.floats Sample.group)
    as (Hb & _ & _ & _ & _ & _ & _ & _ & sent & Hsent & _ & _ & Hall).
  split.
  - rewrite Hb. vm_compute. reflexivity.
  - exists sent. split; [apply Hsent | ].
    apply Hall. vm_compute. discriminate.
Defined.

(** ** Mapping cache *)

Section Cache.
Context `{J : PyJson}.

Lemma load_outcomes :
  MappingCache.load CacheMissing = Ok (JObject [])
  /\ MappingCache.load CacheUnreadable = Ok (JObject [])
  /\ (forall content text,
         Utf8.decode content = Some text ->
         MappingCache.load (CacheBytes content)
         = match json_loads text with
           | Some v => Ok v
           | None => Ok (JObject [])
           end)
  /\ (forall content,
         Utf8.decode content = None ->
         MappingCache.load (CacheBytes content) = Raise UnicodeDecodeError).
Proof.
  split; [reflexivity | split; [reflexivity | split]].
  - intros content text Hd. unfold MappingCache.load, MappingCache.json_load.
    simpl. rewrite Hd. destruct (json_loads text); reflexivity.
  - intros content Hd. unfold MappingCache.load, MappingCache.json_load.
    simpl. rewrite Hd. reflexivity.
Qed.

(** C8 (the code at the failing input). A cache file that holds the
    single byte [0xFF] exists and is no JSON; [load] does not return the
    empty mapping on it: the text layer raises [UnicodeDecodeError],
    which is neither a [JSONDecodeError] nor an [IOError], and [load]
    lets it through.  A missing file, a file that cannot be opened and
    decodable text that is no JSON do give the empty mapping. *)
Theorem load_raises_on_undecodable_bytes :
  MappingCache.load (CacheBytes [xff]) = Raise UnicodeDecodeError
  /\ isinstance UnicodeDecodeError JSONDecodeError = false
  /\ isinstance UnicodeDecodeError IOError = false
  /\ MappingCache.load CacheMissing = Ok (JObject [])
  /\ MappingCache.load CacheUnreadable = Ok (JObject [])
  /\ (forall content text,
         Utf8.decode content = Some text -> json_loads text = None ->
         MappingCache.load (CacheBytes content) = Ok (JObject [])).
Proof.
  destruct load_outcomes as (Hm & Hu & Ht & Hb).
  split; [apply Hb; reflexivity | ].
  split; [reflexivity | split; [reflexivity | ]].
  split; [exact Hm | split; [exact Hu | ]].
  intros content text Hd Hj. rewrite (Ht _ _ Hd), Hj. reflexivity.
Qed.

End Cache.

Lemma load_raises_on_undecodable_bytes_witness :
  @MappingCache.load Sample.jsons (CacheBytes [x7b; x7d; x7d])
  = Ok (JObject []).
Proof.
  apply (proj2 (proj2 (proj2 (proj2 (proj2
           (@load_raises_on_undecodable_bytes Sample.jsons)))))
           [x7b; x7d; x7d] [123%N; 125%N; 125%N]);
    reflexivity.
Defined.

(** ** The dry run of the import tool *)

Section DryRun.
Import Spec.

Lemma truthy_opt_some s : s <> "" -> truthy_opt (Some s) = true.
Proof. destruct s; [congruence | reflexivity]. Qed.

(** C9 (the code at the failing input). With credentials and
    [--dry-run], [main] prints its headers and the fixed summary lines
    and returns 0; it reads no file, writes none and sends nothing.  It
    does not parse the report: the run is the same whatever is at the
    path of the report, and on a path where there is no file
    [JUnitParser.parse] raises [FileNotFoundError] while [main] still
    returns 0. *)
Theorem dry_run_prints_and_returns_0 :
  forall (args : ImportTool.Args) (environ : gmap string string)
         (now url token : string),
    ImportTool.dry_run args = true ->
    environ !! "JIRA_URL" = Some url -> url <> "" ->
    environ !! "JIRA_TOKEN" = Some token -> token <> "" ->
    let run := ImportTool.main args environ now in
    outcome run = Ok 0
    /\ trace run
       = [ Print (PyStr.nl +:+ PyStr.repeat "=" 60);
           Print "STEP 1: Load test mapping";
           Print (PyStr.repeat "=" 60);
           Print (PyStr.nl +:+ PyStr.repeat "=" 60);
           Print "STEP 2: Parse test results";
           Print (PyStr.repeat "=" 60);
           Print ("Parsing: " +:+ ImportTool.junit_xml args);
           Print (PyStr.nl +:+ "   Total: 1| Passed: 1 | Failed: 1 | Skipped: 1");
           Print (PyStr.nl +:+ PyStr.repeat "=" 60);
           Print "STEP 3: Match results to Xray tests";
           Print (PyStr.repeat "=" 60);
           Print "   Matched: 1 | Unmatched: 1";
           Print (PyStr.nl +:+ PyStr.repeat "=" 60);
           Print "DRY RUN - No execution created";
           Print (PyStr.repeat "=" 60) ]
    /\ Forall (fun e => prints e = true) (trace run)
    /\ Forall (fun e => remote e = false) (trace run)
    /\ ~ In (ReadFile (ImportTool.junit_xml args)) (trace run)
    /\ (forall (F : PyFloat) (fs : string -> junit_file),
          fs (ImportTool.junit_xml args) = NoSuchFile ->
          JUnitParser.parse fs (ImportTool.junit_xml args)
          = Raise FileNotFoundError).
Proof.
  intros args environ now url token Hdry Hurl Hu Htoken Ht run.
  assert (E : run = Prog
     [ Print (PyStr.nl +:+ PyStr.repeat "=" 60);
       Print "STEP 1: Load test mapping";
       Print (PyStr.repeat "=" 60);
       Print (PyStr.nl +:+ PyStr.repeat "=" 60);
       Print "STEP 2: Parse test results";
       Print (PyStr.repeat "=" 60);
       Print ("Parsing: " +:+ ImportTool.junit_xml args);
       Print (PyStr.nl +:+ "   Total: 1| Passed: 1 | Failed: 1 | Skipped: 1");
       Print (PyStr.nl +:+ PyStr.repeat "=" 60);
       Print "STEP 3: Match results to Xray tests";
       Print (PyStr.repeat "=" 60);
       Print "   Matched: 1 | Unmatched: 1";
       Print (PyStr.nl +:+ PyStr.repeat "=" 60);
       Print "DRY RUN - No execution created";
       Print (PyStr.repeat "=" 60) ] (Ok 0)).
  { unfold run, ImportTool.main.
    rewrite Hurl, Htoken, (truthy_opt_some _ Hu), (truthy_opt_some _ Ht), Hdry.
    reflexivity. }
  rewrite E. cbn [trace outcome].
  split; [reflexivity | split; [reflexivity | ]].
  split; [repeat constructor | ].
  split; [repeat constructor | ].
  split.
  - intros Hin. cbn [In] in Hin.
    repeat (destruct Hin as [Hin | Hin]; [discriminate Hin | ]). exact Hin.
  - intros F fs Hfs. unfold JUnitParser.parse. rewrite Hfs. reflexivity.
Qed.

End DryRun.

Lemma dry_run_prints_and_returns_0_witness :
  outcome (ImportTool.main Sample.dry_run_args Sample.credentials "now") = Ok 0
  /\ @JUnitParser.parse Sample.floats Sample.nothing_there "missing.xml"
     = Raise FileNotFoundError.
Proof.
  destruct (dry_run_prints_and_returns_0 Sample.dry_run_args Sample.credentials
              "now" "https://jira.example" "secret")
    as (Hout & _ & _ & _ & _ & Hparse);
    try reflexivity; try discriminate.
  split; [exact Hout | ].
  apply (Hparse Sample.floats Sample.nothing_there). reflexivity.
Defined.

(** ** Versioning and lifecycle in the upload tool *)

Section Upload.
Import Spec UploadTool.

Lemma Forall_trace_bind {A B} (P : event -> Prop) (m : prog A) (k : A -> prog B) :
  Forall P (trace m) ->
  (forall a, outcome m = Ok a -> Forall P (trace (k a))) ->
  Forall P (trace (m ≫= k)).
Proof.
  intros Hm Hk. unfold mbind, prog_bind. cbn [trace].
  apply Forall_app. split; [exact Hm | ].
  destruct (outcome m) as [a | e]; [apply Hk; reflexivity | constructor].
Qed.

Lemma Forall_trace_for_each {A} (P : event -> Prop) (xs : list A) body :
  (forall x, Forall P (trace (body x))) -> Forall P (trace (for_each xs body)).
Proof.
  intros Hb. induction xs as [ | x xs IH]; simpl; [constructor | ].
  apply Forall_trace_bind; [apply Hb | intros _ _; exact IH].
Qed.

Lemma Forall_trace_create (P : event -> Prop) w name :
  P (S3Call (S3.create_bucket name)) ->
  (forall line, P (Print line)) ->
  Forall P (trace (Bucket.create w name)).
Proof.
  intros Hc Hp. unfold Bucket.create, request. cbn [trace outcome].
  destruct (s3_error w (S3.create_bucket name)) as [code | ]; cbn.
  - destruct (String.eqb code "BucketAlreadyOwnedByYou"); cbn;
      repeat constructor; auto.
  - repeat constructor; auto.
Qed.

Lemma set_lifecycle_rule w name d noncurrent :
  d <> 0 ->
  noncurrent = None \/ noncurrent = Some d ->
  trace (Bucket.set_lifecycle w name "ScriptLifecycle" d noncurrent)
  = [S3Call (S3.put_bucket_lifecycle_configuration name
               [script_rule d noncurrent])].
Proof.
  intros Hd [-> | ->]; unfold Bucket.set_lifecycle, request; cbn.
  - reflexivity.
  - destruct (Z.eqb_spec d 0); [contradiction | reflexivity].
Qed.

Lemma versioning_ignored args w b :
  main (with_versioning b args) w = main args w.
Proof.
  unfold main, with_versioning. cbn [dir_path file_type bucket_name prefix
                                       versioning lifecycle].
  destruct (String.eqb (PyStr.lower (file_type args)) "movie"),
           (String.eqb (PyStr.lower (file_type args)) "stream");
    reflexivity.
Qed.


Ltac kind_is H :=
  unfold main; rewrite H;
  change (String.eqb "stream" "movie") with false;
  change (String.eqb "stream" "stream") with true;
  change (String.eqb "movie" "movie") with true;
  change (String.eqb "movie" "stream") with false;
  cbn [negb orb andb].

Ltac walk :=
  repeat first
    [ apply Forall_trace_bind; [ | intros ? ?]
    | apply Forall_trace_for_each; intros ?
    | apply Forall_trace_create; [ | intros ?]
    | match goal with
      | |- context [match connect_error ?w with _ => _ end] =>
          destruct (connect_error w)
      | |- Forall _ (trace (if ?c then _ else _)) => destruct c
      | |- Forall _ (trace (Bucket.set_lifecycle _ _ _ _ _)) =>
          rewrite set_lifecycle_rule by auto
      end
    | solve [cbn; repeat constructor] ].

Lemma outcome_listing {b : bool} w (a : bool * list File) :
  outcome (files ← lift (listing w); mret (b, files)) = Ok a -> fst a = b.
Proof.
  unfold mbind, prog_bind, lift, mret, prog_ret. cbn [outcome trace].
  destruct (listing w); intros [= <-]. reflexivity.
Qed.

Lemma stream_never_sets_versioning args w :
  PyStr.lower (file_type args) = "stream" ->
  Forall (fun e => sets_versioning e = false) (trace (main args w)).
Proof.
  intros Hk. kind_is Hk.
  destruct (dir_exists w); cbn [negb]; [ | constructor].
  destruct (String.length (bucket_name args) <? 3)%nat; [constructor | ].
  destruct (match lifecycle args with Some d => d <=? 0 | None => false end);
    [constructor | ].
  apply Forall_trace_bind; [walk | ].
  intros vf Hvf. apply outcome_listing in Hvf. rewrite Hvf. cbn [negb andb].
  walk.
Qed.

Lemma lifecycle_rules args w d :
  lifecycle args = Some d ->
  (PyStr.lower (file_type args) = "stream" ->
   Forall (lifecycle_is [script_rule d None]) (trace (main args w)))
  /\ (PyStr.lower (file_type args) = "movie" ->
      Forall (lifecycle_is [script_rule d (Some d)]) (trace (main args w))).
Proof.
  intros Hl. split; intros Hk; kind_is Hk; rewrite Hl;
    (destruct (dir_exists w); cbn [negb]; [ | constructor]);
    (destruct (String.length (bucket_name args) <? 3)%nat; [constructor | ]);
    (destruct (Z.leb_spec d 0) as [ | Hd]; [constructor | ]);
    (apply Forall_trace_bind; [walk | ]);
    intros vf Hvf; apply outcome_listing in Hvf; rewrite Hvf;
    cbn [negb andb truthy_int default];
    (destruct (Z.eqb_spec d 0) as [ | Hd0]; [lia | ]); cbn [negb andb];
    change (id d) with d; walk.
Qed.

Lemma in_trace_bind_l {A B} e (m : prog A) (k : A -> prog B) :
  In e (trace m) -> In e (trace (m ≫= k)).
Proof. intros H. unfold mbind, prog_bind. cbn [trace]. apply in_or_app. auto. Qed.

Lemma in_trace_bind_r {A B} e (m : prog A) (k : A -> prog B) a :
  outcome m = Ok a -> In e (trace (k a)) -> In e (trace (m ≫= k)).
Proof.
  intros Hm H. unfold mbind, prog_bind. cbn [trace]. rewrite Hm.
  apply in_or_app. auto.
Qed.

Lemma outcome_create w name :
  s3_error w (S3.create_bucket name) = None
  \/ s3_error w (S3.create_bucket name) = Some "BucketAlreadyOwnedByYou" ->
  exists existed, outcome (Bucket.create w name) = Ok existed.
Proof.
  unfold Bucket.create, request. cbn [outcome trace].
  intros [-> | ->]; cbn; eexists; reflexivity.
Qed.

Lemma in_after_bucket args w (b : bool) e :
  reaches_bucket args w ->
  PyStr.lower (file_type args) = (if b then "movie" else "stream") ->
  (forall files : list File,
      In e (trace
              ((if b then Bucket.set_versioning w (bucket_name args) "Enabled"
                else mret tt);;
               (if truthy_int (lifecycle args) && negb b then
                  Bucket.set_lifecycle w (bucket_name args) "ScriptLifecycle"
                    (default 0 (lifecycle args)) None
                else if truthy_int (lifecycle args) && b then
                  Bucket.set_lifecycle w (bucket_name args) "ScriptLifecycle"
                    (default 0 (lifecycle args)) (lifecycle args)
                else mret tt);;
               print "Uploading files:";;
               for_each files (fun file =>
                 print (name file);;
                 request w (S3.upload_file (path file) (bucket_name args)
                              (prefix args +:+ name file)));;
               (if String.eqb (if b then "movie" else "stream") "stream" then
                  create_and_upload_json_data_file w "meta" (bucket_name args)
                    (prefix args);;
                  create_and_upload_json_data_file w "index" (bucket_name args)
                    (prefix args)
                else mret tt);;
               emit (S3Call S3.close)))) ->
  In e (trace (main args w)).
Proof.
  intros (Hdir & Hlen & Hpos & (files & Hfiles) & Hconn & Hcreate) Hk He.
  specialize (He files).
  destruct (outcome_create _ _ Hcreate) as [existed Hex].
  assert (Hlen' : (String.length (bucket_name args) <? 3)%nat = false).
  { apply Nat.ltb_ge. exact Hlen. }
  assert (Hpos' : match lifecycle args with Some d => d <=? 0 | None => false end
                  = false).
  { destruct (lifecycle args) as [d | ]; [ | reflexivity].
    apply Z.leb_gt. apply Hpos. reflexivity. }
  unfold main. rewrite Hk, Hdir, Hlen', Hpos', Hfiles, Hconn.
  destruct b;
    change (String.eqb "stream" "movie") with false;
    change (String.eqb "stream" "stream") with true;
    change (String.eqb "movie" "movie") with true;
    change (String.eqb "movie" "stream") with false;
    change (String.eqb "movie" "stream") with false in He;
    change (String.eqb "stream" "stream") with true in He;
    cbn [negb orb andb];
    (eapply in_trace_bind_r; [reflexivity | ]);
    (eapply in_trace_bind_r; [reflexivity | ]);
    (eapply in_trace_bind_r; [reflexivity | ]);
    (eapply in_trace_bind_r; [reflexivity | ]);
    (eapply in_trace_bind_r; [exact Hex | ]);
    exact He.
Qed.

Lemma movie_sets_versioning args w :
  PyStr.lower (file_type args) = "movie" ->
  reaches_bucket args w ->
  In (S3Call (S3.put_bucket_versioning (bucket_name args) "Enabled"))
     (trace (main args w)).
Proof.
  intros Hk Hr. apply (in_after_bucket args w true _ Hr Hk). intros files.
  apply in_trace_bind_l. left. reflexivity.
Qed.

Lemma movie_sets_lifecycle args w d :
  PyStr.lower (file_type args) = "movie" ->
  lifecycle args = Some d ->
  reaches_bucket args w ->
  s3_error w (S3.put_bucket_versioning (bucket_name args) "Enabled") = None ->
  In (S3Call (S3.put_bucket_lifecycle_configuration (bucket_name args)
                [script_rule d (Some d)]))
     (trace (main args w)).
Proof.
  intros Hk Hl Hr Hv. pose proof Hr as (_ & _ & Hpos & _).
  specialize (Hpos d Hl).
  apply (in_after_bucket args w true _ Hr Hk). intros files.
  eapply in_trace_bind_r.
  { unfold Bucket.set_versioning, request. cbn. rewrite Hv. reflexivity. }
  apply in_trace_bind_l. rewrite Hl. cbn [truthy_int default negb andb].
  destruct (Z.eqb_spec d 0) as [ | Hd0]; [lia | ]. cbn [negb andb].
  change (id d) with d. rewrite set_lifecycle_rule by auto. left. reflexivity.
Qed.

Lemma stream_sets_lifecycle args w d :
  PyStr.lower (file_type args) = "stream" ->
  lifecycle args = Some d ->
  reaches_bucket args w ->
  In (S3Call (S3.put_bucket_lifecycle_configuration (bucket_name args)
                [script_rule d None]))
     (trace (main args w)).
Proof.
  intros Hk Hl Hr. pose proof Hr as (_ & _ & Hpos & _).
  specialize (Hpos d Hl).
  apply (in_after_bucket args w false _ Hr Hk). intros files.
  eapply in_trace_bind_r; [reflexivity | ].
  apply in_trace_bind_l. rewrite Hl. cbn [truthy_int default negb andb].
  destruct (Z.eqb_spec d 0) as [ | Hd0]; [lia | ]. cbn [negb andb].
  change (id d) with d. rewrite set_lifecycle_rule by auto. left. reflexivity.
Qed.

Lemma configures_main args w :
  Forall (configures args) (trace (main args w)).
Proof.
  unfold main.
  destruct (dir_exists w); cbn [negb]; [ | constructor].
  destruct (String.eqb_spec (PyStr.lower (file_type args)) "movie")
    as [Hm | Hm];
    [ | destruct (String.eqb_spec (PyStr.lower (file_type args)) "stream")
          as [Hs | Hs] ];
    cbn [negb orb]; try constructor;
    (destruct (String.length (bucket_name args) <? 3)%nat; [constructor | ]);
    (destruct (lifecycle args) as [d | ] eqn:Hl;
     [destruct (Z.leb_spec d 0) as [ | Hd]; [constructor | ] | ]);
    (apply Forall_trace_bind;
     [apply Forall_trace_bind; [constructor | intros ? ?; constructor] | ]);
    intros vf Hvf; apply outcome_listing in Hvf; rewrite Hvf;
    cbn [negb andb truthy_int default];
    try (destruct (Z.eqb_spec d 0) as [ | Hd0]; [lia | ]; cbn [negb andb];
         change (id d) with d);
    repeat first
      [ apply Forall_trace_bind; [ | intros ? ?]
      | apply Forall_trace_for_each; intros ?
      | apply Forall_trace_create; [exact I | intros ?; exact I]
      | match goal with
        | |- context [match connect_error ?w with _ => _ end] =>
            destruct (connect_error w)
        | |- Forall _ (trace (if ?c then _ else _)) => destruct c
        | |- Forall _ (trace (Bucket.set_lifecycle _ _ _ _ _)) =>
            rewrite set_lifecycle_rule by auto;
            constructor; [ | constructor];
            split; [reflexivity | ];
            exists d; split; [exact Hl | split; [exact Hd | ]];
            try rewrite Hm; try rewrite Hs; reflexivity
        | |- Forall _ (trace (Bucket.set_versioning _ _ _)) =>
            constructor; [ | constructor]; repeat split; exact Hm
        end
      | solve [cbn; repeat (constructor; [exact I | ]); constructor] ].
Qed.

(** C10. The flag [--versioning] has no effect: the run is the same
    with the flag set or not.  For the file type [movie], a run that gets
    as far as the bucket asks for versioning [Enabled]; with a lifecycle
    of [d] days every lifecycle request of the run carries one rule that
    expires current and noncurrent versions after [d] days, and the
    request is made once versioning is set.  For the file type [stream]
    no run asks for versioning; with a lifecycle of [d] days every
    lifecycle request carries one rule with an expiration of [d] days and
    no noncurrent-version expiration, and a run that gets as far as the
    bucket makes that request.  In any run, every versioning request is
    one of a movie run, for the bucket of the arguments, and asks for
    [Enabled]; and every lifecycle request is for that bucket and
    carries the one rule of the days that were given, with a
    noncurrent-version expiration of as many days for a movie run and
    none otherwise: without [--lifecycle] no run makes a lifecycle
    request. *)
Theorem versioning_follows_file_type :
  (forall args w b, main (with_versioning b args) w = main args w)
  /\ (forall args w,
         PyStr.lower (file_type args) = "movie" ->
         (reaches_bucket args w ->
          In (S3Call (S3.put_bucket_versioning (bucket_name args) "Enabled"))
             (trace (main args w)))
         /\ (forall d,
                lifecycle args = Some d ->
                Forall (lifecycle_is [script_rule d (Some d)])
                  (trace (main args w))
                /\ (reaches_bucket args w ->
                    s3_error w
                      (S3.put_bucket_versioning (bucket_name args) "Enabled")
                    = None ->
                    In (S3Call (S3.put_bucket_lifecycle_configuration
                                  (bucket_name args) [script_rule d (Some d)]))
                       (trace (main args w)))))
  /\ (forall args w,
         PyStr.lower (file_type args) = "stream" ->
         Forall (fun e => sets_versioning e = false) (trace (main args w))
         /\ (forall d,
                lifecycle args = Some d ->
                Forall (lifecycle_is [script_rule d None]) (trace (main args w))
                /\ (reaches_bucket args w ->
                    In (S3Call (S3.put_bucket_lifecycle_configuration
                                  (bucket_name args) [script_rule d None]))
                       (trace (main args w)))))
  /\ (forall args w name status,
         In (S3Call (S3.put_bucket_versioning name status))
            (trace (main args w)) ->
         PyStr.lower (file_type args) = "movie"
         /\ name = bucket_name args
         /\ status = "Enabled")
  /\ (forall args w name rules,
         In (S3Call (S3.put_bucket_lifecycle_configuration name rules))
            (trace (main args w)) ->
         name = bucket_name args
         /\ exists d,
              lifecycle args = Some d
              /\ 0 < d
              /\ rules
                 = [script_rule d
                      (if String.eqb (PyStr.lower (file_type args)) "movie"
                       then Some d else None)]).
Proof.
  split; [intros args w b; apply versioning_ignored | split; [ | split]].
  - intros args w Hk. split; [apply movie_sets_versioning, Hk | ].
    intros d Hl. split.
    + apply (proj2 (lifecycle_rules args w d Hl) Hk).
    + intros Hr Hv. apply movie_sets_lifecycle; assumption.
  - intros args w Hk. split; [apply stream_never_sets_versioning, Hk | ].
    intros d Hl. split.
    + apply (proj1 (lifecycle_rules args w d Hl) Hk).
    + intros Hr. apply stream_sets_lifecycle; assumption.
  - pose proof configures_main as H. split.
    + intros args w name status Hin.
      specialize (H args w). rewrite List.Forall_forall in H.
      apply (H _ Hin).
    + intros args w name rules Hin.
      specialize (H args w). rewrite List.Forall_forall in H.
      apply (H _ Hin).
Qed.

End Upload.

Lemma versioning_follows_file_type_witness :
  In (S3Call (S3.put_bucket_versioning "qa-videos" "Enabled"))
     (trace (UploadTool.main Sample.movie_args Sample.world))
  /\ Forall (fun e => Spec.sets_versioning e = false)
       (trace (UploadTool.main Sample.stream_args Sample.world))
  /\ In (S3Call (S3.put_bucket_lifecycle_configuration "qa-videos"
                   [Spec.script_rule 30 None]))
        (trace (UploadTool.main Sample.stream_args Sample.world)).
Proof.
  assert (R : forall args,
             UploadTool.bucket_name args = "qa-videos" ->
             UploadTool.lifecycle args = Some 30 ->
             Spec.reaches_bucket args Sample.world).
  { intros args Hb Hl. unfold Spec.reaches_bucket. rewrite Hb, Hl.
    split; [reflexivity | ]. split; [simpl; lia | ].
    split; [intros d [= <-]; lia | ].
    split; [eexists; reflexivity | ].
    split; [reflexivity | left; reflexivity]. }
  destruct versioning_follows_file_type as (_ & Hmovie & Hstream & _).
  destruct (Hmovie Sample.movie_args Sample.world eq_refl) as [Hv _].
  destruct (Hstream Sample.stream_args Sample.world eq_refl) as [Hn Hl].
  destruct (Hl 30 eq_refl) as [_ Hrule].
  split; [apply Hv, R; reflexivity | ].
  split; [exact Hn | apply Hrule, R; reflexivity].
Defined.

(** * Further properties *)

(** ** The bucket *)

Section BucketRequests.
Import UploadTool Measure.

(** X1. [Bucket.create] sends one [create_bucket] request.  It returns
    when the service accepts it, and also when the service answers
    [BucketAlreadyOwnedByYou], in which case it prints a message and
    notes that the bucket existed; every other error code of the service
    is raised again as it came. *)
Theorem bucket_create_swallows_only_already_owned :
  forall (w : World) (name : string),
    List.filter Spec.remote (trace (Bucket.create w name))
    = [S3Call (S3.create_bucket name)]
    /\ (s3_error w (S3.create_bucket name) = None ->
        Bucket.create w name = Prog [S3Call (S3.create_bucket name)] (Ok false))
    /\ (s3_error w (S3.create_bucket name) = Some "BucketAlreadyOwnedByYou" ->
        Bucket.create w name
        = Prog [ S3Call (S3.create_bucket name);
                 Print "Bucket already exists and is owned by you" ] (Ok true))
    /\ (forall code,
          s3_error w (S3.create_bucket name) = Some code ->
          code <> "BucketAlreadyOwnedByYou" ->
          Bucket.create w name
          = Prog [S3Call (S3.create_bucket name)] (Raise (ClientError code))).
Proof.
  intros w name. unfold Bucket.create, request. cbn [trace outcome].
  destruct (s3_error w (S3.create_bucket name)) as [code | ] eqn:E.
  - destruct (String.eqb_spec code "BucketAlreadyOwnedByYou") as [-> | Hne].
    + split; [reflexivity | ]. split; [discriminate | ].
      split; [reflexivity | ]. intros code [= <-] Hc. congruence.
    + split; [reflexivity | ]. split; [discriminate | ].
      split; [intros [= ->]; congruence | ].
      intros code' [= <-] _. reflexivity.
  - split; [reflexivity | ]. split; [reflexivity | ].
    split; [discriminate | ]. intros code [=].
Qed.

(** X2. [Bucket.set_versioning] accepts the two statuses [Enabled] and
    [Suspended], for which it sends one request with that status; for
    any other status the assertion fails and nothing is sent. *)
Theorem set_versioning_checks_status :
  forall (w : World) (name status : string),
    (status = "Enabled" \/ status = "Suspended" ->
     trace (Bucket.set_versioning w name status)
     = [S3Call (S3.put_bucket_versioning name status)]
     /\ outcome (Bucket.set_versioning w name status)
        = match s3_error w (S3.put_bucket_versioning name status) with
          | None => Ok tt
          | Some code => Raise (ClientError code)
          end)
    /\ (status <> "Enabled" -> status <> "Suspended" ->
        Bucket.set_versioning w name status = Prog [] (Raise AssertionError)).
Proof.
  intros w name status. unfold Bucket.set_versioning. split.
  - intros [-> | ->]; cbn; split; reflexivity.
  - intros H1 H2.
    rewrite (proj2 (String.eqb_neq _ _) H1), (proj2 (String.eqb_neq _ _) H2).
    reflexivity.
Qed.

(** X3. [Bucket.set_lifecycle] sends one request with one enabled rule
    named after the policy, with the given expiration whatever its sign;
    the rule has a noncurrent-version expiration exactly when the third
    argument is given and is not 0: a value of 0 is dropped like a
    missing one. *)
Theorem set_lifecycle_drops_zero_noncurrent :
  forall (w : World) (name policy_name : string) (days : Z)
         (noncurrent : option Z),
    exists rule,
      trace (Bucket.set_lifecycle w name policy_name days noncurrent)
      = [S3Call (S3.put_bucket_lifecycle_configuration name [rule])]
      /\ S3.ID rule = policy_name
      /\ S3.Prefix rule = ""
      /\ S3.Status rule = "Enabled"
      /\ S3.Expiration_Days rule = days
      /\ (forall d, noncurrent = Some d -> d <> 0 ->
                    S3.NoncurrentVersionExpiration_NoncurrentDays rule = Some d)
      /\ (noncurrent = None \/ noncurrent = Some 0 ->
          S3.NoncurrentVersionExpiration_NoncurrentDays rule = None).
Proof.
  intros w name policy_name days noncurrent.
  unfold Bucket.set_lifecycle, request. cbn [trace].
  destruct noncurrent as [d | ]; cbn [truthy_int].
  - destruct (Z.eqb_spec d 0) as [-> | Hd]; cbn [negb];
      eexists; (split; [reflexivity | ]); cbn;
      repeat (split; [reflexivity | ]); split.
    + intros d [= <-] H. congruence.
    + intros _. reflexivity.
    + intros d' [= <-] _. reflexivity.
    + intros [H | [= H]]; [discriminate | congruence].
  - eexists. split; [reflexivity | ]. cbn.
    repeat (split; [reflexivity | ]). split; [discriminate | reflexivity].
Qed.

End BucketRequests.

Lemma bucket_create_swallows_only_already_owned_witness :
  UploadTool.Bucket.create Sample.world "qa-videos"
  = Prog [S3Call (S3.create_bucket "qa-videos")] (Ok false).
Proof.
  apply (proj1 (proj2 (bucket_create_swallows_only_already_owned
                         Sample.world "qa-videos"))).
  reflexivity.
Defined.

Lemma set_versioning_checks_status_witness :
  UploadTool.Bucket.set_versioning Sample.world "qa-videos" "On"
  = Prog [] (Raise AssertionError).
Proof.
  apply (proj2 (set_versioning_checks_status Sample.world "qa-videos" "On"));
    discriminate.
Defined.

Lemma set_lifecycle_drops_zero_noncurrent_witness :
  exists rule,
    trace (UploadTool.Bucket.set_lifecycle Sample.world "qa-videos" "P" 7
             (Some 0))
    = [S3Call (S3.put_bucket_lifecycle_configuration "qa-videos" [rule])]
    /\ S3.NoncurrentVersionExpiration_NoncurrentDays rule = None.
Proof.
  destruct (set_lifecycle_drops_zero_noncurrent Sample.world "qa-videos" "P" 7
              (Some 0)) as (rule & Ht & _ & _ & _ & _ & _ & Hz).
  exists rule. split; [exact Ht | apply Hz; right; reflexivity].
Defined.

(** ** Runs of the upload tool *)

Ltac no_such_event :=
  repeat first
    [ match goal with
      | |- Forall _ (trace (_ ≫= _)) =>
          apply Forall_trace_bind; [ | intros ? ?]
      | |- Forall _ (trace (for_each _ _)) =>
          apply Forall_trace_for_each; intros ?
      | |- Forall _ (trace (UploadTool.Bucket.create _ _)) =>
          apply Forall_trace_create; [ | intros ?]
      | |- context [match UploadTool.connect_error ?w with _ => _ end] =>
          destruct (UploadTool.connect_error w)
      | |- Forall _ (trace (if ?c then _ else _)) => destruct c
      end
    | solve [cbn; repeat (constructor; [discriminate | ]); constructor]
    | discriminate ].

Section UploadRuns.
Import UploadTool Measure.

Lemma for_each_accepted {A} (w : World) (xs : list A)
  (line : A -> string) (call : A -> S3.call) :
  accepts_all w ->
  for_each xs (fun x => print (line x);; request w (call x))
  = Prog (flat_map (fun x => [Print (line x); S3Call (call x)]) xs) (Ok tt).
Proof.
  intros Hacc. induction xs as [ | x xs IH]; [reflexivity | ].
  cbn [for_each flat_map]. rewrite IH.
  unfold mbind, prog_bind, print, emit, request. cbn. rewrite Hacc. reflexivity.
Qed.

Lemma bind_pure {A B} (a : A) (k : A -> prog B) :
  Prog [] (Ok a) ≫= k = k a.
Proof. unfold mbind, prog_bind. cbn. destruct (k a). reflexivity. Qed.

(** X4. On arguments that [parse_args] lets through, [main] of the
    upload tool checks them before it does anything: with a directory
    that does not exist it raises [FileNotFoundError], and otherwise with
    a bucket name shorter than 3 characters or a lifecycle that is not
    positive it raises [ValueError]; when the directory cannot be listed,
    the exception of the listing ends the run.  In these cases nothing is
    printed, written or sent, and they are the only ones: every other
    run prints or sends something. *)
Theorem upload_rejects_bad_arguments :
  forall (args : Args) (w : World),
    parsed args ->
    (dir_exists w = false ->
     main args w = Prog [] (Raise FileNotFoundError))
    /\ (dir_exists w = true ->
        (String.length (bucket_name args) < 3)%nat
        \/ (exists d, lifecycle args = Some d /\ d <= 0) ->
        main args w = Prog [] (Raise ValueError))
    /\ (forall e,
          dir_exists w = true ->
          (3 <= String.length (bucket_name args))%nat ->
          (forall d, lifecycle args = Some d -> 0 < d) ->
          listing w = Raise e ->
          main args w = Prog [] (Raise e))
    /\ (trace (main args w) = []
        <-> dir_exists w = false
            \/ (String.length (bucket_name args) < 3)%nat
            \/ (exists d, lifecycle args = Some d /\ d <= 0)
            \/ (exists e, listing w = Raise e)).
Proof.
  intros args w Hparsed. unfold main.
  assert (Hkind : negb (String.eqb (PyStr.lower (file_type args)) "movie"
                        || String.eqb (PyStr.lower (file_type args)) "stream")
                  = false).
  { destruct Hparsed as [-> | ->]; reflexivity. }
  rewrite Hkind.
  destruct (dir_exists w); cbn [negb].
  2: { split; [reflexivity | ]. split; [discriminate | ].
       split; [discriminate | ]. split; [left; reflexivity | reflexivity]. }
  split; [discriminate | ].
  destruct (Nat.ltb_spec (String.length (bucket_name args)) 3) as [Hlen | Hlen].
  { split; [reflexivity | ]. split; [intros; lia | ].
    split; [right; left; exact Hlen | reflexivity]. }
  destruct (lifecycle args) as [d | ] eqn:Hl.
  - destruct (Z.leb_spec d 0) as [Hd | Hd].
    { split; [reflexivity | ].
      split; [intros e _ _ Hpos; specialize (Hpos d eq_refl); lia | ].
      split; [right; right; left; exists d; split; [reflexivity | exact Hd]
             | reflexivity]. }
    split.
    { intros _ [H | (d' & [= <-] & H)]; lia. }
    split.
    { intros e _ _ _ ->. destruct Hparsed as [-> | ->]; reflexivity. }
    destruct (listing w) as [files | e].
    + split.
      * destruct Hparsed as [-> | ->]; discriminate.
      * intros [H | [H | [(d' & [= <-] & H) | (e & H)]]];
          try discriminate; lia.
    + split; [ | destruct Hparsed as [-> | ->]; reflexivity].
      intros _. right. right. right. exists e. reflexivity.
  - split.
    { intros _ [H | (d' & H & _)]; [lia | discriminate]. }
    split.
    { intros e _ _ _ ->. destruct Hparsed as [-> | ->]; reflexivity. }
    destruct (listing w) as [files | e].
    + split.
      * destruct Hparsed as [-> | ->]; discriminate.
      * intros [H | [H | [(d' & H & _) | (e & H)]]];
          try discriminate; lia.
    + split; [ | destruct Hparsed as [-> | ->]; reflexivity].
      intros _. right. right. right. exists e. reflexivity.
Qed.

(** X5. A run of the upload tool in which every step succeeds: after
    the bucket is created, versioning is asked for movies only, the
    lifecycle rule is sent when days are given, each file of the
    directory is uploaded under the key made of the prefix and its name,
    in the order of the listing, a stream data set then gets its two
    sidecars [meta.json] and [index.json] under the prefix followed by an
    underscore and the file name, and the client is closed last. *)
Theorem upload_successful_run :
  forall (args : Args) (w : World) (files : list File),
    valid_arguments args w = true ->
    listing w = Ok files ->
    connect_error w = None ->
    accepts_all w ->
    let bucket := bucket_name args in
    let movie := String.eqb (PyStr.lower (file_type args)) "movie" in
    main args w
    = Prog
        ([ Print "S3 client connection"; Print "Bucket creation";
           S3Call (S3.create_bucket bucket) ]
         ++ (if movie
             then [S3Call (S3.put_bucket_versioning bucket "Enabled")]
             else [])
         ++ match lifecycle args with
            | Some d =>
                [S3Call (S3.put_bucket_lifecycle_configuration bucket
                           [Spec.script_rule d (if movie then Some d else None)])]
            | None => []
            end
         ++ [Print "Uploading files:"]
         ++ flat_map
              (fun f =>
                 [ Print (name f);
                   S3Call (S3.upload_file (path f) bucket
                             (prefix args +:+ name f)) ])
              files
         ++ (if movie then []
             else [ WriteFile "meta.json";
                    S3Call (S3.upload_file "meta.json" bucket
                              (prefix args +:+ "_meta.json"));
                    WriteFile "index.json";
                    S3Call (S3.upload_file "index.json" bucket
                              (prefix args +:+ "_index.json")) ])
         ++ [S3Call S3.close])
        (Ok tt).
Proof.
  intros args w files Hv Hfiles Hconn Hacc bucket movie.
  unfold valid_arguments in Hv.
  apply andb_prop in Hv. destruct Hv as [Hv Hlife].
  apply andb_prop in Hv. destruct Hv as [Hv Hlen].
  apply andb_prop in Hv. destruct Hv as [Hdir Hkind].
  assert (Hlen' : (String.length (bucket_name args) <? 3)%nat = false).
  { apply Nat.ltb_ge. apply Nat.leb_le. exact Hlen. }
  assert (Hvf : forall b : bool,
             (fs ← lift (Ok files); mret (b, fs)) = Prog [] (Ok (b, files))).
  { intros b. reflexivity. }
  unfold main. rewrite Hdir, Hkind, Hlen', Hfiles, Hconn.
  unfold movie, bucket. cbn [negb].
  destruct (String.eqb (PyStr.lower (file_type args)) "movie") eqn:Em;
    [ | cbn [orb] in Hkind; rewrite Hkind ];
    rewrite Hvf, bind_pure; cbn [fst snd];
    rewrite (for_each_accepted w files name
               (fun f => S3.upload_file (path f) (bucket_name args)
                           (prefix args +:+ name f)) Hacc).
  - destruct (String.eqb (PyStr.lower (file_type args)) "stream") eqn:Es.
    { apply String.eqb_eq in Em. rewrite Em in Es. discriminate Es. }
    destruct (lifecycle args) as [d | ].
    + destruct (Z.leb_spec d 0) as [Hd | Hd];
        [apply Z.ltb_lt in Hlife; lia | ].
      unfold mbind, prog_bind, mret, prog_ret, print, emit, lift,
        Bucket.create, Bucket.set_versioning, Bucket.set_lifecycle, request.
      cbn. destruct (Z.eqb_spec d 0) as [ | Hd0]; [lia | ].
      cbn. rewrite ?Hacc. cbn. rewrite ?Hacc. cbn. rewrite <- ?app_assoc.
      reflexivity.
    + unfold mbind, prog_bind, mret, prog_ret, print, emit, lift,
        Bucket.create, Bucket.set_versioning, Bucket.set_lifecycle, request.
      cbn. rewrite ?Hacc. cbn. rewrite ?Hacc. cbn. rewrite <- ?app_assoc.
      reflexivity.
  - destruct (lifecycle args) as [d | ].
    + destruct (Z.leb_spec d 0) as [Hd | Hd];
        [apply Z.ltb_lt in Hlife; lia | ].
      unfold mbind, prog_bind, mret, prog_ret, print, emit, lift,
        Bucket.create, Bucket.set_versioning, Bucket.set_lifecycle, request,
        create_and_upload_json_data_file.
      cbn. destruct (Z.eqb_spec d 0) as [ | Hd0]; [lia | ].
      cbn. rewrite ?Hacc. cbn. rewrite ?Hacc. cbn. rewrite <- ?app_assoc.
      reflexivity.
    + unfold mbind, prog_bind, mret, prog_ret, print, emit, lift,
        Bucket.create, Bucket.set_versioning, Bucket.set_lifecycle, request,
        create_and_upload_json_data_file.
      cbn. rewrite ?Hacc. cbn. rewrite ?Hacc. cbn. rewrite <- ?app_assoc.
      reflexivity.
Qed.

Lemma closes_bind {A B} (m : prog A) (k : A -> prog B) :
  Forall (fun e => e <> S3Call S3.close) (trace m) ->
  (forall a, outcome m = Ok a ->
             (In (S3Call S3.close) (trace (k a)) <-> exists b, outcome (k a) = Ok b)) ->
  (In (S3Call S3.close) (trace (m ≫= k)) <-> exists b, outcome (m ≫= k) = Ok b).
Proof.
  intros Hm Hk. unfold mbind, prog_bind. cbn [trace outcome].
  rewrite in_app_iff. rewrite List.Forall_forall in Hm.
  destruct (outcome m) as [a | e].
  - rewrite (Hk a eq_refl). split; [ | tauto].
    intros [Hin | H]; [ | exact H]. exfalso. apply (Hm _ Hin). reflexivity.
  - split.
    + intros [Hin | []]. exfalso. apply (Hm _ Hin). reflexivity.
    + intros [b Hb]. discriminate Hb.
Qed.

(** X6. The upload tool closes its client exactly in the runs that
    succeed: a run that raises, at whatever step, ends without the
    client having been closed, and a run that returns has closed it. *)
Theorem client_closed_iff_run_succeeds :
  forall (args : Args) (w : World),
    In (S3Call S3.close) (trace (main args w))
    <-> outcome (main args w) = Ok tt.
Proof.
  intros args w.
  assert (E : (exists b, outcome (main args w) = Ok b)
              <-> outcome (main args w) = Ok tt).
  { split; [intros [[] Hb]; exact Hb | intros Hb; eauto]. }
  rewrite <- E. clear E. unfold main.
  assert (R : forall e : exn,
             In (S3Call S3.close) (trace (@raise unit e))
             <-> exists b, outcome (@raise unit e) = Ok b).
  { intros e. cbn. split; [tauto | intros [b Hb]; discriminate Hb]. }
  destruct (dir_exists w); cbn [negb]; [ | apply R].
  destruct (negb _); [apply R | ].
  destruct (_ <? _)%nat; [apply R | ].
  destruct (match lifecycle args with Some d => d <=? 0 | None => false end);
    [apply R | ].
  repeat match goal with
         | |- In _ (trace (_ ≫= _)) <-> _ =>
             apply closes_bind; [no_such_event | intros ? _]
         end.
  cbn. split; [eauto | auto].
Qed.

End UploadRuns.

Lemma upload_rejects_bad_arguments_witness :
  UploadTool.main Example.short_bucket_args Sample.world
  = Prog [] (Raise ValueError).
Proof.
  refine (proj1 (proj2 (upload_rejects_bad_arguments Example.short_bucket_args
                          Sample.world _)) _ _).
  - left. reflexivity.
  - reflexivity.
  - left. simpl. lia.
Defined.

Lemma upload_successful_run_witness :
  List.filter Spec.remote
    (trace (UploadTool.main Sample.stream_args Sample.world))
  = [ S3Call (S3.create_bucket "qa-videos");
      S3Call (S3.put_bucket_lifecycle_configuration "qa-videos"
                [Spec.script_rule 30 None]);
      S3Call (S3.upload_file "videos/a.mp4" "qa-videos" "s/a.mp4");
      S3Call (S3.upload_file "meta.json" "qa-videos" "s/_meta.json");
      S3Call (S3.upload_file "index.json" "qa-videos" "s/_index.json");
      S3Call S3.close ].
Proof.
  rewrite (upload_successful_run Sample.stream_args Sample.world
             [ {| UploadTool.name := "a.mp4";
                  UploadTool.path := "videos/a.mp4" |} ]).
  - reflexivity.
  - reflexivity.
  - reflexivity.
  - reflexivity.
  - intros c. reflexivity.
Defined.

(** ** Runs of the import tool *)

Section ImportRuns.
Import ImportTool Measure.

Lemma truthy_opt_absent o : absent o -> truthy_opt o = false.
Proof. intros [-> | ->]; reflexivity. Qed.


(** X7. The import tool looks for its credentials first: when
    [JIRA_URL] or [JIRA_TOKEN] is unset or empty, [main] prints one error
    line and returns 1, whatever its arguments, [--dry-run] included. *)
Theorem import_requires_credentials :
  forall (args : Args) (environ : gmap string string) (now : string),
    absent (environ !! "JIRA_URL") \/ absent (environ !! "JIRA_TOKEN") ->
    main args environ now
    = Prog [Print "[ERROR] Set JIRA_URL and JIRA_TOKEN environment variables"]
        (Ok 1).
Proof.
  intros args environ now H. unfold main.
  assert (E : negb (truthy_opt (environ !! "JIRA_URL"))
              || negb (truthy_opt (environ !! "JIRA_TOKEN")) = true).
  { destruct H as [H | H]; rewrite (truthy_opt_absent _ H);
      [reflexivity | apply orb_true_r]. }
  rewrite E. reflexivity.
Qed.


End ImportRuns.

Lemma import_requires_credentials_witness :
  ImportTool.main Sample.dry_run_args ∅ "now"
  = Prog [Print "[ERROR] Set JIRA_URL and JIRA_TOKEN environment variables"]
      (Ok 1).
Proof.
  apply import_requires_credentials. left. left. reflexivity.
Defined.


(** ** Records and errors of the parser *)

Section ParserRecords.
Import Measure.
Context `{F : PyFloat}.

Lemma parse_testcase_time testcase :
  match float_of_str (ET.get testcase "time" "0") with
  | Some d =>
      exists r, JUnitParser._parse_testcase testcase = Ok r
                /\ TestResult.duration r = d
  | None => JUnitParser._parse_testcase testcase = Raise ValueError
  end.
Proof.
  destruct (float_of_str _) as [d | ] eqn:Hd.
  - rewrite (parse_testcase_unfold _ _ Hd). cbv zeta.
    repeat match goal with
           | |- context [match ?x with _ => _ end] => destruct x
           end; eexists; split; reflexivity.
  - unfold JUnitParser._parse_testcase, JUnitParser.py_float. rewrite Hd.
    reflexivity.
Qed.

(** X9. The status of a record that [_parse_testcase] returns is one of
    the four constants, and it tells which children the test case has:
    PASS exactly when there is no failure, error or skipped child, and
    then the detail is empty; FAIL exactly when there is a failure or an
    error child, whatever skipped child there is besides.  The duration
    is the [time] attribute read by [float].  And [_parse_testcase]
    raises nothing but [ValueError], on a [time] that is no number. *)
Theorem parse_testcase_status_tells_children :
  forall testcase,
    (forall r,
        JUnitParser._parse_testcase testcase = Ok r ->
        In (TestResult.status r) Status.all
        /\ (TestResult.status r = Status.PASS
            <-> ET.find testcase "failure" = None
                /\ ET.find testcase "error" = None
                /\ ET.find testcase "skipped" = None)
        /\ (TestResult.status r = Status.FAIL
            <-> ET.find testcase "failure" <> None
                \/ ET.find testcase "error" <> None)
        /\ (TestResult.status r = Status.PASS -> TestResult.comment r = "")
        /\ float_of_str (ET.get testcase "time" "0")
           = Some (TestResult.duration r))
    /\ (forall e,
          JUnitParser._parse_testcase testcase = Raise e ->
          e = ValueError /\ bad_time testcase).
Proof.
  intros testcase. pose proof (parse_testcase_time testcase) as Ht.
  destruct (float_of_str (ET.get testcase "time" "0")) as [d | ] eqn:Hd.
  - split; [ | destruct Ht as (r & -> & _); discriminate].
    intros r. rewrite (parse_testcase_unfold _ _ Hd). cbv zeta.
    unfold Status.all.
    destruct (ET.find testcase "failure"), (ET.find testcase "error"),
      (ET.find testcase "skipped");
      try match goal with
          | |- context [if ?c then _ else _] => destruct c
          end;
      intros [= <-];
      cbn [TestResult.status TestResult.comment TestResult.duration];
      unfold Status.PASS, Status.FAIL, Status.TODO, Status.CONDITIONALPASS;
      repeat split;
      solve [ simpl; tauto | congruence | intros; congruence
            | intros (? & ? & ?); congruence | intros [? | ?]; congruence
            | left; congruence | right; congruence ].
  - split; [rewrite Ht; discriminate | ].
    intros e. rewrite Ht. intros [= <-]. split; [reflexivity | exact Hd].
Qed.

Lemma parse_testcase_known testcase r :
  JUnitParser._parse_testcase testcase = Ok r ->
  In (TestResult.status r) Status.all.
Proof.
  pose proof (parse_testcase_time testcase) as Ht.
  destruct (float_of_str (ET.get testcase "time" "0")) as [d | ] eqn:Hd;
    [ | rewrite Ht; discriminate].
  rewrite (parse_testcase_unfold _ _ Hd). cbv zeta. unfold Status.all.
  repeat match goal with
         | |- context [match ?x with _ => _ end] => destruct x
         end; intros [= <-]; simpl; tauto.
Qed.

Lemma count_status_cons statuses t tests :
  count_status statuses (t :: tests)
  = (if existsb (String.eqb (TestResult.status t)) statuses then 1 else 0)
    + count_status statuses tests.
Proof.
  unfold count_status. simpl.
  destruct (existsb _ statuses); simpl length; lia.
Qed.

Lemma fold_count recs : forall r0,
  Forall (fun r => In (TestResult.status r) Status.all) recs ->
  let r := fold_left JUnitParser.count recs r0 in
  ParsedResults.tests r = ParsedResults.tests r0 ++ recs
  /\ ParsedResults.passed r
     = ParsedResults.passed r0
       + count_status [Status.PASS; Status.CONDITIONALPASS] recs
  /\ ParsedResults.failed r
     = ParsedResults.failed r0 + count_status [Status.FAIL] recs
  /\ ParsedResults.skipped r
     = ParsedResults.skipped r0 + count_status [Status.TODO] recs.
Proof.
  induction recs as [ | x recs IH]; intros r0 Hk; simpl.
  - unfold count_status. simpl. rewrite app_nil_r. repeat split; lia.
  - inversion Hk as [ | ? ? Hx Hrest]; subst.
    destruct (IH (JUnitParser.count r0 x) Hrest) as (Ht & Hp & Hf & Hs).
    rewrite Ht, Hp, Hf, Hs, !count_status_cons.
    unfold Status.all in Hx. simpl in Hx.
    unfold JUnitParser.count.
    destruct Hx as [Hx | [Hx | [Hx | [Hx | []]]]]; rewrite <- Hx; simpl;
      rewrite <- app_assoc; repeat split; lia.
Qed.

Lemma parse_loop_cases testcases : forall r0,
  match JUnitParser.parse_loop testcases r0 with
  | Ok r =>
      exists recs,
        Forall2 (fun tc rec => JUnitParser._parse_testcase tc = Ok rec)
          testcases recs
        /\ r = fold_left JUnitParser.count recs r0
  | Raise e => e = ValueError /\ Exists bad_time testcases
  end.
Proof.
  induction testcases as [ | tc rest IH]; intros r0; simpl.
  - exists []. split; [constructor | reflexivity].
  - pose proof (parse_testcase_time tc) as Ht.
    destruct (float_of_str (ET.get tc "time" "0")) as [d | ] eqn:Hd.
    + destruct Ht as (x & Hx & _). rewrite Hx. simpl.
      specialize (IH (JUnitParser.count r0 x)).
      destruct (JUnitParser.parse_loop rest (JUnitParser.count r0 x)) as [r | e].
      * destruct IH as (recs & H2 & ->). exists (x :: recs).
        split; [constructor; assumption | reflexivity].
      * destruct IH as [-> Hex]. split; [reflexivity | ].
        apply Exists_cons_tl. exact Hex.
    + rewrite Ht. simpl. split; [reflexivity | ].
      apply Exists_cons_hd. exact Hd.
Qed.

(** X10. The records that [parse] returns are those of the test cases
    beneath the root, one for each, in document order, and the three
    counters classify them by status: [passed] counts the records with
    status PASS or CONDITIONALPASS, [failed] those with FAIL, [skipped]
    those with TODO. *)
Theorem parse_records_in_document_order :
  forall fs path r,
    JUnitParser.parse fs path = Ok r ->
    exists root,
      fs path = Document root
      /\ Forall2 (fun tc rec => JUnitParser._parse_testcase tc = Ok rec)
           (ET.findall_descendants root "testcase") (ParsedResults.tests r)
      /\ ParsedResults.passed r
         = count_status [Status.PASS; Status.CONDITIONALPASS]
             (ParsedResults.tests r)
      /\ ParsedResults.failed r
         = count_status [Status.FAIL] (ParsedResults.tests r)
      /\ ParsedResults.skipped r
         = count_status [Status.TODO] (ParsedResults.tests r).
Proof.
  intros fs path r. unfold JUnitParser.parse.
  destruct (fs path) as [ | | e | root]; try discriminate.
  pose proof (parse_loop_cases (ET.findall_descendants root "testcase")
                ParsedResults.new) as H.
  destruct (JUnitParser.parse_loop _ _) as [r' | e]; [ | discriminate].
  intros [= <-]. destruct H as (recs & H2 & ->).
  assert (Hk : Forall (fun r => In (TestResult.status r) Status.all) recs).
  { clear -H2. induction H2 as [ | tc rec tcs recs Hrec _ IH]; constructor.
    - apply (parse_testcase_known tc rec Hrec).
    - exact IH. }
  destruct (fold_count recs ParsedResults.new Hk) as (Ht & Hp & Hf & Hs).
  simpl in Ht. exists root. split; [reflexivity | ].
  rewrite Ht, Hp, Hf, Hs. simpl. repeat split; try lia. exact H2.
Qed.

(** X11. [parse] raises [FileNotFoundError] when there is no file at
    the path, and what the XML library raises on a file that it cannot
    read into a tree goes through unchanged: its parse error on a file
    that is not well-formed, and any other exception.  Once there is a
    tree, [parse] raises exactly when some test case beneath the root
    has a [time] that is no number: it then raises [ValueError] and
    returns no result for the test cases that were read before it, and
    it returns when every [time] is a number. *)
Theorem parse_raises_when_unreadable_or_bad_time :
  forall fs path,
    (fs path = NoSuchFile ->
     JUnitParser.parse fs path = Raise FileNotFoundError)
    /\ (fs path = NotWellFormed ->
        JUnitParser.parse fs path = Raise ParseError)
    /\ (forall e, fs path = Unreadable e ->
                  JUnitParser.parse fs path = Raise e)
    /\ (forall root,
          fs path = Document root ->
          let testcases := ET.findall_descendants root "testcase" in
          (Exists bad_time testcases ->
           JUnitParser.parse fs path = Raise ValueError)
          /\ (forall e, JUnitParser.parse fs path = Raise e ->
                        e = ValueError /\ Exists bad_time testcases)
          /\ (Forall (fun testcase => ~ bad_time testcase) testcases ->
              exists r, JUnitParser.parse fs path = Ok r)).
Proof.
  intros fs path. unfold JUnitParser.parse.
  split; [intros ->; reflexivity | ].
  split; [intros ->; reflexivity | ].
  split; [intros e ->; reflexivity | ].
  intros root Hfs. rewrite Hfs. cbv zeta.
  set (testcases := ET.findall_descendants root "testcase").
  pose proof (parse_loop_cases testcases ParsedResults.new) as H.
  assert (Hraise : forall e,
             JUnitParser.parse_loop testcases ParsedResults.new = Raise e ->
             e = ValueError /\ Exists bad_time testcases).
  { intros e He. rewrite He in H. exact H. }
  split; [ | split; [exact Hraise | ]].
  - intros Hex.
    destruct (JUnitParser.parse_loop testcases ParsedResults.new)
      as [r | e'].
    + exfalso. destruct H as (recs & H2 & _). clear -H2 Hex.
      induction H2 as [ | tc rec tcs recs Hrec _ IH].
      * inversion Hex.
      * inversion Hex as [? ? Hbad | ? ? Hrest]; subst.
        -- pose proof (parse_testcase_time tc) as Ht.
           unfold bad_time in Hbad. rewrite Hbad in Ht. congruence.
        -- apply IH, Hrest.
    + destruct (Hraise e' eq_refl) as [-> _]. reflexivity.
  - intros Hall.
    destruct (JUnitParser.parse_loop testcases ParsedResults.new)
      as [r | e']; [eauto | ].
    exfalso. destruct (Hraise e' eq_refl) as [_ Hex].
    apply List.Exists_exists in Hex. destruct Hex as (tc & Hin & Hbad).
    rewrite List.Forall_forall in Hall. exact (Hall tc Hin Hbad).
Qed.

End ParserRecords.

Lemma parse_records_in_document_order_witness :
  exists r,
    @JUnitParser.parse Sample.floats (Sample.one_report Sample.suite)
      "report.xml" = Ok r
    /\ ParsedResults.failed r
       = Measure.count_status [Status.FAIL] (ParsedResults.tests r).
Proof.
  eexists. split; [vm_compute; reflexivity | ].
  destruct (@parse_records_in_document_order Sample.floats
              (Sample.one_report Sample.suite) "report.xml" _
              ltac:(vm_compute; reflexivity))
    as (root & _ & _ & _ & Hf & _).
  exact Hf.
Defined.

Lemma parse_raises_when_unreadable_or_bad_time_witness :
  @JUnitParser.parse Sample.floats
    (Sample.one_report Example.suite_with_bad_time) "report.xml"
  = Raise ValueError.
Proof.
  refine (proj1 (proj2 (proj2 (proj2
            (@parse_raises_when_unreadable_or_bad_time Sample.floats
               (Sample.one_report Example.suite_with_bad_time) "report.xml")))
            Example.suite_with_bad_time eq_refl) _).
  apply Exists_cons_tl. apply Exists_cons_hd. reflexivity.
Defined.

Lemma parse_testcase_status_tells_children_witness :
  exists r,
    @JUnitParser._parse_testcase Sample.floats Sample.failing = Ok r
    /\ TestResult.status r = Status.FAIL.
Proof.
  eexists. split; [vm_compute; reflexivity | ].
  destruct (@parse_testcase_status_tells_children Sample.floats Sample.failing)
    as [H _].
  destruct (H _ ltac:(vm_compute; reflexivity)) as (_ & _ & Hfail & _).
  apply Hfail. left. vm_compute. discriminate.
Defined.

(** ** The status of a group *)

Section GroupStatus.
Import AggregatedResult.

Lemma fold_next_status_max l : forall cur,
  known cur ->
  fold_left next_status l cur
  = of_rank (Nat.max (rank cur) (list_max (map rank l))).
Proof.
  induction l as [ | x l IH]; intros cur Hc; simpl.
  - rewrite Nat.max_0_r. pose proof (rank_of_rank (rank cur)) as H.
    unfold known, Status.all in Hc. simpl in Hc.
    destruct Hc as [<- | [<- | [<- | [<- | []]]]]; reflexivity.
  - rewrite IH by (apply next_status_known, Hc).
    rewrite (next_status_rank cur x Hc), rank_of_rank. f_equal.
    pose proof (rank_le_3 cur). pose proof (rank_le_3 x). lia.
Qed.

Lemma list_max_attained l : list_max l = 0%nat \/ In (list_max l) l.
Proof.
  induction l as [ | x l IH]; simpl; [left; reflexivity | ].
  destruct (Nat.max_spec x (list_max l)) as [[_ ->] | [_ ->]].
  - destruct IH as [IH | IH]; [left; exact IH | right; right; exact IH].
  - right. left. reflexivity.
Qed.

Lemma rank_cases s :
  (rank s = 3%nat <-> s = Status.FAIL)
  /\ (rank s = 2%nat <-> s = Status.TODO)
  /\ (rank s = 1%nat <-> s = Status.CONDITIONALPASS)
  /\ (rank s = 0%nat
      <-> s <> Status.FAIL /\ s <> Status.TODO /\ s <> Status.CONDITIONALPASS).
Proof.
  unfold rank.
  destruct (String.eqb_spec s Status.FAIL) as [-> | H1];
    [repeat split; try discriminate; try reflexivity; intros (? & ? & ?); congruence | ].
  destruct (String.eqb_spec s Status.TODO) as [-> | H2];
    [repeat split; try discriminate; try reflexivity; intros (? & ? & ?); congruence | ].
  destruct (String.eqb_spec s Status.CONDITIONALPASS) as [-> | H3];
    [repeat split; try discriminate; try reflexivity; intros (? & ? & ?); congruence | ].
  repeat split; try discriminate; try congruence.
Qed.

Lemma group_rank key rs :
  exists m,
    status (add_all (new key) rs) = of_rank m
    /\ (m <= 3)%nat
    /\ (forall v, In v rs -> (rank (TestResult.status v) <= m)%nat)
    /\ (m = 0%nat \/ exists v, In v rs /\ rank (TestResult.status v) = m).
Proof.
  exists (list_max (map rank (map TestResult.status rs))).
  split.
  { rewrite status_add_all, fold_next_status_max.
    - reflexivity.
    - unfold known, Status.all. simpl. auto. }
  assert (Hle : forall v, In v rs ->
                  (rank (TestResult.status v)
                   <= list_max (map rank (map TestResult.status rs)))%nat).
  { intros v Hv.
    pose proof (proj1 (list_max_le (map rank (map TestResult.status rs)) _)
                  (Nat.le_refl _)) as Hall.
    rewrite List.Forall_forall in Hall. apply Hall.
    apply in_map, in_map, Hv. }
  split; [ | split; [exact Hle | ]].
  - apply list_max_le. apply List.Forall_forall. intros k Hk.
    apply in_map_iff in Hk. destruct Hk as (s & <- & _). apply rank_le_3.
  - destruct (list_max_attained (map rank (map TestResult.status rs)))
      as [H0 | Hin]; [left; exact H0 | right].
    apply in_map_iff in Hin. destruct Hin as (s & Hs & Hin).
    apply in_map_iff in Hin. destruct Hin as (v & <- & Hv).
    exists v. split; [exact Hv | exact Hs].
Qed.

(** X12. The status of a group is the status of highest priority among
    its variations: it is FAIL exactly when some variation is FAIL; TODO
    exactly when none is FAIL and some is TODO; CONDITIONALPASS exactly
    when none is FAIL or TODO and some is CONDITIONALPASS; and PASS
    exactly when no variation has one of these three statuses, as for a
    group without variations.  The variations are kept in the order in
    which they were added. *)
Theorem group_status_is_highest_priority :
  forall (key : string) (rs : list TestResult.t),
    let agg := add_all (new key) rs in
    let some st := exists v, In v rs /\ TestResult.status v = st in
    (status agg = Status.FAIL <-> some Status.FAIL)
    /\ (status agg = Status.TODO
        <-> some Status.TODO /\ ~ some Status.FAIL)
    /\ (status agg = Status.CONDITIONALPASS
        <-> some Status.CONDITIONALPASS
            /\ ~ some Status.FAIL /\ ~ some Status.TODO)
    /\ (status agg = Status.PASS
        <-> ~ some Status.FAIL /\ ~ some Status.TODO
            /\ ~ some Status.CONDITIONALPASS)
    /\ variations agg = rs
    /\ test_key agg = key.
Proof.
  intros key rs agg some.
  destruct (group_rank key rs) as (m & Hst & Hm & Hle & Hin).
  fold agg in Hst.
  assert (Hsome : forall st k,
             (forall s, rank s = k <-> s = st) ->
             (some st <-> exists v, In v rs /\ rank (TestResult.status v) = k)).
  { intros st k Hk. unfold some.
    split; intros (v & Hv & Hs); exists v; (split; [exact Hv | ]);
      apply Hk; exact Hs. }
  assert (H3 : some Status.FAIL
               <-> exists v, In v rs /\ rank (TestResult.status v) = 3%nat).
  { apply Hsome. intros s. apply rank_cases. }
  assert (H2 : some Status.TODO
               <-> exists v, In v rs /\ rank (TestResult.status v) = 2%nat).
  { apply Hsome. intros s. apply rank_cases. }
  assert (H1 : some Status.CONDITIONALPASS
               <-> exists v, In v rs /\ rank (TestResult.status v) = 1%nat).
  { apply Hsome. intros s. apply rank_cases. }
  rewrite H3, H2, H1, Hst. clear Hsome H3 H2 H1 Hst.
  assert (Hex : forall k,
             (exists v, In v rs /\ rank (TestResult.status v) = k) ->
             (k <= m)%nat).
  { intros k (v & Hv & <-). apply Hle, Hv. }
  assert (Hvar : forall (l : list TestResult.t) (a : t),
             variations (add_all a l) = variations a ++ l
             /\ test_key (add_all a l) = test_key a).
  { unfold add_all. induction l as [ | x l IH]; intros a; simpl.
    - rewrite app_nil_r. split; reflexivity.
    - destruct (IH (add_variation a x)) as [-> ->]. simpl.
      rewrite <- app_assoc. split; reflexivity. }
  destruct (Hvar rs (new key)) as [Hv Hk]. simpl in Hv, Hk.
  split; [ | split; [ | split; [ | split; [ | split; [exact Hv | exact Hk]]]]];
    (destruct m as [ | [ | [ | [ | m]]]]; [ | | | | lia]);
    cbn [of_rank];
    unfold Status.PASS, Status.FAIL, Status.TODO, Status.CONDITIONALPASS;
    (split;
     [ intros Heq; try discriminate Heq;
       repeat split;
       try (intros Hx; apply Hex in Hx; lia);
       try (destruct Hin as [Hin | Hin]; [discriminate Hin | exact Hin])
     | intros Hx; try reflexivity;
       try (apply Hex in Hx; lia);
       try (destruct Hx as (Hx & _); apply Hex in Hx; lia);
       try (destruct Hin as [Hin | Hin]; [discriminate Hin | tauto]) ]).
Qed.

End GroupStatus.

(** ** The groups of the aggregator *)

Section Groups.
Import Measure.

Lemma first_seen_snoc l x :
  first_seen (l ++ [x])
  = if existsb (String.eqb x) (first_seen l) then first_seen l
    else first_seen l ++ [x].
Proof. unfold first_seen. rewrite fold_left_app. reflexivity. Qed.

Lemma existsb_eqb_In x l : existsb (String.eqb x) l = true <-> In x l.
Proof.
  rewrite existsb_exists. split.
  - intros (y & Hy & He). apply String.eqb_eq in He. subst. exact Hy.
  - intros H. exists x. split; [exact H | apply String.eqb_refl].
Qed.

Lemma first_seen_spec l :
  List.NoDup (first_seen l) /\ (forall x, In x (first_seen l) <-> In x l).
Proof.
  induction l as [ | x l [IHn IHi]] using rev_ind.
  - split; [constructor | reflexivity].
  - rewrite first_seen_snoc.
    destruct (existsb (String.eqb x) (first_seen l)) eqn:E.
    + apply existsb_eqb_In in E. split; [exact IHn | ].
      intros y. rewrite IHi, in_app_iff. simpl. apply IHi in E.
      split; [tauto | ]. intros [H | [<- | []]]; assumption.
    + assert (Hx : ~ In x (first_seen l)).
      { intros H. apply existsb_eqb_In in H. congruence. }
      split.
      * apply NoDup_ListNoDup, NoDup_app.
        split; [apply NoDup_ListNoDup, IHn | ].
        split; [ | apply NoDup_singleton].
        intros y Hy Hy'. apply list_elem_of_singleton in Hy'. subst.
        apply Hx, list_elem_of_In, Hy.
      * intros y. rewrite !in_app_iff, IHi. reflexivity.
Qed.

Lemma mapped_names_snoc mapping seen t :
  mapped_names mapping (seen ++ [t])
  = mapped_names mapping seen
    ++ (if bool_decide (mapping !! TestResult.name t = None) then []
        else [TestResult.name t]).
Proof.
  unfold mapped_names. rewrite List.filter_app, map_app. simpl.
  destruct (bool_decide _); reflexivity.
Qed.

Lemma In_mapped_names mapping seen n :
  In n (mapped_names mapping seen)
  <-> mapping !! n <> None /\ exists t, In t seen /\ TestResult.name t = n.
Proof.
  unfold mapped_names. rewrite in_map_iff. split.
  - intros (t & <- & Ht). apply filter_In in Ht. destruct Ht as [Ht Hm].
    apply negb_true_iff, bool_decide_eq_false in Hm. split; [exact Hm | eauto].
  - intros (Hm & t & Ht & <-). exists t. split; [reflexivity | ].
    apply filter_In. split; [exact Ht | ].
    apply negb_true_iff, bool_decide_eq_false. exact Hm.
Qed.

Lemma alter_groups (f : AggregatedResult.t -> AggregatedResult.t)
  (g : string -> AggregatedResult.t) k l :
  List.NoDup l ->
  PyDict.alter f k (map (fun n => (n, g n)) l)
  = map (fun n => (n, if String.eqb n k then f (g n) else g n)) l.
Proof.
  induction l as [ | x l IH]; intros Hnd; simpl; [reflexivity | ].
  inversion Hnd as [ | ? ? Hx Hl]; subst.
  destruct (String.eqb_spec x k) as [-> | Hne].
  - f_equal. apply map_ext_in. intros n Hn.
    destruct (String.eqb_spec n k) as [-> | _]; [contradiction | reflexivity].
  - f_equal. apply IH, Hl.
Qed.

Lemma contains_groups (g : string -> AggregatedResult.t) k l :
  PyDict.contains k (map (fun n => (n, g n)) l) = existsb (String.eqb k) l.
Proof.
  unfold PyDict.contains. induction l as [ | n l IH]; simpl; [reflexivity | ].
  rewrite IH, String.eqb_sym. reflexivity.
Qed.

Lemma add_all_snoc a rs r :
  AggregatedResult.add_all a (rs ++ [r])
  = AggregatedResult.add_variation (AggregatedResult.add_all a rs) r.
Proof. unfold AggregatedResult.add_all. rewrite fold_left_app. reflexivity. Qed.

Lemma run_groups mapping results :
  ResultAggregator.aggregates (ResultAggregator.run mapping results)
  = map (fun n => (n, group_of mapping (ParsedResults.tests results) n))
      (first_seen (mapped_names mapping (ParsedResults.tests results))).
Proof.
  unfold ResultAggregator.run.
  induction (ParsedResults.tests results) as [ | t seen IH] using rev_ind;
    [reflexivity | ].
  rewrite fold_left_app. simpl. unfold ResultAggregator.step at 1.
  rewrite mapped_names_snoc.
  destruct (first_seen_spec (mapped_names mapping seen)) as [Hnd Hin].
  destruct (mapping !! TestResult.name t) as [key | ] eqn:Hm.
  - rewrite bool_decide_eq_false_2 by congruence.
    rewrite first_seen_snoc. simpl. rewrite IH.
    assert (Hc : PyDict.contains (TestResult.name t)
                   (map (fun n => (n, group_of mapping seen n))
                      (first_seen (mapped_names mapping seen)))
                 = existsb (String.eqb (TestResult.name t))
                     (first_seen (mapped_names mapping seen))).
    { apply contains_groups. }
    rewrite Hc.
    destruct (existsb (String.eqb (TestResult.name t))
                (first_seen (mapped_names mapping seen))) eqn:E.
    + rewrite alter_groups by exact Hnd. apply map_ext_in. intros n Hn.
      f_equal. unfold group_of. rewrite named_snoc.
      destruct (String.eqb_spec n (TestResult.name t)) as [-> | Hne].
      * rewrite String.eqb_refl, add_all_snoc. reflexivity.
      * destruct (String.eqb_spec (TestResult.name t) n); [congruence | ].
        rewrite app_nil_r. reflexivity.
    + assert (Hfresh : ~ In (TestResult.name t)
                         (first_seen (mapped_names mapping seen))).
      { intros H. apply existsb_eqb_In in H. congruence. }
      rewrite alter_fresh.
      2:{ unfold PyDict.keys. rewrite map_map. simpl. rewrite map_id.
          exact Hfresh. }
      rewrite map_app. simpl. f_equal.
      * apply map_ext_in. intros n Hn. f_equal. unfold group_of.
        rewrite named_snoc.
        destruct (String.eqb_spec (TestResult.name t) n) as [<- | _];
          [contradiction | ].
        rewrite app_nil_r. reflexivity.
      * unfold group_of. rewrite Hm. simpl.
        rewrite named_snoc, String.eqb_refl, named_none; [reflexivity | ].
        intros x Hx Hn. apply Hfresh. apply Hin. apply In_mapped_names.
        split; [congruence | eauto].
  - rewrite bool_decide_eq_true_2 by reflexivity. rewrite app_nil_r.
    simpl. rewrite IH. apply map_ext_in. intros n Hn. f_equal.
    unfold group_of. rewrite named_snoc.
    destruct (String.eqb_spec (TestResult.name t) n) as [<- | _];
      [ | rewrite app_nil_r; reflexivity].
    apply Hin, In_mapped_names in Hn. destruct Hn as [Hn _]. congruence.
Qed.

(** X13. [aggregate] returns one group for each clean name that has a
    key and occurs in the records, in the order in which these names
    first occur; the group of a name is a fresh group for its key to
    which the records of that name were added in encounter order, and
    the matched list holds the dicts of these groups in that order.  The
    list of unmatched names has no duplicates and holds exactly the
    names without a key that occur in the records. *)
Theorem aggregate_groups_in_first_encounter_order :
  forall (F : PyFloat) (mapping : gmap string string)
         (results : ParsedResults.t),
    let tests := ParsedResults.tests results in
    let names := first_seen (mapped_names mapping tests) in
    ResultAggregator.aggregates (ResultAggregator.run mapping results)
    = map (fun n => (n, group_of mapping tests n)) names
    /\ fst (ResultAggregator.aggregate mapping results)
       = map (fun n => AggregatedResult.to_dict (group_of mapping tests n))
           names
    /\ List.NoDup names
    /\ (forall n, In n names
                  <-> mapping !! n <> None
                      /\ exists t, In t tests /\ TestResult.name t = n)
    /\ List.NoDup (snd (ResultAggregator.aggregate mapping results))
    /\ (forall n, In n (snd (ResultAggregator.aggregate mapping results))
                  <-> mapping !! n = None
                      /\ exists t, In t tests /\ TestResult.name t = n).
Proof.
  intros F mapping results tests names.
  pose proof (run_groups mapping results) as Hg. fold tests names in Hg.
  destruct (first_seen_spec (mapped_names mapping tests)) as [Hnd Hin].
  fold names in Hnd, Hin.
  destruct (run_invariant mapping results) as (_ & _ & _ & Hun & _).
  split; [exact Hg | ]. split.
  { unfold ResultAggregator.aggregate. simpl. rewrite Hg.
    unfold PyDict.values. rewrite !map_map. reflexivity. }
  split; [exact Hnd | ]. split.
  { intros n. rewrite Hin. apply In_mapped_names. }
  unfold ResultAggregator.aggregate. simpl. split.
  - apply NoDup_ListNoDup, NoDup_elements.
  - intros n. rewrite <- list_elem_of_In, elem_of_elements. apply Hun.
Qed.

End Groups.

(** ** Batches of the bulk search *)

Section Batches.
Import XrayQueries Measure.

Lemma slice_shift {A} (l : list A) s k :
  slice l (S k * s) s = slice (skipn s l) (k * s) s.
Proof.
  unfold slice. rewrite skipn_skipn. f_equal. f_equal. lia.
Qed.

Lemma chunks_concat {A} s c : forall l : list A,
  (length l <= c * s)%nat ->
  concat (map (fun k => slice l (k * s) s) (seq 0 c)) = l.
Proof.
  induction c as [ | c IH]; intros l Hl.
  - destruct l; [reflexivity | simpl in Hl; lia].
  - rewrite <- cons_seq, <- seq_shift. cbn [map concat]. rewrite List.map_map.
    rewrite (map_ext _ (fun k => slice (skipn s l) (k * s) s))
      by (intros k; apply slice_shift).
    rewrite IH by (rewrite length_skipn; lia).
    unfold slice. simpl. apply firstn_skipn.
Qed.

Lemma firstn_seq_0 k : forall a n, firstn k (seq a n) = seq a (Nat.min k n).
Proof.
  induction k as [ | k IH]; intros a [ | n]; simpl; try reflexivity.
  rewrite IH. reflexivity.
Qed.

Lemma slice_length {A} (l : list A) i n :
  length (slice l i n) = Nat.min n (length l - i).
Proof. unfold slice. rewrite length_firstn, length_skipn. reflexivity. Qed.

Lemma ceil_bounds n s :
  (0 < s)%nat ->
  (n <= (n + s - 1) / s * s)%nat
  /\ (0 < n -> ((n + s - 1) / s - 1) * s < n)%nat
  /\ (0 < (n + s - 1) / s -> 0 < n)%nat.
Proof.
  intros Hs.
  pose proof (Nat.div_mod_eq (n + s - 1) s) as Hd.
  pose proof (Nat.mod_upper_bound (n + s - 1) s ltac:(lia)) as Hm.
  repeat split; try intros Hn; nia.
Qed.

Lemma range0_batches (keys : list string) (bs : Z) :
  0 < bs ->
  exists starts,
    range0 (length keys) bs = Ok starts
    /\ let batches := map (fun i => slice keys i (Z.to_nat bs)) starts in
       concat batches = keys
       /\ Forall (fun b => (1 <= length b <= Z.to_nat bs)%nat) batches
       /\ Forall (fun b => length b = Z.to_nat bs)
            (firstn (length batches - 1) batches)
       /\ length batches
          = ((length keys + Z.to_nat bs - 1) / Z.to_nat bs)%nat.
Proof.
  intros Hbs. unfold range0.
  destruct (Z.eqb_spec bs 0) as [ | _]; [lia | ].
  destruct (Z.ltb_spec bs 0) as [ | _]; [lia | ].
  set (s := Z.to_nat bs). set (n := length keys).
  set (c := ((n + s - 1) / s)%nat).
  assert (Hs : (0 < s)%nat) by (unfold s; lia).
  destruct (ceil_bounds n s Hs) as (Hup & Hlow & Hpos). fold c in Hup, Hlow, Hpos.
  eexists. split; [reflexivity | ]. cbv zeta. rewrite List.map_map.
  split; [apply chunks_concat; exact Hup | ].
  split; [ | split].
  - apply List.Forall_forall. intros b Hb. apply in_map_iff in Hb.
    destruct Hb as (k & <- & Hk). apply in_seq in Hk.
    rewrite slice_length. fold n.
    assert (k * s <= (c - 1) * s)%nat by (apply Nat.mul_le_mono_r; lia).
    assert (0 < n)%nat by (apply Hpos; lia).
    specialize (Hlow ltac:(assumption)). lia.
  - rewrite length_map, length_seq, firstn_map, firstn_seq_0.
    apply List.Forall_forall. intros b Hb. apply in_map_iff in Hb.
    destruct Hb as (k & <- & Hk). apply in_seq in Hk.
    rewrite slice_length. fold n.
    assert (S k * s <= (c - 1) * s)%nat by (apply Nat.mul_le_mono_r; lia).
    assert (0 < n)%nat by (apply Hpos; lia).
    specialize (Hlow ltac:(assumption)). lia.
  - rewrite length_map, length_seq. reflexivity.
Qed.

Lemma searches_get q l : searches (Get q :: l) = q :: searches l.
Proof. reflexivity. Qed.

Lemma bulk_loop_run server keys bs : forall starts acc,
  let batches := map (fun i => slice keys i (Z.to_nat bs)) starts in
  (exists k, searches (log (bulk_loop server keys bs starts acc))
             = map (fun b => bulk_search b bs) (firstn k batches))
  /\ Forall (fun e => exists q, e = Get q)
       (log (bulk_loop server keys bs starts acc))
  /\ (Forall (fun b => answers server (bulk_search b bs)) batches ->
      searches (log (bulk_loop server keys bs starts acc))
      = map (fun b => bulk_search b bs) batches
      /\ answer (bulk_loop server keys bs starts acc)
         = Ok (acc ++ concat (map (fun b => served server (bulk_search b bs))
                                batches)))
  /\ (forall e, answer (bulk_loop server keys bs starts acc) = Raise e ->
                exists b, In b batches /\ server (bulk_search b bs) = Raise e).
Proof.
  induction starts as [ | i rest IH]; intros acc; cbv zeta;
    cbn [bulk_loop map].
  - split; [exists 0%nat; reflexivity | ]. split; [constructor | ].
    split; [intros _; cbn; rewrite app_nil_r; split; reflexivity | ].
    intros e [=].
  - set (b := slice keys i (Z.to_nat bs)).
    set (rest_batches := map (fun i => slice keys i (Z.to_nat bs)) rest).
    unfold mbind, session_bind, _get. cbn [log answer].
    destruct (server (bulk_search b bs)) as [data | e0] eqn:Hs;
      cbn [app log answer].
    + destruct (IH (acc ++ default [] data))
        as ((k & Hk) & Hget & Hall & Herr).
      fold rest_batches in Hk, Hall, Herr.
      split; [ | split; [ | split]].
      * exists (S k). rewrite searches_get, Hk. reflexivity.
      * constructor; [eauto | exact Hget].
      * intros Hans. inversion Hans as [ | ? ? _ Hrest]; subst.
        destruct (Hall Hrest) as [Hl Ha]. rewrite searches_get, Hl, Ha.
        split; [reflexivity | ]. cbn [map concat]. unfold served at 2.
        rewrite Hs, <- app_assoc. reflexivity.
      * intros e He. destruct (Herr e He) as (b' & Hb' & Hs').
        exists b'. split; [right; exact Hb' | exact Hs'].
    + split; [ | split; [ | split]].
      * exists 1%nat. reflexivity.
      * repeat constructor. eauto.
      * intros Hans. inversion Hans as [ | ? ? [d Hd] _]; subst.
        congruence.
      * intros e [= <-]. exists b. split; [left; reflexivity | exact Hs].
Qed.

(** The loop stops at the first search that is not answered. *)
Lemma bulk_loop_stops server keys bs : forall before starts acc b after e,
  map (fun i => slice keys i (Z.to_nat bs)) starts = before ++ b :: after ->
  Forall (fun b => answers server (bulk_search b bs)) before ->
  server (bulk_search b bs) = Raise e ->
  bulk_loop server keys bs starts acc
  = Session (map (fun b => Get (bulk_search b bs)) (before ++ [b])) (Raise e).
Proof.
  induction before as [ | b0 before IH]; intros starts acc b after e Hs Hans He;
    destruct starts as [ | i rest]; try discriminate Hs;
    cbn [map app] in Hs; injection Hs as Hb Hrest; cbn [bulk_loop].
  - rewrite Hb. unfold mbind, session_bind, _get. cbn [log answer].
    rewrite He. reflexivity.
  - rewrite Hb. inversion Hans as [ | ? ? [data Hdata] Hans']; subst.
    unfold mbind, session_bind, _get. cbn [log answer]. rewrite Hdata.
    rewrite (IH rest (acc ++ default [] data) b after e Hrest Hans' He).
    reflexivity.
Qed.

(** X14. For a positive batch size, [get_issues_bulk] cuts the keys
    into consecutive batches: together they are the list of keys, each
    has at least one key and at most the batch size, all but the last
    have exactly the batch size, and there are as many as the length
    divided by the batch size, rounded up.  It sends one search for each
    batch, in order, and nothing else, and stops at the first search
    that the server answers with an error, which it raises: when the
    searches of the batches before some batch are answered and the
    search of that batch is not, the run is these searches, that one
    included, and ends with the error of the server.  When all are
    answered it returns the issues of all answers in order. *)
Theorem get_issues_bulk_batches :
  forall (server : Jira.server) (issue_keys : list string) (batch_size : Z),
    0 < batch_size ->
    let run := get_issues_bulk server issue_keys batch_size in
    exists batches,
      concat batches = issue_keys
      /\ Forall (fun b => (1 <= length b <= Z.to_nat batch_size)%nat) batches
      /\ Forall (fun b => length b = Z.to_nat batch_size)
           (firstn (length batches - 1) batches)
      /\ length batches
         = ((length issue_keys + Z.to_nat batch_size - 1)
            / Z.to_nat batch_size)%nat
      /\ Forall (fun e => exists q, e = Get q) (log run)
      /\ (exists k, searches (log run)
                    = map (fun b => bulk_search b batch_size)
                        (firstn k batches))
      /\ (Forall (fun b => answers server (bulk_search b batch_size)) batches ->
          searches (log run) = map (fun b => bulk_search b batch_size) batches
          /\ answer run
             = Ok (concat (map (fun b => served server
                                            (bulk_search b batch_size))
                             batches)))
      /\ (forall e, answer run = Raise e ->
                    exists b, In b batches
                              /\ server (bulk_search b batch_size) = Raise e)
      /\ (forall before b after e,
             batches = before ++ b :: after ->
             Forall (fun b => answers server (bulk_search b batch_size))
               before ->
             server (bulk_search b batch_size) = Raise e ->
             run = Session
                     (map (fun b => Get (bulk_search b batch_size))
                        (before ++ [b]))
                     (Raise e)).
Proof.
  intros server issue_keys batch_size Hbs run.
  destruct (range0_batches issue_keys batch_size Hbs)
    as (starts & Hr & Hcat & Hsize & Hfull & Hlen).
  exists (map (fun i => slice issue_keys i (Z.to_nat batch_size)) starts).
  split; [exact Hcat | ]. split; [exact Hsize | ].
  split; [exact Hfull | ]. split; [exact Hlen | ].
  unfold run, get_issues_bulk.
  destruct issue_keys as [ | key0 keys'].
  - assert (Hs : starts = []).
    { simpl in Hlen. rewrite length_map in Hlen.
      rewrite Nat.div_small in Hlen by lia.
      destruct starts; [reflexivity | discriminate Hlen]. }
    rewrite Hs. cbn. split; [constructor | ].
    split; [exists 0%nat; reflexivity | ].
    split; [intros _; split; reflexivity | ].
    split; [intros e [=] | ].
    intros before b after e Hb. destruct before; discriminate Hb.
  - rewrite Hr.
    destruct (bulk_loop_run server (key0 :: keys') batch_size starts [])
      as (Hk & Hget & Hall & Herr).
    split; [exact Hget | ]. split; [exact Hk | ].
    split; [exact Hall | ]. split; [exact Herr | ].
    intros before b after e Hb Hans He.
    apply (bulk_loop_stops server (key0 :: keys') batch_size before starts []
             b after e Hb Hans He).
Qed.

(** X15. The edge cases of [get_issues_bulk]: without keys it returns
    no issue and sends nothing, whatever the batch size; with keys, a
    batch size of 0 raises [ValueError] before anything is sent, and a
    negative batch size returns no issue, without a search and without
    an error. *)
Theorem get_issues_bulk_edge_cases :
  forall (server : Jira.server) (issue_keys : list string) (batch_size : Z),
    (issue_keys = [] ->
     get_issues_bulk server issue_keys batch_size = Session [] (Ok []))
    /\ (issue_keys <> [] -> batch_size = 0 ->
        get_issues_bulk server issue_keys batch_size
        = Session [] (Raise ValueError))
    /\ (issue_keys <> [] -> batch_size < 0 ->
        get_issues_bulk server issue_keys batch_size = Session [] (Ok [])).
Proof.
  intros server issue_keys batch_size. unfold get_issues_bulk, range0.
  destruct issue_keys as [ | k keys]; [repeat split; congruence | ].
  split; [discriminate | ]. split.
  - intros _ ->. reflexivity.
  - intros _ Hn. destruct (Z.eqb_spec batch_size 0); [lia | ].
    destruct (Z.ltb_spec batch_size 0); [reflexivity | lia].
Qed.

End Batches.

Lemma get_issues_bulk_batches_witness :
  exists batches,
    concat batches = Example.five_keys
    /\ length batches = 3%nat
    /\ Measure.searches
         (log (XrayQueries.get_issues_bulk Example.jira Example.five_keys 2))
       = map (fun b => XrayQueries.bulk_search b 2) batches.
Proof.
  destruct (get_issues_bulk_batches Example.jira Example.five_keys 2
              ltac:(lia))
    as (batches & Hcat & Hsize & _ & Hlen & _ & _ & Hall & _).
  exists batches. split; [exact Hcat | ]. split; [exact Hlen | ].
  apply Hall. clear. induction batches as [ | b l IH]; constructor.
  - eexists. reflexivity.
  - exact IH.
Defined.

Lemma get_issues_bulk_edge_cases_witness :
  XrayQueries.get_issues_bulk Example.jira Example.five_keys (-2)
  = Session [] (Ok []).
Proof.
  apply (proj2 (proj2 (get_issues_bulk_edge_cases Example.jira
                         Example.five_keys (-2)))).
  - discriminate.
  - lia.
Defined.

(** ** The mapping fetched from Jira *)

Section Fetch.
Import XrayQueries Measure.

Lemma searches_app l1 l2 : searches (l1 ++ l2) = searches l1 ++ searches l2.
Proof. unfold searches. apply flat_map_app. Qed.

Lemma searches_say line l : searches (Say line :: l) = searches l.
Proof. reflexivity. Qed.

Lemma summary_to_key_lookup issues s :
  summary_to_key issues !! s
  = Jira.key
    <$> List.find (fun issue => String.eqb (Jira.summary issue) s)
          (rev issues).
Proof.
  unfold summary_to_key.
  induction issues as [ | x l IH] using rev_ind; [reflexivity | ].
  rewrite fold_left_app, rev_app_distr. simpl.
  destruct (String.eqb_spec (Jira.summary x) s) as [<- | Hne].
  - rewrite lookup_insert_eq. reflexivity.
  - rewrite lookup_insert_ne by exact Hne. exact IH.
Qed.

Lemma get_answered server q :
  answers server q -> _get server q = Session [Get q] (Ok (served server q)).
Proof. intros [d Hd]. unfold _get, served. rewrite Hd. reflexivity. Qed.

Lemma get_issues_bulk_answered server keys :
  (forall q, answers server q) ->
  exists batches,
    concat batches = keys
    /\ Forall (fun b => (1 <= length b <= 100)%nat) batches
    /\ searches (log (get_issues_bulk server keys 100))
       = map (fun b => bulk_search b 100) batches
    /\ answer (get_issues_bulk server keys 100)
       = Ok (concat (map (fun b => served server (bulk_search b 100)) batches)).
Proof.
  intros Hans. destruct keys as [ | k0 keys'].
  - exists []. repeat split; constructor.
  - destruct (range0_batches (k0 :: keys') 100 ltac:(lia))
      as (starts & Hr & Hcat & Hsize & _ & _).
    exists (map (fun i => slice (k0 :: keys') i (Z.to_nat 100)) starts).
    split; [exact Hcat | ]. split; [exact Hsize | ].
    unfold get_issues_bulk. rewrite Hr.
    destruct (bulk_loop_run server (k0 :: keys') 100 starts [])
      as (_ & _ & Hall & _).
    apply Hall. apply List.Forall_forall. intros b _. apply Hans.
Qed.

(** X16. When the server answers every search, [fetch_from_xray] first
    searches for the test set and keeps the first issue whose summary is
    exactly the name.  Without such an issue it returns the empty
    mapping after that one search.  Otherwise it searches for the tests
    of the set and then for their summaries in batches of at most 100
    keys, which together are the keys of the tests in order; the mapping
    it returns gives for a summary the key of the last returned issue
    with that summary, and nothing for a summary that no returned issue
    has. *)
Theorem fetch_from_xray_mapping :
  forall (server : Jira.server) (project_key test_set_name : string),
    (forall q, answers server q) ->
    let run := fetch_from_xray server project_key test_set_name in
    let first_search := test_set_search project_key test_set_name in
    match List.find
            (fun issue => String.eqb (Jira.summary issue) test_set_name)
            (served server first_search) with
    | None => answer run = Ok ∅ /\ searches (log run) = [first_search]
    | Some test_set =>
        let second_search := tests_search (Jira.key test_set) in
        let test_keys := map Jira.key (served server second_search) in
        exists batches mapping,
          concat batches = test_keys
          /\ Forall (fun b => (1 <= length b <= 100)%nat) batches
          /\ searches (log run)
             = first_search :: second_search
               :: map (fun b => bulk_search b 100) batches
          /\ answer run = Ok mapping
          /\ forall s,
               mapping !! s
               = Jira.key
                 <$> List.find
                       (fun issue => String.eqb (Jira.summary issue) s)
                       (rev (concat
                               (map (fun b => served server (bulk_search b 100))
                                  batches)))
    end.
Proof.
  intros server project_key test_set_name Hans run first_search.
  unfold run, first_search, fetch_from_xray, find_test_set_by_name,
    get_tests_from_test_set.
  clear run first_search.
  rewrite (get_answered _ _
             (Hans (test_set_search project_key test_set_name))).
  destruct (List.find _
              (served server (test_set_search project_key test_set_name)))
    as [test_set | ] eqn:Hf.
  - cbv zeta.
    destruct (get_issues_bulk_answered server
                (map Jira.key (served server (tests_search (Jira.key test_set))))
                Hans) as (batches & Hcat & Hsize & Hlog & Hanswer).
    exists batches.
    exists (summary_to_key
              (concat (map (fun b => served server (bulk_search b 100))
                         batches))).
    split; [exact Hcat | ]. split; [exact Hsize | ].
    split; [ | split; [ | apply summary_to_key_lookup]];
    unfold mbind, session_bind, mret, session_ret, say; cbn [log answer app];
    rewrite Hf;
    rewrite (get_answered _ _ (Hans (tests_search (Jira.key test_set))));
    cbn [log answer app];
    (destruct (map Jira.key (served server (tests_search (Jira.key test_set))))
       as [ | k0 keys'] eqn:Ek;
     [ assert (Hb : batches = []) by
         (destruct batches as [ | b l]; [reflexivity | ];
          inversion Hsize as [ | ? ? Hb _]; subst; simpl in Hcat;
          destruct b; [simpl in Hb; lia | discriminate Hcat]);
       subst batches; reflexivity
     | cbn [log answer app]; rewrite Hanswer; cbn [log answer];
       repeat first [ rewrite searches_say | rewrite searches_get
                    | rewrite searches_app ];
       rewrite ?Hlog; cbn [searches flat_map]; rewrite ?app_nil_r;
       reflexivity ]).
  - unfold mbind, session_bind, mret, session_ret, say. cbn [log answer].
    rewrite Hf. cbn. split; reflexivity.
Qed.

End Fetch.

Lemma fetch_from_xray_mapping_witness :
  exists batches mapping,
    concat batches = ["LCTEST-10"; "LCTEST-11"; "LCTEST-12"]
    /\ answer (XrayQueries.fetch_from_xray Example.jira "LCTEST"
                 "rs-automation") = Ok mapping.
Proof.
  pose proof (fetch_from_xray_mapping Example.jira "LCTEST" "rs-automation")
    as H.
  assert (Hans : forall q, Measure.answers Example.jira q).
  { intros q. unfold Measure.answers, Example.jira.
    destruct (Jira.fields q) as [f | ]; [ | eexists; reflexivity].
    destruct (String.eqb f "key"); eexists; reflexivity. }
  specialize (H Hans). cbv zeta in H.
  assert (E : List.find
                (fun issue => String.eqb (Jira.summary issue) "rs-automation")
                (Measure.served Example.jira
                   (XrayQueries.test_set_search "LCTEST" "rs-automation"))
              = Some (Jira.mk_issue "LCTEST-2" "rs-automation"))
    by reflexivity.
  rewrite E in H.
  destruct H as (batches & mapping & Hc & _ & _ & Ha & _).
  exists batches, mapping. split; [exact Hc | exact Ha].
Defined.

(** ** The import request *)

Section ImportRequest.

(** X17. [import_execution_results] sends one request, to the import
    endpoint, for the given execution, with one entry for each result in
    the order of the results; an entry has the test key and the status
    of its result, and as comment the first 32000 characters of the
    result's comment, which is the whole comment when that is not
    longer. *)
Theorem import_request_has_one_entry_per_result :
  forall (execution_key : string) (results : list ResultDict.t),
    exists tests,
      trace (XrayClient.import_execution_results execution_key results)
      = [HttpPostImport "/rest/raven/1.0/import/execution"
           execution_key tests]
      /\ Forall2
           (fun r t =>
              Xray.testKey t = ResultDict.test_key r
              /\ Xray.status t = ResultDict.status r
              /\ Xray.comment t
                 = substring 0 (N.to_nat 32000) (ResultDict.comment r)
              /\ (N.of_nat (String.length (Xray.comment t)) <= 32000)%N
              /\ String.prefix (Xray.comment t) (ResultDict.comment r) = true
              /\ ((N.of_nat (String.length (ResultDict.comment r)) <= 32000)%N
                  -> Xray.comment t = ResultDict.comment r))
           results tests.
Proof.
  intros execution_key results.
  exists (XrayClient.import_tests results). split; [reflexivity | ].
  unfold XrayClient.import_tests.
  induction results as [ | r results IH]; simpl; constructor; [ | exact IH].
  cbn [Xray.testKey Xray.status Xray.comment].
  split; [reflexivity | ]. split; [reflexivity | ].
  split; [apply slice_to_substring | ].
  split; [rewrite slice_to_length; lia | ].
  split; [apply slice_to_prefix | ].
  intros Hshort. apply slice_to_all. lia.
Qed.

End ImportRequest.

Lemma import_request_has_one_entry_per_result_witness :
  exists tests,
    trace (XrayClient.import_execution_results "EXEC-1"
             [@AggregatedResult.to_dict Sample.floats Sample.group])
    = [HttpPostImport "/rest/raven/1.0/import/execution" "EXEC-1" tests]
    /\ length tests = 1%nat.
Proof.
  destruct (import_request_has_one_entry_per_result "EXEC-1"
              [@AggregatedResult.to_dict Sample.floats Sample.group])
    as (tests & Hreq & Hall).
  exists tests. split; [exact Hreq | ].
  inversion Hall as [ | ? ? ? ? _ Hrest]; subst.
  inversion Hrest; subst. reflexivity.
Defined.

(** ** The storage client wrapper *)

Section ClientWrapper.
Import S3Client.

(** The clients that are open after some events. *)
Lemma created_snoc events e :
  created (events ++ [e])
  = (created events + match e with Created _ => 1 | Closed _ => 0 end)%nat.
Proof.
  unfold created. rewrite List.filter_app, length_app.
  destruct e; simpl; lia.
Qed.

Lemma call_invariant (m : method) (self : t) :
  Measure.open_clients (history self) = option_list (client self) ->
  (forall h, client self = Some h -> h < created (history self))%nat ->
  Measure.open_clients (history (call self m))
  = option_list (client (call self m))
  /\ (forall h, client (call self m) = Some h ->
                (h < created (history (call self m)))%nat).
Proof.
  intros Hopen Hlt. unfold Measure.open_clients in *.
  destruct self as [[h | ] events]; destruct m;
    unfold call, connect, close; cbn [client history fst snd] in *.
  - split; [exact Hopen | exact Hlt].
  - rewrite fold_left_app, Hopen. simpl.
    rewrite Nat.eqb_refl. simpl. split; [reflexivity | discriminate].
  - rewrite fold_left_app, Hopen. simpl. split; [reflexivity | ].
    intros h [= <-]. rewrite created_snoc. lia.
  - split; [exact Hopen | discriminate].
Qed.

(** X18. However [connect] and [close] of the wrapper are called, at
    most one client is open at any time, and it is the one the wrapper
    holds: [connect] creates a client only when none is held and returns
    the held one otherwise, and [close] closes the held one and nothing
    when none is held.  So [connect] after [connect] changes nothing,
    and neither does [close] after [close]. *)
Theorem wrapper_holds_the_one_open_client :
  forall (calls : list method),
    let self := fold_left call calls new in
    Measure.open_clients (history self) = option_list (client self)
    /\ (forall h, client self = Some h ->
                  snd (connect self) = h /\ fst (connect self) = self)
    /\ fst (connect (fst (connect self))) = fst (connect self)
    /\ snd (connect (fst (connect self))) = snd (connect self)
    /\ close (close self) = close self
    /\ client (close self) = None
    /\ client (fst (connect self)) = Some (snd (connect self)).
Proof.
  intros calls self.
  assert (Inv : Measure.open_clients (history self) = option_list (client self)
                /\ (forall h, client self = Some h ->
                              (h < created (history self))%nat)).
  { unfold self. induction calls as [ | m calls IH] using rev_ind.
    - split; [reflexivity | discriminate].
    - rewrite fold_left_app. simpl. destruct IH as [H1 H2].
      apply call_invariant; assumption. }
  destruct Inv as [Hopen _]. split; [exact Hopen | ].
  clear Hopen. generalize self. clear self calls.
  intros [[h | ] events]; unfold connect, close; cbn [client history fst snd].
  - split; [intros h' [= <-]; split; reflexivity | repeat split].
  - split; [discriminate | repeat split].
Qed.

End ClientWrapper.

(** ** The index of a stream data set *)

Section Index.
Import Utils.

Lemma insert_by_name_perm f l : Permutation (f :: l) (insert_by_name f l).
Proof.
  induction l as [ | g l IH]; simpl; [reflexivity | ].
  destruct (String.leb _ _); [reflexivity | ].
  rewrite perm_swap. apply perm_skip, IH.
Qed.

Lemma sort_by_name_perm l : Permutation l (sort_by_name l).
Proof.
  induction l as [ | f l IH]; simpl; [reflexivity | ].
  rewrite <- insert_by_name_perm. apply perm_skip, IH.
Qed.

Lemma insert_by_name_sorted f l :
  Sorted.Sorted Measure.name_le l ->
  Sorted.Sorted Measure.name_le (insert_by_name f l).
Proof.
  induction l as [ | g l IH]; intros Hs; simpl.
  - repeat constructor.
  - destruct (String.leb (UploadTool.name f) (UploadTool.name g)) eqn:E.
    + constructor; [exact Hs | constructor; exact E].
    + inversion Hs as [ | ? ? Hl Hhd]; subst.
      constructor; [apply IH, Hl | ].
      assert (Hgf : Measure.name_le g f).
      { unfold Measure.name_le.
        destruct (String.leb_total (UploadTool.name f) (UploadTool.name g));
          congruence. }
      destruct l as [ | h l]; simpl.
      * constructor. exact Hgf.
      * destruct (String.leb (UploadTool.name f) (UploadTool.name h));
          constructor; [exact Hgf | ].
        inversion Hhd; assumption.
Qed.

Lemma sort_by_name_sorted l : Sorted.Sorted Measure.name_le (sort_by_name l).
Proof.
  induction l as [ | f l IH]; simpl; [constructor | ].
  apply insert_by_name_sorted, IH.
Qed.

(** X19. The index that [build_index] returns lists the given files in
    ascending order of their names: its entries are as many as the
    files, their names are a rearrangement of the names of the files and
    each is at most the next, and each entry carries the size and the
    modification time of its file.  The data set is the prefix, and the
    list of files is left in that order. *)
Theorem build_index_sorted_by_name :
  forall (stat : string -> stat_result) (prefix : string)
         (given : list UploadTool.File),
    let sorted := fst (build_index stat prefix given) in
    let index := snd (build_index stat prefix given) in
    dataset index = prefix
    /\ Permutation given sorted
    /\ Sorted.Sorted Measure.name_le sorted
    /\ length (files index) = length given
    /\ Permutation (map UploadTool.name given) (map name (files index))
    /\ Sorted.Sorted (fun a b => String.leb (name a) (name b) = true)
         (files index)
    /\ Forall2
         (fun f entry =>
            name entry = UploadTool.name f
            /\ size entry = st_size (stat (UploadTool.path f))
            /\ last_modified entry
               = st_mtime_iso (stat (UploadTool.path f)) +:+ "Z")
         sorted (files index).
Proof.
  intros stat prefix given sorted index. unfold index, sorted, build_index.
  cbn [fst snd dataset files].
  pose proof (sort_by_name_perm given) as Hp.
  pose proof (sort_by_name_sorted given) as Hs.
  split; [reflexivity | ]. split; [exact Hp | ]. split; [exact Hs | ].
  split; [rewrite length_map; symmetry; apply Permutation_length, Hp | ].
  split.
  { rewrite List.map_map. cbn [name]. apply Permutation_map, Hp. }
  split.
  - clear Hp. induction Hs as [ | f l Hl IH Hhd]; simpl; constructor.
    + exact IH.
    + destruct Hhd; simpl; constructor. assumption.
  - clear. induction (sort_by_name given) as [ | f l IH]; simpl; constructor.
    + repeat split.
    + exact IH.
Qed.

End Index.
